(** * The bot deployment broker (server.js), both snapshots

    A shallow embedding of the Express handlers of [server.js]: the
    deployment limit check, the app name generation, the Heroku
    provisioning sequence, and the listing and deletion routes, followed
    by the properties the specification states about them.

    The source file holds two snapshots of the server.  The first one
    (called [V1] below) provisions on Heroku; the second one ([V2])
    creates unique indexes, stores the session and configuration, and
    leaves the Heroku calls out.  What the two share is defined once.

    A handler is a computation over the state it can touch (the
    [deployments] collection and its indexes, the requests sent through
    axios, the console) that returns a value or throws; what MongoDB,
    Heroku, the pro-users document, [uuidv4] and the clock answer is read
    from an environment.  The process of the second snapshot (the [db]
    handle, the connection middleware, [/health]) comes after the
    handlers.  Left out: the static routes and the shutdown hook.  The
    fields of a request body and the token of a query string are
    arbitrary JSON values (the parser of the query string makes strings,
    arrays and objects), numbers are the safe integers, and the [limit]
    of a pro-users entry is absent or an integer. *)

From Stdlib Require Import String Ascii List ZArith Bool.
From Stdlib Require Import DecimalString.
Import ListNotations.
Local Open Scope list_scope.
Local Open Scope string_scope.
Local Set Warnings "-register-all".

(** ** JavaScript strings

    A string is a sequence of code units; the model covers the code
    units below 256 (Latin-1), one [ascii] each. *)

Definition code (c : ascii) : nat := nat_of_ascii c.

Definition between (lo hi : nat) (c : ascii) : bool :=
  (lo <=? code c)%nat && (code c <=? hi)%nat.

(** [String.prototype.toLowerCase], on Latin-1: A-Z and the accented
    capitals U+00C0..U+00DE (the multiplication sign U+00D7 apart) move
    up by 32. *)
Definition lower_char (c : ascii) : ascii :=
  if between 65 90 c || (between 192 222 c && negb (code c =? 215)%nat)
  then ascii_of_nat (code c + 32)
  else c.

Fixpoint map_chars (f : ascii -> ascii) (s : string) : string :=
  match s with
  | EmptyString => EmptyString
  | String c r => String (f c) (map_chars f r)
  end.

Definition toLowerCase (s : string) : string := map_chars lower_char s.

(** White space and line terminators of [String.prototype.trim] below
    256: TAB, LF, VT, FF, CR, SP, NBSP. *)
Definition is_space (c : ascii) : bool :=
  between 9 13 c || (code c =? 32)%nat || (code c =? 160)%nat.

Fixpoint trimStart (s : string) : string :=
  match s with
  | EmptyString => EmptyString
  | String c r => if is_space c then trimStart r else s
  end.

Fixpoint rev_append (s acc : string) : string :=
  match s with
  | EmptyString => acc
  | String c r => rev_append r (String c acc)
  end.

Definition reverse (s : string) : string := rev_append s EmptyString.

Definition trimEnd (s : string) : string := reverse (trimStart (reverse s)).

Definition trim (s : string) : string := trimEnd (trimStart s).

(** The character class [[a-z0-9-]]. *)
Definition in_name_class (c : ascii) : bool :=
  between 97 122 c || between 48 57 c || (code c =? 45)%nat.

Definition dash : ascii := "-"%char.

(** [.replace(/[^a-z0-9-]/g, '-')] *)
Definition replace_outside_class (s : string) : string :=
  map_chars (fun c => if in_name_class c then c else dash) s.

(** [.replace(/-+/g, '-')]: every maximal run of dashes becomes one. *)
Fixpoint collapse_dashes (s : string) : string :=
  match s with
  | EmptyString => EmptyString
  | String c r =>
      if (code c =? 45)%nat then
        match r with
        | String c' _ =>
            if (code c' =? 45)%nat then collapse_dashes r
            else String c (collapse_dashes r)
        | EmptyString => String c EmptyString
        end
      else String c (collapse_dashes r)
  end.

(** [.slice(0, n)] *)
Definition slice0 (n : nat) (s : string) : string := substring 0 n s.

Definition is_hex (c : ascii) : bool := between 48 57 c || between 97 102 c.

Fixpoint all_chars (p : ascii -> bool) (s : string) : bool :=
  match s with
  | EmptyString => true
  | String c r => p c && all_chars p r
  end.

(** A version 4 UUID in its canonical text form: 36 characters, dashes at
    8, 13, 18 and 23, lower-case hexadecimal digits elsewhere. *)
Fixpoint uuid_shape (i : nat) (s : string) : bool :=
  match s with
  | EmptyString => (i =? 36)%nat
  | String c r =>
      (if (i =? 8)%nat || (i =? 13)%nat || (i =? 18)%nat || (i =? 23)%nat
       then (code c =? 45)%nat else is_hex c)
      && uuid_shape (S i) r
  end.

Definition is_uuid (s : string) : bool := uuid_shape 0 s.

(** Decimal rendering of an integer, as a template literal prints it. *)
Definition string_of_Z (n : Z) : string := NilZero.string_of_int (Z.to_int n).

Fixpoint join (sep : string) (l : list string) : string :=
  match l with
  | [] => ""
  | [x] => x
  | x :: r => x ++ sep ++ join sep r
  end.

(** ** JavaScript values

    What a parsed JSON or url-encoded body can hold, and [undefined] for
    a key that is not there.  Numbers are the safe integers: [JNum n]
    stands for the number n when |n| < 2^53, where the language prints
    the digits of n. *)

Inductive jsval :=
| JUndefined
| JNull
| JBool (b : bool)
| JNum (n : Z)
| JStr (s : string)
| JArr (items : list jsval)
| JObj (fields : list (string * jsval)).

(** ToBoolean *)
Definition truthy (v : jsval) : bool :=
  match v with
  | JUndefined | JNull => false
  | JBool b => b
  | JNum n => negb (n =? 0)%Z
  | JStr s => negb (s =? "")
  | JArr _ | JObj _ => true
  end.

(** Exceptions: a [TypeError] of the language, an error of the MongoDB
    driver with its code, or an axios error, whose [response] is there
    when the server answered. *)
Inductive exn :=
| TypeError (msg : string)
| MongoError (code : Z) (msg : string)
| AxiosError (msg : string) (response : option jsval).

(** [error.message] *)
Definition error_message (e : exn) : string :=
  match e with
  | TypeError m | MongoError _ m | AxiosError m _ => m
  end.

(** [error.response?.data] *)
Definition response_data (e : exn) : jsval :=
  match e with
  | AxiosError _ (Some d) => d
  | _ => JUndefined
  end.

Inductive result (A : Type) :=
| Ok (a : A)
| Throw (e : exn).
Arguments Ok {A} a.
Arguments Throw {A} e.

(** The own properties of a plain object, in property order. *)
Fixpoint lookup (k : string) (fields : list (string * jsval)) : option jsval :=
  match fields with
  | [] => None
  | (k', v) :: r => if k' =? k then Some v else lookup k r
  end.

(** ToString, as a template literal and a property key apply it.  No
    property of a parsed body is callable.  A plain object without an
    own [toString] key is answered by [Object.prototype.toString]; with
    one, neither that key nor [valueOf] yields a primitive and the
    conversion throws.  An array is joined by [Array.prototype.join],
    which converts every element but [null] and [undefined], in order. *)
Fixpoint toString (v : jsval) : result string :=
  match v with
  | JUndefined => Ok "undefined"
  | JNull => Ok "null"
  | JBool true => Ok "true"
  | JBool false => Ok "false"
  | JNum n => Ok (string_of_Z n)
  | JStr s => Ok s
  | JArr items =>
      match (fix each (l : list jsval) : result (list string) :=
               match l with
               | [] => Ok []
               | x :: r =>
                   match (match x with
                          | JUndefined | JNull => Ok ""
                          | _ => toString x
                          end) with
                   | Throw e => Throw e
                   | Ok s =>
                       match each r with
                       | Throw e => Throw e
                       | Ok parts => Ok (s :: parts)
                       end
                   end
               end) items with
      | Throw e => Throw e
      | Ok parts => Ok (join "," parts)
      end
  | JObj fields =>
      match lookup "toString" fields with
      | Some _ => Throw (TypeError "Cannot convert object to primitive value")
      | None => Ok "[object Object]"
      end
  end.

(** [username.toLowerCase()]: a method of strings only. *)
Definition call_toLowerCase (v : jsval) : result string :=
  match v with
  | JStr s => Ok (toLowerCase s)
  | JUndefined =>
      Throw (TypeError "Cannot read properties of undefined (reading 'toLowerCase')")
  | JNull =>
      Throw (TypeError "Cannot read properties of null (reading 'toLowerCase')")
  | _ => Throw (TypeError "username.toLowerCase is not a function")
  end.

(** [v?.trim()]: [undefined] for [null] and [undefined], the trimmed
    string for a string, a [TypeError] for anything else. *)
Definition optional_trim (v : jsval) : result jsval :=
  match v with
  | JUndefined | JNull => Ok JUndefined
  | JStr s => Ok (JStr (trim s))
  | _ => Throw (TypeError "appname?.trim is not a function")
  end.

(** [v.prop] *)
Definition get_prop (v : jsval) (prop : string) : result jsval :=
  match v with
  | JUndefined =>
      Throw (TypeError ("Cannot read properties of undefined (reading '" ++ prop ++ "')"))
  | JNull =>
      Throw (TypeError ("Cannot read properties of null (reading '" ++ prop ++ "')"))
  | JObj fields => Ok (match lookup prop fields with Some x => x | None => JUndefined end)
  | _ => Ok JUndefined
  end.

(** [Object.entries(v)]: own enumerable string-keyed properties. *)
Definition index_key (i : nat) : string := string_of_Z (Z.of_nat i).

Fixpoint indexed {A : Type} (i : nat) (l : list A) : list (string * A) :=
  match l with
  | [] => []
  | x :: r => (index_key i, x) :: indexed (S i) r
  end.

Fixpoint chars (s : string) : list jsval :=
  match s with
  | EmptyString => []
  | String c r => JStr (String c EmptyString) :: chars r
  end.

Definition object_entries (v : jsval) : result (list (string * jsval)) :=
  match v with
  | JUndefined | JNull => Throw (TypeError "Cannot convert undefined or null to object")
  | JObj fields => Ok fields
  | JArr items => Ok (indexed 0 items)
  | JStr s => Ok (indexed 0 (chars s))
  | JBool _ | JNum _ => Ok []
  end.

(** [obj[key] = v] on a plain object: an own property is overwritten in
    place or appended; the key [__proto__] reaches the prototype setter
    and makes no own property. *)
Fixpoint assign (obj : list (string * jsval)) (key : string) (v : jsval)
  : list (string * jsval) :=
  match obj with
  | [] => [(key, v)]
  | (k, x) :: r => if k =? key then (k, v) :: r else (k, x) :: assign r key v
  end.

Definition set_prop (obj : list (string * jsval)) (key : string) (v : jsval)
  : list (string * jsval) :=
  if key =? "__proto__" then obj else assign obj key v.

(** ** The deployments collection, the outside world, the handler state *)

(** A document of the collection.  [d_id] is the [_id] the driver adds;
    [d_session_id] and [d_config] are fields of the second snapshot only
    and are not there ([None]) in a document of the first. *)
Record deployment := mkDeployment {
  d_id : nat;
  d_username : string;
  d_name : string;
  d_type : jsval;
  d_token : string;
  d_createdAt : Z;
  d_session_id : option jsval;
  d_config : option jsval }.

(** What the driver writes for a field of the document it is given:
    [undefined] is stored as [null]. *)
Definition bson (v : jsval) : jsval :=
  match v with
  | JUndefined => JNull
  | _ => v
  end.

(** The document as the driver writes it. *)
Definition serialize (d : deployment) : deployment :=
  mkDeployment (d_id d) (d_username d) (d_name d) (bson (d_type d)) (d_token d)
               (d_createdAt d) (option_map bson (d_session_id d))
               (option_map bson (d_config d)).

Inductive key := KUsername | KToken | KName.

Definition key_of (k : key) (d : deployment) : string :=
  match k with
  | KUsername => d_username d
  | KToken => d_token d
  | KName => d_name d
  end.

Definition index_name (k : key) : string :=
  match k with
  | KUsername => "username_1"
  | KToken => "token_1"
  | KName => "name_1"
  end.

Record index := mkIndex { idx_key : key; idx_unique : bool }.

(** An outbound HTTP request made through axios.  [data] is the body as
    the serializer reads it: a key that holds [undefined] or a function
    is left out of what is sent, and is [JUndefined] here. *)
Record http_call := mkCall {
  method : string;
  url : string;
  data : jsval;
  headers : list (string * string) }.

(** An entry of the remote pro-users document.  [pu_username] is [None]
    for an entry on which [user.username.toLowerCase()] throws (not an
    object, or its [username] is not a string); [pu_limit] is [None] when
    [limit] is absent or [null], and an integer otherwise. *)
Record pro_user := mkProUser {
  pu_username : option string;
  pu_limit : option Z }.

Inductive db_op :=
| Connect | CreateIndex | CountDocuments | FindOne | Find | DeleteOne | InsertOne.

(** What the outside world answers during one request.
    - [db_fault op]: the driver rejects that operation with the error
      (connection lost, [db] still undefined, ...);
    - [axios c]: [None] when the request [c] resolves, the error when it
      is rejected;
    - [proUsers_data]: the parsed body of the pro-users document, [None]
      when it is not an array;
    - [getRandomHerokuKey]: the key [./herokuApiSelector] hands out;
    - [uuidv4 n]: the value of the n-th call of [uuidv4()];
    - [now]: [new Date()];
    - [dup_key_message index key]: the text of the driver's E11000
      error;
    - [matches_query q v]: whether the database selects a document whose
      token is [v] for the filter [{ token: q }], when [q] is not a
      string (an operator document such as [{ $ne: 'x' }], an array);
    - [bad_query q]: the error of the database when it refuses such a
      filter (an unknown operator). *)
Record env := mkEnv {
  db_fault : db_op -> option exn;
  axios : http_call -> option exn;
  proUsers_data : option (list pro_user);
  getRandomHerokuKey : string;
  uuidv4 : nat -> string;
  now : Z;
  dup_key_message : string -> string -> string;
  matches_query : jsval -> string -> bool;
  bad_query : jsval -> option exn }.

(** What [console.error] is given after its label. *)
Inductive logged :=
| LogExn (e : exn)
| LogVal (v : jsval).

Record state := mkState {
  store : list deployment;
  indexes : list index;
  sent : list http_call;
  console : list (string * logged);
  uuids : nat;
  ids : nat }.

Definition set_store (f : list deployment -> list deployment) (st : state) : state :=
  mkState (f (store st)) (indexes st) (sent st) (console st) (uuids st) (ids st).

(** The state with the requests [cs] sent, and with the lines [ls]
    written on the console. *)
Definition sending (cs : list http_call) (st : state) : state :=
  mkState (store st) (indexes st) (sent st ++ cs) (console st) (uuids st) (ids st).

Definition logging (ls : list (string * logged)) (st : state) : state :=
  mkState (store st) (indexes st) (sent st) (console st ++ ls) (uuids st) (ids st).

(** The state with one more UUID drawn. *)
Definition after_uuid (st : state) : state :=
  mkState (store st) (indexes st) (sent st) (console st) (S (uuids st)) (ids st).

(** The state with the document [d] appended to the collection. *)
Definition inserted (d : deployment) (st : state) : state :=
  mkState (store st ++ [d]) (indexes st) (sent st) (console st) (uuids st) (S (ids st)).

(** Same collection, indexes and counters. *)
Definition same_data (st st' : state) : Prop :=
  store st' = store st /\ indexes st' = indexes st
  /\ uuids st' = uuids st /\ ids st' = ids st.

(** ** The monad of a handler: state, and exceptions that keep the state

    A computation is the run of one handler from the state it finds to
    the state it leaves, with no other request served in between: the
    handlers give up control at every [await], and what another request
    does to the collection between two of them is not part of a run. *)

Definition M (A : Type) : Type := state -> result A * state.

Definition ret {A} (a : A) : M A := fun st => (Ok a, st).

Definition bind {A B} (m : M A) (k : A -> M B) : M B :=
  fun st =>
    match m st with
    | (Ok a, st') => k a st'
    | (Throw e, st') => (Throw e, st')
    end.

Definition throw {A} (e : exn) : M A := fun st => (Throw e, st).

Definition lift {A} (r : result A) : M A := fun st => (r, st).

(** [try { m } catch (error) { h error }] *)
Definition try_catch {A} (m : M A) (h : exn -> M A) : M A :=
  fun st =>
    match m st with
    | (Ok a, st') => (Ok a, st')
    | (Throw e, st') => h e st'
    end.

Declare Scope js_scope.
Delimit Scope js_scope with js.
Notation "x <- m ;; k" := (bind m (fun x => k))
  (at level 61, m at next level, right associativity) : js_scope.
Notation "m ;; k" := (bind m (fun _ => k))
  (at level 61, right associativity) : js_scope.
Local Open Scope js_scope.

Definition console_error (label : string) (x : logged) : M unit :=
  fun st => (Ok tt, logging [(label, x)] st).

Definition count_occ_key (k : key) (v : string) (l : list deployment) : nat :=
  length (filter (fun d => key_of k d =? v) l).

Fixpoint distinct (l : list string) : bool :=
  match l with
  | [] => true
  | x :: r => negb (existsb (String.eqb x) r) && distinct r
  end.

(** [deleteOne]: the first matching document goes. *)
Fixpoint remove_first (p : deployment -> bool) (l : list deployment) : list deployment :=
  match l with
  | [] => []
  | d :: r => if p d then r else d :: remove_first p r
  end.

(** The first unique index that already holds the key of [d]. *)
Fixpoint violated (ixs : list index) (d : deployment) (l : list deployment) : option key :=
  match ixs with
  | [] => None
  | ix :: r =>
      if idx_unique ix && existsb (fun d' => key_of (idx_key ix) d' =? key_of (idx_key ix) d) l
      then Some (idx_key ix)
      else violated r d l
  end.

Section World.

Variable E : env.

Definition faulty {A} (op : db_op) (m : M A) : M A :=
  fun st =>
    match db_fault E op with
    | Some e => (Throw e, st)
    | None => m st
    end.

(** [await axios(c)] *)
Definition request (c : http_call) : M unit :=
  fun st =>
    match axios E c with
    | Some e => (Throw e, sending [c] st)
    | None => (Ok tt, sending [c] st)
    end.

(** [uuidv4()] *)
Definition next_uuid : M string :=
  fun st => (Ok (uuidv4 E (uuids st)), after_uuid st).

(** [db.collection('deployments').countDocuments({ username: u })] *)
Definition countDocuments (u : string) : M nat :=
  faulty CountDocuments (fun st => (Ok (count_occ_key KUsername u (store st)), st)).

(** Whether the filter [{ token }] selects a document whose token is
    [v]: a string selects by equality, anything else as the database
    reads it. *)
Definition selects (token : jsval) (v : string) : bool :=
  match token with
  | JStr s => v =? s
  | _ => matches_query E token v
  end.

(** The error of the database for a filter [{ token }] it cannot read;
    a string is always read. *)
Definition refused (token : jsval) : option exn :=
  match token with
  | JStr _ => None
  | _ => bad_query E token
  end.

(** [db.collection('deployments').findOne({ token })]: the first
    document the filter selects. *)
Definition findOne (token : jsval) : M (option deployment) :=
  faulty FindOne
    (fun st =>
       match refused token with
       | Some e => (Throw e, st)
       | None => (Ok (find (fun d => selects token (d_token d)) (store st)), st)
       end).

(** [db.collection('deployments').find({ username: u })], before the
    projection. *)
Definition find_by_username (u : string) : M (list deployment) :=
  faulty Find (fun st => (Ok (filter (fun d => d_username d =? u) (store st)), st)).

(** [db.collection('deployments').deleteOne({ name })] *)
Definition deleteOne (name : string) : M unit :=
  faulty DeleteOne
    (fun st => (Ok tt, set_store (remove_first (fun d => d_name d =? name)) st)).

(** [db.collection('deployments').insertOne(doc)]: the driver adds the
    [_id] and writes [null] for a field that is [undefined]; a unique
    index that already holds the key rejects the document with error
    11000. *)
Definition insertOne (doc : nat -> deployment) : M unit :=
  faulty InsertOne
    (fun st =>
       let d := serialize (doc (ids st)) in
       match violated (indexes st) d (store st) with
       | Some k =>
           (Throw (MongoError 11000
                     (dup_key_message E (index_name k) (key_of k d))), st)
       | None => (Ok tt, inserted d st)
       end).

(** [db.collection('deployments').createIndex({ k: 1 }, { unique })] *)
Definition createIndex (k : key) (unique : bool) : M unit :=
  faulty CreateIndex
    (fun st =>
       if unique && negb (distinct (map (key_of k) (store st)))
       then (Throw (MongoError 11000
                      (dup_key_message E (index_name k) "")), st)
       else (Ok tt, mkState (store st) (indexes st ++ [mkIndex k unique])
                            (sent st) (console st) (uuids st) (ids st))).

End World.

(** ** Requests and responses *)

(** [req.body] of [POST /deploy], destructured. *)
Record deploy_body := mkBody {
  username : jsval;
  session_id : jsval;
  appname : jsval;
  bot_type : jsval;
  config : jsval }.

(** A document after [.project({ _id: 0, name: 1, type: 1, createdAt: 1 })]. *)
Record bot := mkBot {
  name : string;
  type : jsval;
  createdAt : Z }.

Definition project (d : deployment) : bot :=
  mkBot (d_name d) (d_type d) (d_createdAt d).

(** The objects given to [res.json]. *)
Inductive json_body :=
| ErrorBody (error : string)
| FailureBody (error : string) (details : jsval)
| CountBody (count : nat)
| BotsBody (bots : list bot)
| MessageBody (message : string)
| StartedBody (message token : string)
| StartedNamedBody (message token appName : string).

Record response := mkResponse { status : Z; body : json_body }.

(** The [token] and the [appName] of a body, when it has them. *)
Definition token_of (b : json_body) : option string :=
  match b with
  | StartedBody _ t | StartedNamedBody _ t _ => Some t
  | _ => None
  end.

Definition appName_of (b : json_body) : option string :=
  match b with
  | StartedNamedBody _ _ n => Some n
  | _ => None
  end.

(** [res.status(code).json(b)], and [res.json(b)] with its default 200. *)
Definition json (code : Z) (b : json_body) : response := mkResponse code b.

(** The answer every failure of the second [try] of [POST /deploy] gets:
    500 with the label "Deployment failed". *)
Definition generic_failure (r : response) : Prop :=
  status r = 500%Z /\ exists details, body r = FailureBody "Deployment failed" details.


Definition REPOSITORIES : list (string * string) :=
  [("khan", "https://github.com/JawadTechXD/KHAN-MD/tarball/main");
   ("jawad", "https://github.com/JawadTechXD/JAWAD-MD/tarball/main")].

Fixpoint assoc (k : string) (l : list (string * string)) : option string :=
  match l with
  | [] => None
  | (k', v) :: r => if k' =? k then Some v else assoc k r
  end.

(** The methods an object literal inherits from [Object.prototype]. *)
Definition inherited_methods : list string :=
  ["constructor"; "__defineGetter__"; "__defineSetter__"; "hasOwnProperty";
   "__lookupGetter__"; "__lookupSetter__"; "isPrototypeOf";
   "propertyIsEnumerable"; "toString"; "valueOf"; "toLocaleString"].

(** What a read of a property of [REPOSITORIES] finds: the URL of an own
    property, an inherited method, [Object.prototype] itself under
    [__proto__], or nothing. *)
Inductive property :=
| Own (url : string)
| Method
| Prototype
| Missing.

Definition REPOSITORIES_at (key : string) : property :=
  match assoc key REPOSITORIES with
  | Some u => Own u
  | None =>
      if key =? "__proto__" then Prototype
      else if existsb (String.eqb key) inherited_methods then Method
      else Missing
  end.

(** [REPOSITORIES[bot_type]]: the key is [bot_type] converted as
    [toString] converts it, which may throw. *)
Definition repository (bot_type : jsval) : result property :=
  match toString bot_type with
  | Ok key => Ok (REPOSITORIES_at key)
  | Throw e => Throw e
  end.

(** The property in the body of a request: a function is left out as
    [undefined] is, and [Object.prototype] has no enumerable property. *)
Definition in_body (p : property) : jsval :=
  match p with
  | Own u => JStr u
  | Method | Missing => JUndefined
  | Prototype => JObj []
  end.

Definition limit_message (deployments : nat) (userLimit : Z) : string :=
  "You've reached the maximum deployment limit ("
    ++ string_of_Z (Z.of_nat deployments) ++ "/" ++ string_of_Z userLimit
    ++ "). Please contact admin.".

(** [proUsers.find(user => user.username.toLowerCase() === u)] *)
Fixpoint find_proUser (proUsers : list pro_user) (u : string)
  : result (option pro_user) :=
  match proUsers with
  | [] => Ok None
  | user :: rest =>
      match pu_username user with
      | None =>
          Throw (TypeError "Cannot read properties of undefined (reading 'toLowerCase')")
      | Some n => if toLowerCase n =? u then Ok (Some user) else find_proUser rest u
      end
  end.

(** [proUser.limit || 5] *)
Definition limit_or_5 (p : pro_user) : Z :=
  match pu_limit p with
  | Some l => if (l =? 0)%Z then 5%Z else l
  | None => 5%Z
  end.

(** The loop that fills [configVars] (server.js 168-171). *)
Fixpoint collect (entries : list (string * jsval)) (configVars : list (string * jsval))
  : result (list (string * jsval)) :=
  match entries with
  | [] => Ok configVars
  | (key, value) :: rest =>
      match get_prop value "value" with
      | Throw e => Throw e
      | Ok v => collect rest (set_prop configVars key v)
      end
  end.

(** [value.value] where it does not throw. *)
Definition value_of (value : jsval) : jsval :=
  match value with
  | JObj fields => match lookup "value" fields with Some x => x | None => JUndefined end
  | _ => JUndefined
  end.

(** A configuration object with distinct keys, none of them
    [__proto__], and no [null] among its entries. *)
Definition plain_config (fields : list (string * jsval)) : Prop :=
  NoDup (map fst fields)
  /\ ~ In "__proto__" (map fst fields)
  /\ Forall (fun kv => snd kv <> JUndefined /\ snd kv <> JNull) fields.

Definition call_trim (v : jsval) : result string :=
  match v with
  | JStr s => Ok (trim s)
  | _ => Throw (TypeError "appname.trim is not a function")
  end.

Section Handlers.

Variable E : env.

(** [GET /api/deployments/:username] (server.js 38-47, 284-295) *)
Definition getDeployments (username : string) : M response :=
  try_catch
    (deployments <- countDocuments E (toLowerCase username) ;;
     ret (json 200 (CountBody deployments)))
    (fun error =>
       console_error "Error getting deployments:" (LogExn error) ;;
       ret (json 500 (ErrorBody "Internal server error"))).

(** [GET /api/bots] (server.js 50-72, 298-320) *)
Definition getBots (token : jsval) : M response :=
  try_catch
    (if negb (truthy token) then
       ret (json 400 (ErrorBody "Token is required"))
     else
       deployment <- findOne E token ;;
       match deployment with
       | None => ret (json 404 (ErrorBody "Invalid token"))
       | Some deployment =>
           found <- find_by_username E (d_username deployment) ;;
           ret (json 200 (BotsBody (map project found)))
       end)
    (fun error =>
       console_error "Error getting bots:" (LogExn error) ;;
       ret (json 500 (ErrorBody "Internal server error"))).

(** The block under "Check deployment limit" (server.js 125-146,
    372-395); the two snapshots differ in the address of the pro-users
    document only.  [Some r] is the early [return] of the rejection. *)
Definition fetch_proUsers (proUrl : string) : M (list pro_user) :=
  request E (mkCall "GET" proUrl JUndefined []) ;;
  match proUsers_data E with
  | Some proUsers => ret proUsers
  | None => throw (TypeError "proUsers.find is not a function")
  end.

Definition userLimit (proUrl : string) (u : string) : M Z :=
  try_catch
    (proUsers <- fetch_proUsers proUrl ;;
     proUser <- lift (find_proUser proUsers u) ;;
     match proUser with
     | Some p => ret (limit_or_5 p)
     | None => ret 2%Z
     end)
    (fun error =>
       console_error "Error fetching pro users:" (LogExn error) ;;
       ret 2%Z).

Definition checkLimit (proUrl : string) (username : jsval) : M (option response) :=
  try_catch
    (u <- lift (call_toLowerCase username) ;;
     deployments <- countDocuments E u ;;
     limit <- userLimit proUrl u ;;
     if (Z.of_nat deployments >=? limit)%Z then
       ret (Some (json 400 (ErrorBody (limit_message deployments limit))))
     else ret None)
    (fun error =>
       console_error "Error checking deployment limit:" (LogExn error) ;;
       ret None).

(** The name of the app (server.js 148-150, 397-399). *)
Definition generatedAppName (appname bot_type : jsval) : M string :=
  t <- lift (optional_trim appname) ;;
  if truthy t then
    s <- lift (call_trim appname) ;;
    ret (collapse_dashes (replace_outside_class (toLowerCase s)))
  else
    t <- lift (toString bot_type) ;;
    u <- next_uuid E ;;
    ret (t ++ "md-" ++ slice0 6 u).

End Handlers.

Definition started : string :=
  "Deployment started successfully! Bot will be ready in 2 minutes.".

(** What [POST /deploy] does with the outcome of the limit check: answer
    with the rejection, or go on. *)
Definition after_check (rejected : result (option response) * state)
           (continue : M response) : result response * state :=
  match rejected with
  | (Ok (Some r), st1) => (Ok r, st1)
  | (Ok None, st1) => continue st1
  | (Throw e, st1) => (Throw e, st1)
  end.

(** ** First snapshot (server.js 1-216) *)

Module V1.
Section Server.

Variable E : env.

Definition proUrl : string :=
  "https://raw.githubusercontent.com/JawadTechXD/VPS/main/user.json".

Definition herokuHeaders (withContentType : bool) : list (string * string) :=
  [("Authorization", "Bearer " ++ getRandomHerokuKey E);
   ("Accept", "application/vnd.heroku+json; version=3")]
  ++ (if withContentType then [("Content-Type", "application/json")] else []).

(** Step 1: [axios.post('https://api.heroku.com/apps', { name }, ...)] *)
Definition createApp (name : string) : http_call :=
  mkCall "POST" "https://api.heroku.com/apps"
         (JObj [("name", JStr name)]) (herokuHeaders true).

(** Step 2: [axios.patch(`.../apps/${name}/config-vars`, configVars, ...)] *)
Definition setConfigVars (name : string) (configVars : list (string * jsval)) : http_call :=
  mkCall "PATCH" ("https://api.heroku.com/apps/" ++ name ++ "/config-vars")
         (JObj configVars) (herokuHeaders true).

(** Step 3: [axios.post(`.../apps/${name}/builds`, { source_blob: { url } }, ...)] *)
Definition triggerBuild (name : string) (source : property) : http_call :=
  mkCall "POST" ("https://api.heroku.com/apps/" ++ name ++ "/builds")
         (JObj [("source_blob", JObj [("url", in_body source)])])
         (herokuHeaders true).

(** [axios.delete(`https://api.heroku.com/apps/${appName}`, ...)] *)
Definition deleteApp (appName : string) : http_call :=
  mkCall "DELETE" ("https://api.heroku.com/apps/" ++ appName) JUndefined
         (herokuHeaders false).

(** [error.response?.data || error.message] *)
Definition details (error : exn) : jsval :=
  if truthy (response_data error) then response_data error
  else JStr (error_message error).

(** [DELETE /api/bots/:appName] (server.js 75-110) *)
Definition deleteBot (appName : string) (token : jsval) : M response :=
  try_catch
    (if negb (truthy token) then
       ret (json 400 (ErrorBody "Token is required"))
     else
       deployment <- findOne E token ;;
       match deployment with
       | None => ret (json 404 (ErrorBody "Invalid token"))
       | Some deployment =>
           if negb (d_name deployment =? appName) then
             ret (json 403 (ErrorBody "Not authorized to delete this app"))
           else
             request E (deleteApp appName) ;;
             deleteOne E appName ;;
             ret (json 200 (MessageBody "App deleted successfully"))
       end)
    (fun error =>
       console_error "Error deleting bot:" (LogExn error) ;;
       ret (json 500 (ErrorBody "Internal server error"))).

(** [configVars] as the loop over [Object.entries(config)] leaves it
    (server.js 168-171). *)
Definition configVars (config : jsval) : result (list (string * jsval)) :=
  match object_entries config with
  | Ok entries => collect entries []
  | Throw e => Throw e
  end.

(** The answer of the [catch] of [POST /deploy] (server.js 205-211). *)
Definition failure (error : exn) : response :=
  json 500 (FailureBody "Deployment failed" (details error)).

(** The second [try] of [POST /deploy] (server.js 152-211). *)
Definition provision (b : deploy_body) (generatedAppName : string) : M response :=
  try_catch
    (request E (createApp generatedAppName) ;;
     configVars <- lift (configVars (config b)) ;;
     request E (setConfigVars generatedAppName configVars) ;;
     source <- lift (repository (bot_type b)) ;;
     request E (triggerBuild generatedAppName source) ;;
     token <- next_uuid E ;;
     u <- lift (call_toLowerCase (username b)) ;;
     insertOne E (fun id => mkDeployment id u generatedAppName (bot_type b) token
                                         (now E) None None) ;;
     ret (json 200 (StartedBody started token)))
    (fun error =>
       console_error "Deployment error:" (LogVal (details error)) ;;
       ret (failure error)).

(** [POST /deploy] (server.js 113-212).  A [Throw] of the whole handler
    is an exception no [try] encloses: no response is sent. *)
Definition deploy (b : deploy_body) : M response :=
  if negb (truthy (username b)) then
    ret (json 400 (ErrorBody "GitHub username is required"))
  else if negb (truthy (session_id b)) then
    ret (json 400 (ErrorBody "SESSION_ID is required"))
  else
    rejected <- checkLimit E proUrl (username b) ;;
    match rejected with
    | Some r => ret r
    | None =>
        generatedAppName <- generatedAppName E (appname b) (bot_type b) ;;
        provision b generatedAppName
    end.

End Server.
End V1.

(** ** Second snapshot (server.js 217-448) *)

Module V2.
Section Server.

Variable E : env.

Definition proUrl : string :=
  "https://raw.githubusercontent.com/JawadTechXD/pro-users/main/pro.json".

(** The indexes [connectToMongo] asks for (server.js 249-251). *)
Definition created_indexes : list index :=
  [mkIndex KUsername false; mkIndex KToken true; mkIndex KName true].

(** [connectToMongo] (server.js 238-258): the connection and the three
    indexes. *)
Definition connectToMongo : M bool :=
  try_catch
    (faulty E Connect (ret tt) ;;
     createIndex E KUsername false ;;
     createIndex E KToken true ;;
     createIndex E KName true ;;
     ret true)
    (fun error =>
       console_error "MongoDB connection error:" (LogExn error) ;;
       ret false).

(** [DELETE /api/bots/:appName] (server.js 323-357): the Heroku call is
    commented out. *)
Definition deleteBot (appName : string) (token : jsval) : M response :=
  try_catch
    (if negb (truthy token) then
       ret (json 400 (ErrorBody "Token is required"))
     else
       deployment <- findOne E token ;;
       match deployment with
       | None => ret (json 404 (ErrorBody "Invalid token"))
       | Some deployment =>
           if negb (d_name deployment =? appName) then
             ret (json 403 (ErrorBody "Not authorized to delete this app"))
           else
             deleteOne E appName ;;
             ret (json 200 (MessageBody "App deleted successfully"))
       end)
    (fun error =>
       console_error "Error deleting bot:" (LogExn error) ;;
       ret (json 500 (ErrorBody "Internal server error"))).

(** The second [try] of [POST /deploy] (server.js 401-429). *)
Definition persist (b : deploy_body) (generatedAppName : string) : M response :=
  try_catch
    (token <- next_uuid E ;;
     u <- lift (call_toLowerCase (username b)) ;;
     insertOne E (fun id => mkDeployment id u generatedAppName (bot_type b) token
                                         (now E) (Some (session_id b))
                                         (Some (config b))) ;;
     ret (json 200 (StartedNamedBody started token generatedAppName)))
    (fun error =>
       console_error "Deployment error:" (LogExn error) ;;
       ret (json 500 (FailureBody "Deployment failed" (JStr (error_message error))))).

(** [POST /deploy] (server.js 360-430) *)
Definition deploy (b : deploy_body) : M response :=
  if negb (truthy (username b)) then
    ret (json 400 (ErrorBody "GitHub username is required"))
  else if negb (truthy (session_id b)) then
    ret (json 400 (ErrorBody "SESSION_ID is required"))
  else
    rejected <- checkLimit E proUrl (username b) ;;
    match rejected with
    | Some r => ret r
    | None =>
        generatedAppName <- generatedAppName E (appname b) (bot_type b) ;;
        persist b generatedAppName
    end.

End Server.
End V2.

(** ** The name rule, as the specification words it

    "lower-case it and replace every character outside [a-z0-9-] with
    '-', then collapse consecutive '-' into one", on the trimmed name. *)

Module Spec.

Definition is_dash (c : ascii) : bool := Ascii.eqb c dash.

Definition lower_case (l : list ascii) : list ascii := map lower_char l.

Definition replace_outside (l : list ascii) : list ascii :=
  map (fun c => if in_name_class c then c else dash) l.

Definition collapse (l : list ascii) : list ascii :=
  fold_right (fun c acc =>
                match acc with
                | d :: _ => if is_dash c && is_dash d then acc else c :: acc
                | [] => [c]
                end) [] l.

Definition app_name (trimmed : string) : string :=
  string_of_list_ascii
    (collapse (replace_outside (lower_case (list_ascii_of_string trimmed)))).

(** No two dashes in a row. *)
Fixpoint no_double_dash (l : list ascii) : bool :=
  match l with
  | c :: (d :: _) as r => negb (is_dash c && is_dash d) && no_double_dash r
  | _ => true
  end.

(** The quota rule: "default limit 2; if the owner appears in the fetched
    allow-list its limit overrides the default, falling back to 5 if the
    limit is absent or zero; if the fetch fails the default is used";
    "allowed = current < limit", owners compared case-insensitively. *)
Definition owner_is (owner : string) (p : pro_user) : bool :=
  match pu_username p with
  | Some n => toLowerCase n =? toLowerCase owner
  | None => false
  end.

Definition limit (fetched : option (list pro_user)) (owner : string) : Z :=
  match fetched with
  | None => 2%Z
  | Some doc =>
      match find (owner_is owner) doc with
      | None => 2%Z
      | Some p =>
          match pu_limit p with
          | None => 5%Z
          | Some l => if (l =? 0)%Z then 5%Z else l
          end
      end
  end.

Definition prior (owner : string) (deployments : list deployment) : nat :=
  length (filter (fun d => toLowerCase (d_username d) =? toLowerCase owner) deployments).

(** Every entry of the document has a [username] that is a string. *)
Definition well_formed (doc : list pro_user) : Prop :=
  Forall (fun p => pu_username p <> None) doc.

End Spec.

(** What the fetch of the pro-users document at [proUrl] yields: the
    list when the request resolves with an array, nothing otherwise. *)
Definition fetched (E : env) (proUrl : string) : option (list pro_user) :=
  match axios E (mkCall "GET" proUrl JUndefined []) with
  | Some _ => None
  | None => proUsers_data E
  end.

(** The owners are stored lower-cased. *)
Definition lower_cased (l : list deployment) : Prop :=
  Forall (fun d => toLowerCase (d_username d) = d_username d) l.

(** The invariants of the data model: owners are stored lower-cased, and
    a key under a unique index is held by one document at most. *)
Definition coherent (st : state) : Prop :=
  lower_cased (store st)
  /\ forall k, In (mkIndex k true) (indexes st) ->
               distinct (map (key_of k) (store st)) = true.

(** ** Sample data: an environment, stores and requests *)

Module Sample.

Definition uuid_a : string := "9b1deb4d-3b7d-4bad-9bdd-2b0d7b3dcb6d".
Definition uuid_b : string := "1c2f0a77-58cc-4372-a567-0e02b2c3d479".
Definition uuid_c : string := "f47ac10b-58cc-4372-a567-0e02b2c3d479".
Definition uuid_d : string := "6ba7b810-9dad-41d1-80b4-00c04fd430c8".

Definition uuid_supply (n : nat) : string := if (n =? 0)%nat then uuid_c else uuid_d.

Definition dup_text (index key : string) : string :=
  "E11000 duplicate key error index: " ++ index ++ " dup key: " ++ key.

Definition not_found : exn :=
  AxiosError "Request failed with status code 404"
             (Some (JObj [("id", JStr "not_found"); ("message", JStr "Couldn't find that app.")])).

Definition pro_list : list pro_user :=
  [mkProUser (Some "Bob") (Some 5%Z);
   mkProUser (Some "carol") None;
   mkProUser (Some "Dave") (Some 0%Z)].

(** The operator [$ne] of the query language: [{ $ne: x }] selects
    every value but [x]. *)
Definition operators (q : jsval) (v : string) : bool :=
  match q with
  | JObj [(op, JStr x)] => (op =? "$ne") && negb (v =? x)
  | _ => false
  end.

(** Everything answers. *)
Definition world : env :=
  mkEnv (fun _ => None) (fun _ => None) (Some pro_list) "HRKU-KEY"
        uuid_supply 1700000000000%Z dup_text operators (fun _ => None).

(** The pro-users document cannot be fetched. *)
Definition world_offline : env :=
  mkEnv (fun _ => None)
        (fun c => if method c =? "GET" then Some (AxiosError "getaddrinfo ENOTFOUND" None)
                  else None)
        (Some pro_list) "HRKU-KEY"
        uuid_supply 1700000000000%Z dup_text operators (fun _ => None).

(** Heroku answers 404 to every DELETE. *)
Definition world_gone : env :=
  mkEnv (fun _ => None)
        (fun c => if method c =? "DELETE" then Some not_found else None)
        (Some pro_list) "HRKU-KEY"
        uuid_supply 1700000000000%Z dup_text operators (fun _ => None).

(** Heroku refuses the build. *)
Definition world_no_build : env :=
  mkEnv (fun _ => None)
        (fun c => if url c =? "https://api.heroku.com/apps/my-bot-/builds"
                  then Some not_found else None)
        (Some pro_list) "HRKU-KEY"
        uuid_supply 1700000000000%Z dup_text operators (fun _ => None).

(** The insertion is lost on the way. *)
Definition world_no_insert : env :=
  mkEnv (fun op => match op with
                   | InsertOne => Some (MongoError 89 "connection timed out")
                   | _ => None
                   end)
        (fun _ => None) (Some pro_list) "HRKU-KEY"
        uuid_supply 1700000000000%Z dup_text operators (fun _ => None).

(** The count of the owner's deployments cannot be read. *)
Definition world_no_count : env :=
  mkEnv (fun op => match op with
                   | CountDocuments => Some (MongoError 89 "connection timed out")
                   | _ => None
                   end)
        (fun _ => None) (Some pro_list) "HRKU-KEY"
        uuid_supply 1700000000000%Z dup_text operators (fun _ => None).

Definition alice1 : deployment :=
  mkDeployment 0 "alice" "my-bot-" (JStr "khan") uuid_a 1600000000000%Z
               (Some (JStr "sess-1")) (Some (JObj [])).

Definition alice2 : deployment :=
  mkDeployment 1 "alice" "second" (JStr "jawad") uuid_b 1600000000001%Z
               (Some (JStr "sess-2")) (Some (JObj [])).

Definition bob1 : deployment :=
  mkDeployment 2 "bob" "bobs" (JStr "khan") "0e02b2c3-58cc-4372-a567-f47ac10bd479"
               1600000000002%Z (Some (JStr "sess-3")) (Some (JObj [])).

Definition empty : state := mkState [] V2.created_indexes [] [] 0 0.

Definition one : state := mkState [alice1] V2.created_indexes [] [] 0 1.

Definition three : state := mkState [alice1; bob1; alice2] V2.created_indexes [] [] 0 3.

Definition settings : jsval :=
  JObj [("SESSION_ID", JObj [("value", JStr "abc")]);
        ("PREFIX", JObj [("value", JStr ".")])].

Definition my_bot : deploy_body :=
  mkBody (JStr "Alice") (JStr "sess") (JStr "My Bot!!") (JStr "khan") settings.

Definition unnamed : deploy_body :=
  mkBody (JStr "Alice") (JStr "sess") (JStr "") (JStr "khan") settings.

Definition odd_type : deploy_body :=
  mkBody (JStr "Erin") (JStr "sess") (JStr "erin") (JStr "whatsapp") settings.

End Sample.

(** ** The process of the second snapshot (server.js 234-272, 432-435)

    The global [db] handle, [connectToMongo] with its assignment to it,
    the middleware that every route goes through, and the health route. *)

Module Process.

(** [db] is set or still undefined; [world] is the rest of the state. *)
Record process := mkProcess { db : bool; world : state }.

(** What the middleware does with a request: it answers 500 "Database
    connection failed" itself, or calls [next()], whose outcome follows;
    [Unhandled] is an exception of the middleware itself. *)
Inductive served (A : Type) :=
| DatabaseFailed
| Next (r : result A)
| Unhandled (e : exn).
Arguments DatabaseFailed {A}.
Arguments Next {A} r.
Arguments Unhandled {A} e.

(** The body of [GET /health]: [{ status, database }]. *)
Record health_body := mkHealth { h_status : string; h_database : string }.

Section Server.

Variable E : env.

(** [connectToMongo] (server.js 238-258) with [db = client.db()], which is
    reached exactly when [MongoClient.connect] resolved. *)
Definition connectToMongo (p : process) : result bool * process :=
  let '(r, st') := V2.connectToMongo E (world p) in
  (r, mkProcess (match db_fault E Connect with
                 | None => true
                 | Some _ => db p
                 end) st').

(** The middleware (server.js 264-272); [next] is the rest of the chain,
    which may read [db]. *)
Definition middleware {A} (next : bool -> M A) (p : process) : served A * process :=
  if negb (db p) then
    let '(connected, p1) := connectToMongo p in
    match connected with
    | Ok false => (DatabaseFailed, p1)
    | Ok true =>
        let '(r, st') := next (db p1) (world p1) in
        (Next r, mkProcess (db p1) st')
    | Throw e => (Unhandled e, p1)
    end
  else
    let '(r, st') := next (db p) (world p) in
    (Next r, mkProcess (db p) st').

(** [GET /health] (server.js 433-435) *)
Definition health (db : bool) : M health_body :=
  ret (mkHealth "OK" (if db then "Connected" else "Disconnected")).

Definition get_health : process -> served health_body * process :=
  middleware health.

Definition post_deploy (b : deploy_body) : process -> served response * process :=
  middleware (fun _ => V2.deploy E b).

Definition get_bots (token : jsval) : process -> served response * process :=
  middleware (fun _ => getBots E token).

Definition delete_bot (appName : string) (token : jsval)
  : process -> served response * process :=
  middleware (fun _ => V2.deleteBot E appName token).

End Server.
End Process.

(** ** More sample data *)

Module Scenario.

(** No connection can be made. *)
Definition unreachable : env :=
  mkEnv (fun op => match op with
                   | Connect => Some (MongoError 6 "connect ECONNREFUSED")
                   | _ => None
                   end)
        (fun _ => None) (Some Sample.pro_list) "HRKU-KEY"
        Sample.uuid_supply 1700000000000%Z Sample.dup_text
        Sample.operators (fun _ => None).

(** The connection is made, the indexes cannot be created. *)
Definition no_indexes : env :=
  mkEnv (fun op => match op with
                   | CreateIndex => Some (MongoError 13 "not authorized")
                   | _ => None
                   end)
        (fun _ => None) (Some Sample.pro_list) "HRKU-KEY"
        Sample.uuid_supply 1700000000000%Z Sample.dup_text
        Sample.operators (fun _ => None).

(** The store answers nothing at all. *)
Definition store_down : env :=
  mkEnv (fun _ => Some (TypeError "Cannot read properties of undefined (reading 'collection')"))
        (fun _ => None) (Some Sample.pro_list) "HRKU-KEY"
        Sample.uuid_supply 1700000000000%Z Sample.dup_text
        Sample.operators (fun _ => None).

(** A fresh process: nothing stored, no index, [db] not set. *)
Definition blank : state := mkState [] [] [] [] 0 0.

Definition fresh : Process.process := Process.mkProcess false blank.

Definition numeric_owner : deploy_body :=
  mkBody (JNum 5) (JStr "sess") (JStr "five") (JStr "khan") Sample.settings.

Definition numeric_name : deploy_body :=
  mkBody (JStr "Alice") (JStr "sess") (JNum 7) (JStr "khan") Sample.settings.

Definition no_config : deploy_body :=
  mkBody (JStr "Alice") (JStr "sess") (JStr "plain") (JStr "khan") JUndefined.

Definition shouting : deploy_body :=
  mkBody (JStr "Alice") (JStr "sess") (JStr "  MY bot ") (JStr "khan") Sample.settings.

End Scenario.

(** * Properties *)

(** ** Characters and strings *)

Lemma code_dash (c : ascii) : (code c =? 45)%nat = Spec.is_dash c.
Proof. destruct c as [[] [] [] [] [] [] [] []]; reflexivity. Qed.

Lemma lower_char_idem (c : ascii) : lower_char (lower_char c) = lower_char c.
Proof. destruct c as [[] [] [] [] [] [] [] []]; reflexivity. Qed.

Lemma toLowerCase_idem (s : string) : toLowerCase (toLowerCase s) = toLowerCase s.
Proof.
  unfold toLowerCase. induction s as [|c r IH]; simpl.
  - reflexivity.
  - now rewrite lower_char_idem, IH.
Qed.

Lemma map_chars_list (f : ascii -> ascii) (s : string) :
  list_ascii_of_string (map_chars f s) = map f (list_ascii_of_string s).
Proof. induction s as [|c r IH]; simpl; [reflexivity | now rewrite IH]. Qed.

Lemma collapse_head (s : string) :
  match s, collapse_dashes s with
  | String c _, String c' _ => c' = c
  | EmptyString, EmptyString => True
  | _, _ => False
  end.
Proof.
  induction s as [|c r IH]; simpl; [exact I|].
  destruct (code c =? 45)%nat eqn:Hc.
  - destruct r as [|c' r']; [reflexivity|].
    destruct (code c' =? 45)%nat eqn:Hc'; [|reflexivity].
    destruct (collapse_dashes (String c' r')) as [|x y]; [contradiction|].
    subst x. rewrite code_dash in Hc, Hc'. unfold Spec.is_dash in *.
    apply Ascii.eqb_eq in Hc, Hc'. congruence.
  - reflexivity.
Qed.

Lemma collapse_dashes_spec (s : string) :
  list_ascii_of_string (collapse_dashes s) = Spec.collapse (list_ascii_of_string s).
Proof.
  induction s as [|c r IH]; [reflexivity|].
  cbn [collapse_dashes list_ascii_of_string Spec.collapse fold_right].
  change (fold_right _ [] (list_ascii_of_string r))
    with (Spec.collapse (list_ascii_of_string r)).
  rewrite <- IH. pose proof (collapse_head r) as Hh.
  rewrite code_dash.
  destruct r as [|c' r'].
  - simpl. destruct (Spec.is_dash c); reflexivity.
  - destruct (collapse_dashes (String c' r')) as [|x y] eqn:Hr; [contradiction|].
    subst x. rewrite code_dash. cbn [list_ascii_of_string].
    destruct (Spec.is_dash c), (Spec.is_dash c'); reflexivity.
Qed.

Lemma sanitize_spec (s : string) :
  collapse_dashes (replace_outside_class (toLowerCase s)) = Spec.app_name s.
Proof.
  unfold Spec.app_name, Spec.replace_outside, Spec.lower_case.
  rewrite <- (string_of_list_ascii_of_string (collapse_dashes _)).
  f_equal. rewrite collapse_dashes_spec. unfold replace_outside_class, toLowerCase.
  now rewrite !map_chars_list.
Qed.

Lemma collapse_no_double (l : list ascii) : Spec.no_double_dash (Spec.collapse l) = true.
Proof.
  induction l as [|c r IH]; [reflexivity|].
  cbn [Spec.collapse fold_right].
  change (fold_right _ [] r) with (Spec.collapse r).
  destruct (Spec.collapse r) as [|d t] eqn:Hr; [reflexivity|].
  destruct (Spec.is_dash c && Spec.is_dash d) eqn:Hd; [exact IH|].
  change (Spec.no_double_dash (c :: d :: t))
    with (negb (Spec.is_dash c && Spec.is_dash d) && Spec.no_double_dash (d :: t)).
  now rewrite Hd, IH.
Qed.

Lemma collapse_in (l : list ascii) (c : ascii) : In c (Spec.collapse l) -> In c l.
Proof.
  induction l as [|a r IH]; [now simpl|].
  cbn [Spec.collapse fold_right].
  change (fold_right _ [] r) with (Spec.collapse r).
  destruct (Spec.collapse r) as [|d t] eqn:Hr.
  - simpl. tauto.
  - destruct (Spec.is_dash a && Spec.is_dash d); simpl in *; intuition.
Qed.

Lemma app_name_class (s : string) (c : ascii) :
  In c (list_ascii_of_string (Spec.app_name s)) -> in_name_class c = true.
Proof.
  unfold Spec.app_name. rewrite list_ascii_of_string_of_list_ascii.
  intros H. apply collapse_in in H. unfold Spec.replace_outside in H.
  apply in_map_iff in H. destruct H as [x [Hx _]].
  destruct (in_name_class x) eqn:Hc; subst; [exact Hc | reflexivity].
Qed.

Lemma uuid_prefix_hex (u : string) :
  is_uuid u = true ->
  String.length (slice0 6 u) = 6 /\ all_chars is_hex (slice0 6 u) = true.
Proof.
  unfold is_uuid, slice0.
  destruct u as [|c0 [|c1 [|c2 [|c3 [|c4 [|c5 r]]]]]]; simpl;
    try discriminate;
    repeat match goal with
           | |- context [?a && false] => rewrite (andb_false_r a)
           end; try discriminate.
  intros H. repeat (apply andb_prop in H; destruct H as [? H]).
  split.
  - destruct r; reflexivity.
  - repeat (apply andb_true_intro; split; try assumption).
    destruct r; reflexivity.
Qed.

(** ** The generated app name *)

Lemma generatedAppName_named (E : env) (s : string) (bot_type : jsval) (st : state) :
  trim s <> "" ->
  generatedAppName E (JStr s) bot_type st = (Ok (Spec.app_name (trim s)), st).
Proof.
  intros Hs. unfold generatedAppName, bind, lift, ret. simpl.
  destruct (trim s =? "") eqn:Ht.
  - apply String.eqb_eq in Ht. contradiction.
  - simpl. now rewrite sanitize_spec.
Qed.

Lemma generatedAppName_synthesized (E : env) (a bot_type : jsval) (t : string)
      (st : state) :
  a = JUndefined \/ a = JNull \/ (exists s, a = JStr s /\ trim s = "") ->
  toString bot_type = Ok t ->
  generatedAppName E a bot_type st
  = (Ok (t ++ "md-" ++ slice0 6 (uuidv4 E (uuids st))), after_uuid st).
Proof.
  intros [-> | [-> | [s [-> Hs]]]] Ht; unfold generatedAppName, bind, lift, ret;
    cbn [optional_trim truthy negb]; try rewrite Hs; cbn [String.eqb negb];
    now rewrite Ht.
Qed.

(** The template literal converts the bot type before it draws the
    UUID: a bot type that cannot be converted throws with nothing
    drawn. *)
Lemma generatedAppName_unprintable (E : env) (a bot_type : jsval) (e : exn)
      (st : state) :
  a = JUndefined \/ a = JNull \/ (exists s, a = JStr s /\ trim s = "") ->
  toString bot_type = Throw e ->
  generatedAppName E a bot_type st = (Throw e, st).
Proof.
  intros [-> | [-> | [s [-> Hs]]]] Ht; unfold generatedAppName, bind, lift, ret;
    cbn [optional_trim truthy negb]; try rewrite Hs; cbn [String.eqb negb];
    now rewrite Ht.
Qed.

(** C3, as stated, fails: the handler turns "My Bot!!" into "my-bot-",
    not "my-bot". *)
Lemma C3_my_bot_counterexample :
  fst (generatedAppName Sample.world (JStr "My Bot!!") (JStr "khan") Sample.empty)
  = Ok "my-bot-"
  /\ fst (generatedAppName Sample.world (JStr "My Bot!!") (JStr "khan") Sample.empty)
     <> Ok "my-bot".
Proof. split; [reflexivity | vm_compute; discriminate]. Qed.

(** C3 (amended): a requested name that is non-empty after trimming is
    trimmed, lower-cased, has every character outside [a-z0-9-] replaced
    by '-' and runs of '-' collapsed into one, so the result holds only
    characters of [a-z0-9-] and no two dashes in a row; "My Bot!!" yields
    "my-bot-" (the dash that replaces the trailing "!!" stays).  For an
    absent, null or blank requested name and a bot type that is a string,
    the result is the bot type followed by "md-" and the first six
    characters of a fresh UUID, which are six hexadecimal digits:
    "khanmd-" and six such digits for the bot type "khan". *)
Theorem C3_generated_name (E : env) (bot_type : jsval) (st : state) :
  (forall s, trim s <> "" ->
     generatedAppName E (JStr s) bot_type st = (Ok (Spec.app_name (trim s)), st)
     /\ (forall c, In c (list_ascii_of_string (Spec.app_name (trim s))) ->
                   in_name_class c = true)
     /\ Spec.no_double_dash (list_ascii_of_string (Spec.app_name (trim s))) = true)
  /\ generatedAppName E (JStr "My Bot!!") bot_type st = (Ok "my-bot-", st)
  /\ (forall a t,
        a = JUndefined \/ a = JNull \/ (exists s, a = JStr s /\ trim s = "") ->
        bot_type = JStr t ->
        is_uuid (uuidv4 E (uuids st)) = true ->
        exists h,
          generatedAppName E a bot_type st = (Ok (t ++ "md-" ++ h), after_uuid st)
          /\ String.length h = 6 /\ all_chars is_hex h = true
          /\ (t = "khan" -> t ++ "md-" ++ h = "khanmd-" ++ h)).
Proof.
  split; [|split].
  - intros s Hs. split; [now apply generatedAppName_named|]. split.
    + apply app_name_class.
    + unfold Spec.app_name. rewrite list_ascii_of_string_of_list_ascii.
      apply collapse_no_double.
  - apply (generatedAppName_named E "My Bot!!"). vm_compute. discriminate.
  - intros a t Ha -> Hu. exists (slice0 6 (uuidv4 E (uuids st))).
    destruct (uuid_prefix_hex _ Hu) as [Hl Hh].
    split; [now apply generatedAppName_synthesized|].
    split; [exact Hl|]. split; [exact Hh|]. intros ->. reflexivity.
Qed.

Lemma C3_generated_name_witness :
  generatedAppName Sample.world (JStr "  Hello World  ") (JStr "khan") Sample.empty
  = (Ok "hello-world", Sample.empty)
  /\ exists h,
       generatedAppName Sample.world (JStr "") (JStr "khan") Sample.empty
       = (Ok ("khanmd-" ++ h), after_uuid Sample.empty)
       /\ String.length h = 6 /\ all_chars is_hex h = true.
Proof.
  destruct (C3_generated_name Sample.world (JStr "khan") Sample.empty) as [Hn [_ Hs]].
  split.
  - destruct (Hn "  Hello World  ") as [H _].
    + vm_compute. discriminate.
    + exact H.
  - destruct (Hs (JStr "") "khan") as [h [H1 [H2 [H3 _]]]].
    + right. right. exists "". split; reflexivity.
    + reflexivity.
    + reflexivity.
    + exists h. split; [exact H1 | split; assumption].
Defined.

(** ** The deployment limit *)

Lemma count_prior (owner : string) (l : list deployment) :
  lower_cased l ->
  count_occ_key KUsername (toLowerCase owner) l = Spec.prior owner l.
Proof.
  unfold count_occ_key, Spec.prior, lower_cased. intros H.
  induction H as [|d r Hd _ IH]; [reflexivity|].
  simpl in IH |- *. rewrite Hd.
  destruct (d_username d =? toLowerCase owner); simpl; now rewrite IH.
Qed.

Lemma find_proUser_well_formed (doc : list pro_user) (owner : string) :
  Spec.well_formed doc ->
  find_proUser doc (toLowerCase owner) = Ok (find (Spec.owner_is owner) doc).
Proof.
  intros H. induction H as [|p r Hp _ IH]; [reflexivity|].
  simpl. unfold Spec.owner_is at 1. destruct (pu_username p) as [n|]; [|contradiction].
  destruct (toLowerCase n =? toLowerCase owner); [reflexivity | exact IH].
Qed.

(** The state after the limit lookup: one more request sent, perhaps one
    more line on the console, the rest as before. *)
Lemma userLimit_state (E : env) (proUrl u : string) (st : state) :
  let st1 := snd (userLimit E proUrl u st) in
  store st1 = store st /\ indexes st1 = indexes st
  /\ uuids st1 = uuids st /\ ids st1 = ids st
  /\ sent st1 = (sent st ++ [mkCall "GET" proUrl JUndefined []])%list.
Proof.
  unfold userLimit, try_catch, bind, fetch_proUsers, request, lift, throw, ret,
    console_error.
  destruct (axios E _); simpl; [repeat split|].
  destruct (proUsers_data E) as [l|]; simpl; [|repeat split].
  destruct (find_proUser l u) as [[p|]|e]; simpl; repeat split.
Qed.

Lemma userLimit_value (E : env) (proUrl owner : string) (st : state) :
  (forall doc, fetched E proUrl = Some doc -> Spec.well_formed doc) ->
  fst (userLimit E proUrl (toLowerCase owner) st)
  = Ok (Spec.limit (fetched E proUrl) owner).
Proof.
  unfold fetched, userLimit, try_catch, bind, fetch_proUsers, request, lift, throw,
    ret, console_error.
  intros Hwf. destruct (axios E _); simpl; [reflexivity|].
  destruct (proUsers_data E) as [l|]; simpl; [|reflexivity].
  rewrite (find_proUser_well_formed l owner (Hwf l eq_refl)).
  unfold Spec.limit, limit_or_5.
  destruct (find (Spec.owner_is owner) l) as [p|]; reflexivity.
Qed.

Lemma checkLimit_counted (E : env) (proUrl owner : string) (st : state) :
  db_fault E CountDocuments = None ->
  lower_cased (store st) ->
  (forall doc, fetched E proUrl = Some doc -> Spec.well_formed doc) ->
  let current := Spec.prior owner (store st) in
  let quota := Spec.limit (fetched E proUrl) owner in
  checkLimit E proUrl (JStr owner) st
  = (Ok (if (Z.of_nat current <? quota)%Z then None
         else Some (json 400 (ErrorBody (limit_message current quota)))),
     snd (userLimit E proUrl (toLowerCase owner) st)).
Proof.
  intros Hdb Hlow Hwf. cbv zeta.
  pose proof (userLimit_value E proUrl owner st Hwf) as Hv.
  unfold checkLimit, try_catch, bind, lift, countDocuments, faulty. simpl.
  rewrite Hdb, (count_prior owner _ Hlow).
  destruct (userLimit E proUrl (toLowerCase owner) st) as [[l|e] st1]; simpl in *;
    [|discriminate].
  injection Hv as ->. rewrite Z.geb_leb, Z.ltb_antisym.
  destruct (_ <=? _)%Z; reflexivity.
Qed.

Lemma V1_deploy_checked (E : env) (b : deploy_body) (st : state) :
  truthy (username b) = true -> truthy (session_id b) = true ->
  V1.deploy E b st
  = after_check (checkLimit E V1.proUrl (username b) st)
      (name <- generatedAppName E (appname b) (bot_type b) ;; V1.provision E b name).
Proof.
  intros Hu Hs. unfold V1.deploy, after_check. rewrite Hu, Hs. simpl.
  unfold bind at 1. destruct (checkLimit E V1.proUrl (username b) st) as [[[r|]|e] st1];
    reflexivity.
Qed.

Lemma V2_deploy_checked (E : env) (b : deploy_body) (st : state) :
  truthy (username b) = true -> truthy (session_id b) = true ->
  V2.deploy E b st
  = after_check (checkLimit E V2.proUrl (username b) st)
      (name <- generatedAppName E (appname b) (bot_type b) ;; V2.persist E b name).
Proof.
  intros Hu Hs. unfold V2.deploy, after_check. rewrite Hu, Hs. simpl.
  unfold bind at 1. destruct (checkLimit E V2.proUrl (username b) st) as [[[r|]|e] st1];
    reflexivity.
Qed.

Lemma truthy_JStr (s : string) : s <> "" -> truthy (JStr s) = true.
Proof.
  intros H. simpl. destruct (s =? "") eqn:Hs; [|reflexivity].
  apply String.eqb_eq in Hs. contradiction.
Qed.

(** C1: with the owner's deployments counted, the deployment goes on
    exactly when the count of the owner's stored deployments (owners
    compared case-insensitively) is below the limit; the limit is 2
    unless the fetched pro-users document lists the owner, and then it is
    the entry's limit, or 5 when that limit is absent or zero; a fetch
    that fails leaves the limit at 2 and the check still answers; the
    rejection is a 400 whose message shows the count and the limit.  In
    both snapshots. *)
Theorem C1_quota_check (E : env) (b : deploy_body) (st : state) (owner : string) :
  username b = JStr owner -> owner <> "" -> truthy (session_id b) = true ->
  db_fault E CountDocuments = None ->
  lower_cased (store st) ->
  (forall proUrl doc, fetched E proUrl = Some doc -> Spec.well_formed doc) ->
  let current := Spec.prior owner (store st) in
  let quota proUrl := Spec.limit (fetched E proUrl) owner in
  let rejection proUrl :=
    json 400 (ErrorBody ("You've reached the maximum deployment limit ("
                           ++ string_of_Z (Z.of_nat current) ++ "/"
                           ++ string_of_Z (quota proUrl)
                           ++ "). Please contact admin.")) in
  let st1 proUrl := snd (userLimit E proUrl (toLowerCase owner) st) in
  (forall proUrl,
      checkLimit E proUrl (JStr owner) st
      = (Ok (if (Z.of_nat current <? quota proUrl)%Z then None
             else Some (rejection proUrl)), st1 proUrl)
      /\ store (st1 proUrl) = store st
      /\ (fetched E proUrl = None -> quota proUrl = 2%Z))
  /\ V1.deploy E b st
     = (if (Z.of_nat current <? quota V1.proUrl)%Z
        then (name <- generatedAppName E (appname b) (bot_type b) ;;
              V1.provision E b name) (st1 V1.proUrl)
        else (Ok (rejection V1.proUrl), st1 V1.proUrl))
  /\ V2.deploy E b st
     = (if (Z.of_nat current <? quota V2.proUrl)%Z
        then (name <- generatedAppName E (appname b) (bot_type b) ;;
              V2.persist E b name) (st1 V2.proUrl)
        else (Ok (rejection V2.proUrl), st1 V2.proUrl)).
Proof.
  intros Hb Ho Hs Hdb Hlow Hwf. cbv zeta.
  assert (Hc : forall proUrl,
             checkLimit E proUrl (JStr owner) st
             = (Ok (if (Z.of_nat (Spec.prior owner (store st))
                        <? Spec.limit (fetched E proUrl) owner)%Z then None
                    else Some (json 400 (ErrorBody
                           (limit_message (Spec.prior owner (store st))
                                          (Spec.limit (fetched E proUrl) owner))))),
                snd (userLimit E proUrl (toLowerCase owner) st))).
  { intros proUrl. apply checkLimit_counted; [exact Hdb | exact Hlow | exact (Hwf proUrl)]. }
  pose proof (truthy_JStr owner Ho) as Ht.
  split; [|split].
  - intros proUrl. split; [apply Hc|]. split.
    + apply (userLimit_state E proUrl (toLowerCase owner) st).
    + intros ->. reflexivity.
  - rewrite V1_deploy_checked by (rewrite ?Hb; assumption).
    rewrite Hb, Hc. unfold after_check.
    destruct (_ <? _)%Z; reflexivity.
  - rewrite V2_deploy_checked by (rewrite ?Hb; assumption).
    rewrite Hb, Hc. unfold after_check.
    destruct (_ <? _)%Z; reflexivity.
Qed.

Lemma C1_quota_check_witness :
  fst (V1.deploy Sample.world Sample.my_bot Sample.three)
  = Ok (json 400 (ErrorBody
         "You've reached the maximum deployment limit (2/2). Please contact admin."))
  /\ store (snd (V1.deploy Sample.world Sample.my_bot Sample.three))
     = store Sample.three.
Proof.
  destruct (C1_quota_check Sample.world Sample.my_bot Sample.three "Alice")
    as [_ [H _]].
  - reflexivity.
  - discriminate.
  - reflexivity.
  - reflexivity.
  - repeat constructor.
  - intros proUrl doc Hf. vm_compute in Hf. injection Hf as <-.
    repeat constructor; discriminate.
  - rewrite H. split; reflexivity.
Defined.

(** ** Reading a run of the monad backwards *)

Lemma bind_ok_inv {A B} (m : M A) (k : A -> M B) (st st' : state) (b : B) :
  bind m k st = (Ok b, st') ->
  exists a st1, m st = (Ok a, st1) /\ k a st1 = (Ok b, st').
Proof.
  unfold bind. destruct (m st) as [[a|e] st1]; intros H.
  - now exists a, st1.
  - discriminate.
Qed.

Lemma try_catch_inv {A} (m : M A) (h : exn -> M A) (st st' : state) (r : result A) :
  try_catch m h st = (r, st') ->
  (exists a, m st = (Ok a, st') /\ r = Ok a)
  \/ (exists e st1, m st = (Throw e, st1) /\ h e st1 = (r, st')).
Proof.
  unfold try_catch. destruct (m st) as [[a|e] st1]; intros H.
  - left. exists a. now injection H as <- <-.
  - right. now exists e, st1.
Qed.

Ltac bind_inversion H :=
  repeat (apply bind_ok_inv in H;
          let a := fresh "a" in
          let s := fresh "s" in
          let H0 := fresh "Hstep" in
          destruct H as (a & s & H0 & H)).

(** The provisioning and persisting stages always answer, with 200 or
    500. *)
Lemma V1_provision_status (E : env) (b : deploy_body) (n : string) (st st' : state)
      (r : result response) :
  V1.provision E b n st = (r, st') ->
  exists resp, r = Ok resp /\ (status resp = 200 \/ status resp = 500)%Z.
Proof.
  unfold V1.provision. intros H. apply try_catch_inv in H.
  destruct H as [[a [H ->]] | [e [st1 [_ H]]]].
  - exists a. split; [reflexivity|]. left. bind_inversion H.
    unfold ret in H. now injection H as <- _.
  - unfold bind, console_error, ret in H. injection H as <- _.
    eexists. split; [reflexivity|]. now right.
Qed.

Lemma V2_persist_status (E : env) (b : deploy_body) (n : string) (st st' : state)
      (r : result response) :
  V2.persist E b n st = (r, st') ->
  exists resp, r = Ok resp /\ (status resp = 200 \/ status resp = 500)%Z.
Proof.
  unfold V2.persist. intros H. apply try_catch_inv in H.
  destruct H as [[a [H ->]] | [e [st1 [_ H]]]].
  - exists a. split; [reflexivity|]. left. bind_inversion H.
    unfold ret in H. now injection H as <- _.
  - unfold bind, console_error, ret in H. injection H as <- _.
    eexists. split; [reflexivity|]. now right.
Qed.

(** The only rejection of the limit check is the 400 with the limit
    message, and the check leaves the collection as it was. *)
Lemma checkLimit_rejection (E : env) (proUrl : string) (u : jsval) (st st1 : state)
      (r : response) :
  checkLimit E proUrl u st = (Ok (Some r), st1) ->
  exists n l, r = json 400 (ErrorBody (limit_message n l)).
Proof.
  unfold checkLimit. intros H. apply try_catch_inv in H.
  destruct H as [[a [H Ha]] | [e [st2 [_ H]]]].
  - injection Ha as <-. bind_inversion H.
    destruct (_ >=? _)%Z; unfold ret in H; [|discriminate].
    injection H as <- _. now eexists _, _.
  - unfold bind, console_error, ret in H. discriminate.
Qed.

(** ** A store failure during the limit check *)

(** C10: when the query that counts the owner's deployments throws, the
    error is logged and nothing else happens in the check: the pro-users
    document is not fetched, no rejection is possible, and the request
    goes on to the name generation and to provisioning (first snapshot)
    or persisting (second snapshot); the answer is never the 400 of the
    limit. *)
Theorem C10_count_failure (E : env) (b : deploy_body) (st : state)
        (owner : string) (e : exn) :
  username b = JStr owner -> owner <> "" -> truthy (session_id b) = true ->
  db_fault E CountDocuments = Some e ->
  let st1 := logging [("Error checking deployment limit:", LogExn e)] st in
  (forall proUrl, checkLimit E proUrl (JStr owner) st = (Ok None, st1))
  /\ store st1 = store st /\ sent st1 = sent st
  /\ V1.deploy E b st
     = (name <- generatedAppName E (appname b) (bot_type b) ;;
        V1.provision E b name) st1
  /\ V2.deploy E b st
     = (name <- generatedAppName E (appname b) (bot_type b) ;;
        V2.persist E b name) st1
  /\ (forall r st',
         V1.deploy E b st = (Ok r, st') \/ V2.deploy E b st = (Ok r, st') ->
         (status r = 200 \/ status r = 500)%Z).
Proof.
  intros Hb Ho Hs Hdb. cbv zeta.
  assert (Hc : forall proUrl,
             checkLimit E proUrl (JStr owner) st
             = (Ok None, logging [("Error checking deployment limit:", LogExn e)] st)).
  { intros proUrl.
    unfold checkLimit, try_catch, bind, lift, countDocuments, faulty. simpl.
    now rewrite Hdb. }
  pose proof (truthy_JStr owner Ho) as Ht.
  assert (H1 : V1.deploy E b st
               = (name <- generatedAppName E (appname b) (bot_type b) ;;
                  V1.provision E b name)
                   (logging [("Error checking deployment limit:", LogExn e)] st)).
  { rewrite V1_deploy_checked by (rewrite ?Hb; assumption). now rewrite Hb, Hc. }
  assert (H2 : V2.deploy E b st
               = (name <- generatedAppName E (appname b) (bot_type b) ;;
                  V2.persist E b name)
                   (logging [("Error checking deployment limit:", LogExn e)] st)).
  { rewrite V2_deploy_checked by (rewrite ?Hb; assumption). now rewrite Hb, Hc. }
  repeat split; try assumption.
  intros r st' [H | H].
  - rewrite H1 in H. apply bind_ok_inv in H. destruct H as (n & s & _ & H).
    apply V1_provision_status in H. destruct H as [resp [Hr Hst]].
    now injection Hr as ->.
  - rewrite H2 in H. apply bind_ok_inv in H. destruct H as (n & s & _ & H).
    apply V2_persist_status in H. destruct H as [resp [Hr Hst]].
    now injection Hr as ->.
Qed.

Lemma C10_count_failure_witness :
  Spec.prior "Alice" (store Sample.three) = 2
  /\ fst (V1.deploy Sample.world_no_count Sample.unnamed Sample.three)
     = Ok (json 200 (StartedBody started Sample.uuid_d))
  /\ fst (V2.deploy Sample.world_no_count Sample.unnamed Sample.three)
     = Ok (json 200 (StartedNamedBody started Sample.uuid_d "khanmd-f47ac1")).
Proof.
  destruct (C10_count_failure Sample.world_no_count Sample.unnamed Sample.three
              "Alice" (MongoError 89 "connection timed out"))
    as (_ & _ & _ & H1 & H2 & _).
  - reflexivity.
  - discriminate.
  - reflexivity.
  - reflexivity.
  - rewrite H1, H2. repeat split; reflexivity.
Defined.

(** ** Validation *)

(** C2, as stated, fails: a bot type that is no key of [REPOSITORIES] is
    not refused.  The second snapshot stores the deployment and answers
    200; the first one has already created the app on Heroku. *)
Lemma C2_unsupported_type_counterexample :
  bot_type Sample.odd_type = JStr "whatsapp"
  /\ assoc "whatsapp" REPOSITORIES = None
  /\ fst (V2.deploy Sample.world Sample.odd_type Sample.empty)
     = Ok (json 200 (StartedNamedBody started Sample.uuid_c "erin"))
  /\ map d_type (store (snd (V2.deploy Sample.world Sample.odd_type Sample.empty)))
     = [JStr "whatsapp"]
  /\ In (V1.createApp Sample.world "erin")
        (sent (snd (V1.deploy Sample.world Sample.odd_type Sample.empty))).
Proof.
  repeat split; try reflexivity. vm_compute. right. left. reflexivity.
Qed.

(** C2 (amended): the handler validates, in order and before anything is
    sent or stored, that the owner is there (else 400 "GitHub username is
    required") and then that the session identifier is there (else 400
    "SESSION_ID is required"); it does not validate the bot type: a
    request with both fields goes on to the limit check whatever its
    bot_type, and the only 400 answers are those two and the limit
    rejection. *)
Theorem C2_validation_order (E : env) (b : deploy_body) (st : state) :
  (truthy (username b) = false ->
   V1.deploy E b st = (Ok (json 400 (ErrorBody "GitHub username is required")), st)
   /\ V2.deploy E b st = (Ok (json 400 (ErrorBody "GitHub username is required")), st))
  /\ (truthy (username b) = true -> truthy (session_id b) = false ->
      V1.deploy E b st = (Ok (json 400 (ErrorBody "SESSION_ID is required")), st)
      /\ V2.deploy E b st = (Ok (json 400 (ErrorBody "SESSION_ID is required")), st))
  /\ (truthy (username b) = true -> truthy (session_id b) = true ->
      forall t,
        let b' := mkBody (username b) (session_id b) (appname b) t (config b) in
        V1.deploy E b' st
        = after_check (checkLimit E V1.proUrl (username b) st)
            (name <- generatedAppName E (appname b) t ;; V1.provision E b' name)
        /\ V2.deploy E b' st
           = after_check (checkLimit E V2.proUrl (username b) st)
               (name <- generatedAppName E (appname b) t ;; V2.persist E b' name))
  /\ (forall r st',
         V1.deploy E b st = (Ok r, st') \/ V2.deploy E b st = (Ok r, st') ->
         status r = 400%Z ->
         body r = ErrorBody "GitHub username is required"
         \/ body r = ErrorBody "SESSION_ID is required"
         \/ exists n l, body r = ErrorBody (limit_message n l)).
Proof.
  split; [|split; [|split]].
  - intros Hu. unfold V1.deploy, V2.deploy. rewrite Hu. now split.
  - intros Hu Hs. unfold V1.deploy, V2.deploy. rewrite Hu, Hs. now split.
  - intros Hu Hs t. cbv zeta. split.
    + now rewrite V1_deploy_checked.
    + now rewrite V2_deploy_checked.
  - intros r st' H H400.
    destruct (truthy (username b)) eqn:Hu.
    2:{ left. unfold V1.deploy, V2.deploy in H. rewrite Hu in H. simpl in H.
        unfold ret in H. destruct H as [H | H]; now injection H as <- _. }
    destruct (truthy (session_id b)) eqn:Hs.
    2:{ right. left. unfold V1.deploy, V2.deploy in H. rewrite Hu, Hs in H.
        simpl in H. unfold ret in H. destruct H as [H | H]; now injection H as <- _. }
    right. right.
    rewrite V1_deploy_checked, V2_deploy_checked in H by assumption.
    unfold after_check in H.
    destruct H as [H | H].
    + destruct (checkLimit E V1.proUrl (username b) st) as [[[rej|]|e] st1] eqn:Hc.
      * injection H as <- _. apply checkLimit_rejection in Hc.
        destruct Hc as (n & l & ->). now exists n, l.
      * apply bind_ok_inv in H. destruct H as (n & s & _ & H).
        apply V1_provision_status in H. destruct H as [resp [Hr [Hst | Hst]]];
          injection Hr as ->; rewrite Hst in H400; discriminate.
      * discriminate.
    + destruct (checkLimit E V2.proUrl (username b) st) as [[[rej|]|e] st1] eqn:Hc.
      * injection H as <- _. apply checkLimit_rejection in Hc.
        destruct Hc as (n & l & ->). now exists n, l.
      * apply bind_ok_inv in H. destruct H as (n & s & _ & H).
        apply V2_persist_status in H. destruct H as [resp [Hr [Hst | Hst]]];
          injection Hr as ->; rewrite Hst in H400; discriminate.
      * discriminate.
Qed.

Lemma C2_validation_order_witness :
  V1.deploy Sample.world
            (mkBody (JStr "") (JStr "sess") JUndefined (JStr "khan") Sample.settings)
            Sample.three
  = (Ok (json 400 (ErrorBody "GitHub username is required")), Sample.three)
  /\ V2.deploy Sample.world
               (mkBody (JStr "Alice") JUndefined JUndefined (JStr "nope") Sample.settings)
               Sample.three
     = (Ok (json 400 (ErrorBody "SESSION_ID is required")), Sample.three).
Proof.
  split.
  - apply (C2_validation_order Sample.world
             (mkBody (JStr "") (JStr "sess") JUndefined (JStr "khan") Sample.settings)
             Sample.three).
    reflexivity.
  - apply (C2_validation_order Sample.world
             (mkBody (JStr "Alice") JUndefined JUndefined (JStr "nope") Sample.settings)
             Sample.three); reflexivity.
Defined.

(** ** What the stages before provisioning leave alone *)

Lemma checkLimit_same_data (E : env) (proUrl : string) (u : jsval) (st st1 : state)
      (r : result (option response)) :
  checkLimit E proUrl u st = (r, st1) -> same_data st st1.
Proof.
  unfold checkLimit, try_catch, bind, lift, countDocuments, faulty, same_data.
  destruct (call_toLowerCase u) as [l|e]; simpl.
  2:{ intros H. injection H as _ <-. now repeat split. }
  destruct (db_fault E CountDocuments) as [e|]; simpl.
  { intros H. injection H as _ <-. now repeat split. }
  pose proof (userLimit_state E proUrl l st) as Hs. cbv zeta in Hs.
  destruct (userLimit E proUrl l st) as [[lim|e] s1]; simpl in *.
  - destruct Hs as (H1 & H2 & H3 & H4 & _).
    destruct (_ >=? _)%Z; intros H; injection H as _ <-; now repeat split.
  - destruct Hs as (H1 & H2 & H3 & H4 & _).
    intros H; injection H as _ <-. now repeat split.
Qed.

Lemma generatedAppName_store (E : env) (a t : jsval) (st st1 : state)
      (r : result string) :
  generatedAppName E a t st = (r, st1) ->
  store st1 = store st /\ indexes st1 = indexes st /\ ids st1 = ids st
  /\ sent st1 = sent st /\ console st1 = console st.
Proof.
  unfold generatedAppName, bind, lift, ret, next_uuid.
  destruct (optional_trim a) as [v|e]; simpl.
  2:{ intros H. injection H as _ <-. now repeat split. }
  destruct (truthy v).
  - destruct (call_trim a); simpl; intros H; injection H as _ <-; now repeat split.
  - destruct (toString t); simpl; intros H; injection H as _ <-; now repeat split.
Qed.

Lemma sending_sending (a c : list http_call) (st : state) :
  sending c (sending a st) = sending (a ++ c) st.
Proof. unfold sending. simpl. now rewrite <- app_assoc. Qed.

(** ** The configuration variables *)

Lemma assign_fresh (obj : list (string * jsval)) (key : string) (v : jsval) :
  ~ In key (map fst obj) -> assign obj key v = (obj ++ [(key, v)])%list.
Proof.
  induction obj as [|[k x] r IH]; simpl; intros H; [reflexivity|].
  destruct (k =? key) eqn:Hk.
  - apply String.eqb_eq in Hk. tauto.
  - rewrite IH; tauto.
Qed.

Lemma get_value (v : jsval) :
  v <> JUndefined /\ v <> JNull -> get_prop v "value" = Ok (value_of v).
Proof. intros [H1 H2]. destruct v; simpl; try reflexivity; congruence. Qed.

Lemma collect_plain (entries acc : list (string * jsval)) :
  plain_config entries ->
  (forall k, In k (map fst entries) -> ~ In k (map fst acc)) ->
  collect entries acc
  = Ok (acc ++ map (fun kv => (fst kv, value_of (snd kv))) entries)%list.
Proof.
  revert acc. induction entries as [|[k v] r IH]; intros acc (Hnd & Hp & Hv) Hacc.
  - simpl. now rewrite app_nil_r.
  - simpl in *. inversion Hnd as [|? ? Hk Hnd']. inversion Hv as [|? ? Hv1 Hv']. subst.
    rewrite (get_value v Hv1). unfold set_prop.
    destruct (k =? "__proto__") eqn:Hpk.
    { apply String.eqb_eq in Hpk. subst. tauto. }
    rewrite assign_fresh by (apply Hacc; now left).
    rewrite IH.
    + now rewrite <- app_assoc.
    + repeat split; [exact Hnd' | tauto | exact Hv'].
    + intros k' Hk' Hin. rewrite map_app, in_app_iff in Hin. simpl in Hin.
      destruct Hin as [Hin | [<- | []]].
      * apply (Hacc k'); [now right | exact Hin].
      * contradiction.
Qed.

Lemma configVars_plain (fields : list (string * jsval)) :
  plain_config fields ->
  V1.configVars (JObj fields)
  = Ok (map (fun kv => (fst kv, value_of (snd kv))) fields).
Proof.
  intros H. unfold V1.configVars. simpl. now rewrite collect_plain.
Qed.

(** ** The provisioning sequence of the first snapshot *)

Lemma V1_deploy_provision (E : env) (b : deploy_body) (st stq st1 : state)
      (name : string) :
  truthy (username b) = true -> truthy (session_id b) = true ->
  checkLimit E V1.proUrl (username b) st = (Ok None, stq) ->
  generatedAppName E (appname b) (bot_type b) stq = (Ok name, st1) ->
  V1.deploy E b st = V1.provision E b name st1.
Proof.
  intros Hu Hs Hc Hg. rewrite V1_deploy_checked by assumption.
  rewrite Hc. unfold after_check, bind. now rewrite Hg.
Qed.

(** The second [try] of the first snapshot, step by step. *)
Lemma V1_provision_steps (E : env) (b : deploy_body) (name : string) (st1 : state) :
  let c1 := V1.createApp E name in
  let c2 := V1.setConfigVars E name in
  let c3 := V1.triggerBuild E name in
  let aborted e calls :=
    (Ok (json 500 (FailureBody "Deployment failed" (V1.details e))),
     logging [("Deployment error:", LogVal (V1.details e))] (sending calls st1)) in
  (forall e, axios E c1 = Some e -> V1.provision E b name st1 = aborted e [c1])
  /\ (forall e, axios E c1 = None -> V1.configVars (config b) = Throw e ->
                V1.provision E b name st1 = aborted e [c1])
  /\ (forall vars e,
         axios E c1 = None -> V1.configVars (config b) = Ok vars ->
         axios E (c2 vars) = Some e ->
         V1.provision E b name st1 = aborted e [c1; c2 vars])
  /\ (forall vars e,
         axios E c1 = None -> V1.configVars (config b) = Ok vars ->
         axios E (c2 vars) = None -> repository (bot_type b) = Throw e ->
         V1.provision E b name st1 = aborted e [c1; c2 vars])
  /\ (forall vars source e,
         axios E c1 = None -> V1.configVars (config b) = Ok vars ->
         axios E (c2 vars) = None -> repository (bot_type b) = Ok source ->
         axios E (c3 source) = Some e ->
         V1.provision E b name st1 = aborted e [c1; c2 vars; c3 source])
  /\ (forall vars source owner,
         axios E c1 = None -> V1.configVars (config b) = Ok vars ->
         axios E (c2 vars) = None -> repository (bot_type b) = Ok source ->
         axios E (c3 source) = None ->
         username b = JStr owner ->
         let token := uuidv4 E (uuids st1) in
         let d := mkDeployment (ids st1) (toLowerCase owner) name (bson (bot_type b))
                               token (now E) None None in
         db_fault E InsertOne = None ->
         violated (indexes st1) d (store st1) = None ->
         V1.provision E b name st1
         = (Ok (json 200 (StartedBody started token)),
            inserted d (after_uuid (sending [c1; c2 vars; c3 source] st1)))).
Proof.
  cbv zeta.
  unfold V1.provision, try_catch, bind, request, lift, console_error, ret,
    V1.failure, next_uuid, insertOne, faulty.
  split; [|split; [|split; [|split; [|split]]]].
  - intros e H1. now rewrite H1.
  - intros e H1 Hcfg. now rewrite H1, Hcfg.
  - intros vars e H1 Hcfg H2. rewrite H1, Hcfg, H2.
    now rewrite sending_sending.
  - intros vars e H1 Hcfg H2 Hr. rewrite H1, Hcfg, H2, Hr.
    now rewrite sending_sending.
  - intros vars source e H1 Hcfg H2 Hr H3. rewrite H1, Hcfg, H2, Hr, H3.
    now rewrite !sending_sending.
  - intros vars source owner H1 Hcfg H2 Hr H3 Ho Hdb Hv.
    rewrite H1, Hcfg, H2, Hr, H3, Ho. simpl.
    rewrite Hdb. rewrite !sending_sending. unfold serialize. simpl in *.
    now rewrite Hv.
Qed.

(** C4: in the first snapshot a deployment that passed validation and
    the limit check runs three requests in this order: POST
    https://api.heroku.com/apps with the generated name, PATCH
    .../apps/<name>/config-vars with the [.value] of every entry of the
    configuration, POST .../apps/<name>/builds with the archive of the
    bot type as the URL of its source blob.  The first step that fails
    (a request that is rejected, the configuration loop or the read of
    the archive when it throws) ends the sequence there with the 500
    "Deployment failed" whose details are the provider's response data
    when there is one and the error message otherwise, no UUID drawn and
    the collection as it was; only when all three requests resolve is
    the token drawn and the document inserted. *)
Theorem C4_provisioning_sequence (E : env) (b : deploy_body) (st stq st1 : state)
        (name : string) :
  truthy (username b) = true -> truthy (session_id b) = true ->
  checkLimit E V1.proUrl (username b) st = (Ok None, stq) ->
  generatedAppName E (appname b) (bot_type b) stq = (Ok name, st1) ->
  let heroku := [("Authorization", "Bearer " ++ getRandomHerokuKey E);
                 ("Accept", "application/vnd.heroku+json; version=3");
                 ("Content-Type", "application/json")] in
  let c1 := mkCall "POST" "https://api.heroku.com/apps"
                   (JObj [("name", JStr name)]) heroku in
  let c2 vars := mkCall "PATCH" ("https://api.heroku.com/apps/" ++ name ++ "/config-vars")
                        (JObj vars) heroku in
  let c3 source := mkCall "POST" ("https://api.heroku.com/apps/" ++ name ++ "/builds")
                          (JObj [("source_blob", JObj [("url", in_body source)])])
                          heroku in
  let aborted e calls :=
    (Ok (json 500 (FailureBody "Deployment failed" (V1.details e))),
     logging [("Deployment error:", LogVal (V1.details e))] (sending calls st1)) in
  store st1 = store st
  /\ (forall e calls, store (snd (aborted e calls)) = store st
                      /\ uuids (snd (aborted e calls)) = uuids st1)
  /\ (forall e, axios E c1 = Some e -> V1.deploy E b st = aborted e [c1])
  /\ (forall e, axios E c1 = None -> V1.configVars (config b) = Throw e ->
                V1.deploy E b st = aborted e [c1])
  /\ (forall vars e,
         axios E c1 = None -> V1.configVars (config b) = Ok vars ->
         axios E (c2 vars) = Some e ->
         V1.deploy E b st = aborted e [c1; c2 vars])
  /\ (forall vars e,
         axios E c1 = None -> V1.configVars (config b) = Ok vars ->
         axios E (c2 vars) = None -> repository (bot_type b) = Throw e ->
         V1.deploy E b st = aborted e [c1; c2 vars])
  /\ (forall vars source e,
         axios E c1 = None -> V1.configVars (config b) = Ok vars ->
         axios E (c2 vars) = None -> repository (bot_type b) = Ok source ->
         axios E (c3 source) = Some e ->
         V1.deploy E b st = aborted e [c1; c2 vars; c3 source])
  /\ (forall vars source owner,
         axios E c1 = None -> V1.configVars (config b) = Ok vars ->
         axios E (c2 vars) = None -> repository (bot_type b) = Ok source ->
         axios E (c3 source) = None ->
         username b = JStr owner ->
         let token := uuidv4 E (uuids st1) in
         let d := mkDeployment (ids st1) (toLowerCase owner) name (bson (bot_type b))
                               token (now E) None None in
         db_fault E InsertOne = None ->
         violated (indexes st1) d (store st1) = None ->
         V1.deploy E b st
         = (Ok (json 200 (StartedBody started token)),
            inserted d (after_uuid (sending [c1; c2 vars; c3 source] st1))))
  /\ (forall fields, config b = JObj fields -> plain_config fields ->
         V1.configVars (config b)
         = Ok (map (fun kv => (fst kv, value_of (snd kv))) fields))
  /\ (forall t u, bot_type b = JStr t -> assoc t REPOSITORIES = Some u ->
         repository (bot_type b) = Ok (Own u) /\ in_body (Own u) = JStr u)
  /\ assoc "khan" REPOSITORIES
     = Some "https://github.com/JawadTechXD/KHAN-MD/tarball/main"
  /\ assoc "jawad" REPOSITORIES
     = Some "https://github.com/JawadTechXD/JAWAD-MD/tarball/main".
Proof.
  intros Hu Hs Hc Hg. cbv zeta.
  rewrite (V1_deploy_provision E b st stq st1 name Hu Hs Hc Hg).
  assert (Hst : store st1 = store st).
  { apply checkLimit_same_data in Hc. apply generatedAppName_store in Hg.
    destruct Hc as [Hc _]. destruct Hg as [Hg _]. congruence. }
  destruct (V1_provision_steps E b name st1) as (S1 & S2 & S3 & S4 & S5 & S6).
  split; [exact Hst|].
  split; [intros e calls; simpl; now split|].
  split; [exact S1|]. split; [exact S2|]. split; [exact S3|]. split; [exact S4|].
  split; [exact S5|]. split; [exact S6|].
  split; [intros fields -> Hp; now apply configVars_plain|].
  split; [|split; reflexivity].
  intros t u -> Ha. unfold repository, REPOSITORIES_at. cbn [toString].
  now rewrite Ha.
Qed.

Lemma C4_provisioning_sequence_witness :
  fst (V1.deploy Sample.world_no_build Sample.my_bot Sample.empty)
  = Ok (json 500 (FailureBody "Deployment failed"
                    (JObj [("id", JStr "not_found");
                           ("message", JStr "Couldn't find that app.")])))
  /\ map (fun c => (method c, url c, data c))
         (sent (snd (V1.deploy Sample.world_no_build Sample.my_bot Sample.empty)))
     = [("GET", "https://raw.githubusercontent.com/JawadTechXD/VPS/main/user.json",
         JUndefined);
        ("POST", "https://api.heroku.com/apps", JObj [("name", JStr "my-bot-")]);
        ("PATCH", "https://api.heroku.com/apps/my-bot-/config-vars",
         JObj [("SESSION_ID", JStr "abc"); ("PREFIX", JStr ".")]);
        ("POST", "https://api.heroku.com/apps/my-bot-/builds",
         JObj [("source_blob",
                JObj [("url", JStr "https://github.com/JawadTechXD/KHAN-MD/tarball/main")])])]
  /\ store (snd (V1.deploy Sample.world_no_build Sample.my_bot Sample.empty)) = [].
Proof.
  destruct (C4_provisioning_sequence Sample.world_no_build Sample.my_bot Sample.empty
              (snd (checkLimit Sample.world_no_build V1.proUrl (JStr "Alice") Sample.empty))
              (snd (checkLimit Sample.world_no_build V1.proUrl (JStr "Alice") Sample.empty))
              "my-bot-")
    as (_ & _ & _ & _ & _ & _ & H & _); try reflexivity.
  rewrite (H [("SESSION_ID", JStr "abc"); ("PREFIX", JStr ".")]
             (Own "https://github.com/JawadTechXD/KHAN-MD/tarball/main")
             Sample.not_found);
    try reflexivity.
  repeat split.
Defined.

(** ** Persisting the deployment *)

Lemma violated_none (ixs : list index) (d : deployment) (l : list deployment) (k : key) :
  violated ixs d l = None -> In (mkIndex k true) ixs ->
  existsb (fun d' => key_of k d' =? key_of k d) l = false.
Proof.
  induction ixs as [|ix r IH]; simpl; [tauto|].
  destruct (idx_unique ix && existsb _ l) eqn:Hx; [discriminate|].
  intros Hv [-> | Hin]; [|now apply IH].
  simpl in Hx. exact Hx.
Qed.

Lemma count_absent (k : key) (v : string) (l : list deployment) :
  existsb (fun d' => key_of k d' =? v) l = false -> count_occ_key k v l = 0.
Proof.
  unfold count_occ_key. induction l as [|d r IH]; simpl; [reflexivity|].
  destruct (key_of k d =? v); simpl; [discriminate | exact IH].
Qed.

Lemma count_snoc (k : key) (v : string) (l : list deployment) (d : deployment) :
  count_occ_key k v (l ++ [d])
  = count_occ_key k v l + (if key_of k d =? v then 1 else 0).
Proof.
  unfold count_occ_key. rewrite filter_app, length_app. simpl.
  destruct (key_of k d =? v); reflexivity.
Qed.

Lemma absent_not_in (k : key) (v : string) (l : list deployment) (d : deployment) :
  existsb (fun d' => key_of k d' =? v) l = false -> In d l -> key_of k d <> v.
Proof.
  intros Hx Hin Heq. apply Bool.not_true_iff_false in Hx. apply Hx.
  apply existsb_exists. exists d. split; [exact Hin|]. now apply String.eqb_eq.
Qed.

Lemma request_ok (E : env) (c : http_call) (st st' : state) (u : unit) :
  request E c st = (Ok u, st') -> axios E c = None /\ st' = sending [c] st.
Proof.
  unfold request. destruct (axios E c); [discriminate|].
  intros H. now injection H as <-.
Qed.

(** A 200 of [POST /deploy] comes out of the second [try], after the
    limit check let the request through and the name was made. *)
Lemma V1_deploy_200 (E : env) (b : deploy_body) (st st' : state) (r : response) :
  V1.deploy E b st = (Ok r, st') -> status r = 200%Z ->
  exists stq st1 name,
    checkLimit E V1.proUrl (username b) st = (Ok None, stq)
    /\ generatedAppName E (appname b) (bot_type b) stq = (Ok name, st1)
    /\ V1.provision E b name st1 = (Ok r, st').
Proof.
  intros H H200. unfold V1.deploy in H.
  destruct (truthy (username b)); simpl in H.
  2:{ unfold ret in H. injection H as <- _. discriminate. }
  destruct (truthy (session_id b)); simpl in H.
  2:{ unfold ret in H. injection H as <- _. discriminate. }
  apply bind_ok_inv in H. destruct H as (rej & stq & Hc & H).
  destruct rej as [rej|].
  - unfold ret in H. injection H as <- _. apply checkLimit_rejection in Hc.
    destruct Hc as (n & l & ->). discriminate.
  - apply bind_ok_inv in H. destruct H as (name & st1 & Hg & H).
    now exists stq, st1, name.
Qed.

Lemma V2_deploy_200 (E : env) (b : deploy_body) (st st' : state) (r : response) :
  V2.deploy E b st = (Ok r, st') -> status r = 200%Z ->
  exists stq st1 name,
    checkLimit E V2.proUrl (username b) st = (Ok None, stq)
    /\ generatedAppName E (appname b) (bot_type b) stq = (Ok name, st1)
    /\ V2.persist E b name st1 = (Ok r, st').
Proof.
  intros H H200. unfold V2.deploy in H.
  destruct (truthy (username b)); simpl in H.
  2:{ unfold ret in H. injection H as <- _. discriminate. }
  destruct (truthy (session_id b)); simpl in H.
  2:{ unfold ret in H. injection H as <- _. discriminate. }
  apply bind_ok_inv in H. destruct H as (rej & stq & Hc & H).
  destruct rej as [rej|].
  - unfold ret in H. injection H as <- _. apply checkLimit_rejection in Hc.
    destruct Hc as (n & l & ->). discriminate.
  - apply bind_ok_inv in H. destruct H as (name & st1 & Hg & H).
    now exists stq, st1, name.
Qed.

Lemma call_toLowerCase_ok (v : jsval) (u : string) :
  call_toLowerCase v = Ok u -> exists s, v = JStr s /\ u = toLowerCase s.
Proof. destruct v; simpl; intros H; try discriminate. injection H as <-. now eexists. Qed.

Lemma insertOne_ok (E : env) (doc : nat -> deployment) (st st' : state) :
  insertOne E doc st = (Ok tt, st') ->
  db_fault E InsertOne = None
  /\ violated (indexes st) (serialize (doc (ids st))) (store st) = None
  /\ st' = inserted (serialize (doc (ids st))) st.
Proof.
  unfold insertOne, faulty. destruct (db_fault E InsertOne); [discriminate|].
  cbv zeta. destruct (violated _ _ _); [discriminate|].
  intros H. now injection H as <-.
Qed.

Ltac run_backwards :=
  repeat match goal with
         | H : bind _ _ _ = (Ok _, _) |- _ =>
             apply bind_ok_inv in H; destruct H as (? & ? & ? & ?)
         | H : ret _ _ = (Ok _, _) |- _ =>
             unfold ret in H; injection H as ? ?; subst
         | H : next_uuid _ _ = (Ok _, _) |- _ =>
             unfold next_uuid in H; injection H as ? ?; subst
         | H : lift _ _ = (Ok _, _) |- _ =>
             unfold lift in H; injection H as ? ?; subst
         | H : insertOne _ _ _ = (Ok ?u, _) |- _ =>
             destruct u; apply insertOne_ok in H; destruct H as (? & ? & ?); subst
         | H : request _ _ _ = (Ok _, _) |- _ =>
             apply request_ok in H; destruct H as (? & ?); subst
         | H : call_toLowerCase _ = Ok _ |- _ =>
             apply call_toLowerCase_ok in H; destruct H as (? & ? & ?); subst
         end.

Lemma V2_persist_200 (E : env) (b : deploy_body) (name : string) (st1 st' : state)
      (r : response) :
  V2.persist E b name st1 = (Ok r, st') -> status r = 200%Z ->
  exists owner,
    username b = JStr owner
    /\ let token := uuidv4 E (uuids st1) in
       let d := mkDeployment (ids st1) (toLowerCase owner) name (bson (bot_type b))
                             token (now E) (Some (bson (session_id b)))
                             (Some (bson (config b))) in
       violated (indexes st1) d (store st1) = None
       /\ r = json 200 (StartedNamedBody started token name)
       /\ st' = inserted d (after_uuid st1).
Proof.
  unfold V2.persist. intros H H200. apply try_catch_inv in H.
  destruct H as [[a [H Ha]] | [e [s [_ H]]]].
  - injection Ha as <-. run_backwards.
    eexists. split; [eassumption|]. cbv zeta. now repeat split.
  - unfold bind, console_error, ret in H. injection H as <- _. discriminate.
Qed.

Lemma V1_provision_200 (E : env) (b : deploy_body) (name : string) (st1 st' : state)
      (r : response) :
  V1.provision E b name st1 = (Ok r, st') -> status r = 200%Z ->
  exists owner st3,
    username b = JStr owner
    /\ store st3 = store st1
    /\ let token := uuidv4 E (uuids st1) in
       let d := mkDeployment (ids st1) (toLowerCase owner) name (bson (bot_type b))
                             token (now E) None None in
       r = json 200 (StartedBody started token)
       /\ st' = inserted d st3.
Proof.
  unfold V1.provision. intros H H200. apply try_catch_inv in H.
  destruct H as [[a [H Ha]] | [e [s [_ H]]]].
  - injection Ha as <-. run_backwards.
    eexists. eexists. split; [eassumption|]. split; [|cbv zeta; split; reflexivity].
    reflexivity.
  - unfold bind, console_error, ret in H. injection H as <- _. discriminate.
Qed.

Lemma V2_deploy_persist (E : env) (b : deploy_body) (st stq st1 : state)
      (name : string) :
  truthy (username b) = true -> truthy (session_id b) = true ->
  checkLimit E V2.proUrl (username b) st = (Ok None, stq) ->
  generatedAppName E (appname b) (bot_type b) stq = (Ok name, st1) ->
  V2.deploy E b st = V2.persist E b name st1.
Proof.
  intros Hu Hs Hc Hg. rewrite V2_deploy_checked by assumption.
  rewrite Hc. unfold after_check, bind. now rewrite Hg.
Qed.

Lemma before_provision (E : env) (proUrl : string) (b : deploy_body)
      (st stq st1 : state) (r : result (option response)) (n : result string) :
  checkLimit E proUrl (username b) st = (r, stq) ->
  generatedAppName E (appname b) (bot_type b) stq = (n, st1) ->
  store st1 = store st /\ indexes st1 = indexes st.
Proof.
  intros Hc Hg. apply checkLimit_same_data in Hc. apply generatedAppName_store in Hg.
  destruct Hc as (H1 & H2 & _). destruct Hg as (H3 & H4 & _). split; congruence.
Qed.

Lemma connectToMongo_indexes (E : env) (st st' : state) :
  V2.connectToMongo E st = (Ok true, st') ->
  store st' = store st
  /\ indexes st' = (indexes st ++ V2.created_indexes)%list.
Proof.
  unfold V2.connectToMongo, try_catch, bind, createIndex, faulty, ret, console_error.
  destruct (db_fault E Connect); simpl; [intros H; discriminate H|].
  destruct (db_fault E CreateIndex); simpl; [intros H; discriminate H|].
  destruct (distinct (map (key_of KToken) (store st))); simpl;
    [|intros H; discriminate H].
  destruct (distinct (map (key_of KName) (store st))); simpl;
    [|intros H; discriminate H].
  intros H. injection H as <-. simpl. split; [reflexivity|].
  now rewrite <- !app_assoc.
Qed.

(** C5, as stated, fails on the first snapshot: its success response
    carries the token and no appName. *)
Lemma C5_no_appName_counterexample :
  exists r,
    fst (V1.deploy Sample.world Sample.my_bot Sample.empty) = Ok r
    /\ status r = 200%Z
    /\ token_of (body r) = Some Sample.uuid_c
    /\ appName_of (body r) = None.
Proof. eexists. repeat split. Qed.

(** C5 (amended): in the second snapshot, with the unique index on the
    token in place, every success response of a deployment carries the
    token and the generated app name, exactly one stored deployment has
    that token, and its name is the generated name; and a valid request
    that the limit check lets through does get that response when the
    insertion is accepted.  In the first snapshot the success response
    carries the token only; a deployment with that token and the
    generated name is stored, and it is the only one with that token when
    the token is not in the collection already (no index enforces it
    there). *)
Theorem C5_token_identifies (E : env) (b : deploy_body) (st : state) :
  (forall r st',
      V2.deploy E b st = (Ok r, st') -> status r = 200%Z ->
      In (mkIndex KToken true) (indexes st) ->
      exists token name stq st1,
        checkLimit E V2.proUrl (username b) st = (Ok None, stq)
        /\ generatedAppName E (appname b) (bot_type b) stq = (Ok name, st1)
        /\ body r = StartedNamedBody started token name
        /\ count_occ_key KToken token (store st') = 1
        /\ (forall d, In d (store st') -> d_token d = token -> d_name d = name))
  /\ (forall owner stq st1 name,
         username b = JStr owner -> owner <> "" -> truthy (session_id b) = true ->
         checkLimit E V2.proUrl (username b) st = (Ok None, stq) ->
         generatedAppName E (appname b) (bot_type b) stq = (Ok name, st1) ->
         let token := uuidv4 E (uuids st1) in
         let d := mkDeployment (ids st1) (toLowerCase owner) name (bson (bot_type b))
                               token (now E) (Some (bson (session_id b)))
                               (Some (bson (config b))) in
         db_fault E InsertOne = None ->
         violated (indexes st1) d (store st1) = None ->
         V2.deploy E b st
         = (Ok (json 200 (StartedNamedBody started token name)),
            inserted d (after_uuid st1)))
  /\ (forall r st',
         V1.deploy E b st = (Ok r, st') -> status r = 200%Z ->
         exists token name stq st1,
           checkLimit E V1.proUrl (username b) st = (Ok None, stq)
           /\ generatedAppName E (appname b) (bot_type b) stq = (Ok name, st1)
           /\ body r = StartedBody started token
           /\ appName_of (body r) = None
           /\ (exists d, In d (store st') /\ d_token d = token /\ d_name d = name)
           /\ (count_occ_key KToken token (store st) = 0 ->
               count_occ_key KToken token (store st') = 1
               /\ forall d, In d (store st') -> d_token d = token -> d_name d = name)).
Proof.
  split; [|split].
  - intros r st' H H200 Hix.
    destruct (V2_deploy_200 E b st st' r H H200) as (stq & st1 & name & Hc & Hg & Hp).
    destruct (before_provision E _ b st stq st1 _ _ Hc Hg) as [Hst Hi].
    destruct (V2_persist_200 E b name st1 st' r Hp H200) as (owner & Hb & Hv & -> & ->).
    exists (uuidv4 E (uuids st1)), name, stq, st1.
    rewrite <- Hi in Hix. pose proof (violated_none _ _ _ KToken Hv Hix) as Hx.
    simpl in Hx. repeat split; try assumption.
    + simpl. rewrite count_snoc, (count_absent KToken _ _ Hx). simpl.
      now rewrite String.eqb_refl.
    + simpl. intros d Hd Ht. apply in_app_or in Hd. destruct Hd as [Hd | [<- | []]].
      * exfalso. exact (absent_not_in KToken _ _ d Hx Hd Ht).
      * reflexivity.
  - intros owner stq st1 name Hb Ho Hs Hc Hg token d Hdb Hv.
    rewrite (V2_deploy_persist E b st stq st1 name); try assumption.
    + unfold V2.persist, try_catch, bind, next_uuid, lift, insertOne, faulty, ret.
      rewrite Hb. simpl. rewrite Hdb. unfold serialize. simpl in *.
      subst d token. simpl in *. now rewrite Hv.
    + rewrite Hb. now apply truthy_JStr.
  - intros r st' H H200.
    destruct (V1_deploy_200 E b st st' r H H200) as (stq & st1 & name & Hc & Hg & Hp).
    destruct (before_provision E _ b st stq st1 _ _ Hc Hg) as [Hst Hi].
    destruct (V1_provision_200 E b name st1 st' r Hp H200)
      as (owner & st3 & Hb & Hst3 & -> & ->).
    exists (uuidv4 E (uuids st1)), name, stq, st1.
    split; [exact Hc|]. split; [exact Hg|]. split; [reflexivity|].
    split; [reflexivity|]. split.
    + eexists. split; [simpl; apply in_or_app; right; left; reflexivity|].
      split; reflexivity.
    + intros H0. split.
      * simpl. rewrite count_snoc, Hst3, Hst, H0. simpl. now rewrite String.eqb_refl.
      * simpl. intros d Hd Ht. apply in_app_or in Hd. destruct Hd as [Hd | [<- | []]].
        -- exfalso. rewrite Hst3, Hst in Hd.
           unfold count_occ_key in H0. apply length_zero_iff_nil in H0.
           assert (Hin : In d (filter (fun d0 => key_of KToken d0
                                                 =? uuidv4 E (uuids st1)) (store st))).
           { apply filter_In. split; [exact Hd|]. simpl. now apply String.eqb_eq. }
           rewrite H0 in Hin. exact Hin.
        -- reflexivity.
Qed.

Lemma C5_token_identifies_witness :
  fst (V2.deploy Sample.world Sample.unnamed Sample.one)
  = Ok (json 200 (StartedNamedBody started Sample.uuid_d "khanmd-f47ac1"))
  /\ count_occ_key KToken Sample.uuid_d
       (store (snd (V2.deploy Sample.world Sample.unnamed Sample.one))) = 1.
Proof.
  destruct (C5_token_identifies Sample.world Sample.unnamed Sample.one) as [H1 [H2 _]].
  split.
  - rewrite (H2 "Alice"
               (snd (checkLimit Sample.world V2.proUrl (JStr "Alice") Sample.one))
               (after_uuid
                  (snd (checkLimit Sample.world V2.proUrl (JStr "Alice") Sample.one)))
               "khanmd-f47ac1"); try reflexivity.
    discriminate.
  - destruct (H1 (json 200 (StartedNamedBody started Sample.uuid_d "khanmd-f47ac1"))
                (snd (V2.deploy Sample.world Sample.unnamed Sample.one)))
      as (token & name & stq & st1 & _ & _ & Hb & Hcount & _).
    + reflexivity.
    + reflexivity.
    + simpl. right. left. reflexivity.
    + simpl in Hb. injection Hb as <- <-. exact Hcount.
Defined.

(** ** A name that is taken *)

(** C6, as stated, fails: when the unique index on the name rejects the
    insertion, the answer is the same 500 "Deployment failed" that any
    other failure of the insertion gets; only the details, the driver's
    message, differ. *)
Lemma C6_duplicate_name_counterexample :
  existsb (fun d => d_name d =? "my-bot-") (store Sample.one) = true
  /\ fst (V2.deploy Sample.world Sample.my_bot Sample.one)
     = Ok (json 500 (FailureBody "Deployment failed"
             (JStr "E11000 duplicate key error index: name_1 dup key: my-bot-")))
  /\ fst (V2.deploy Sample.world_no_insert Sample.my_bot Sample.empty)
     = Ok (json 500 (FailureBody "Deployment failed" (JStr "connection timed out")))
  /\ (forall r, fst (V2.deploy Sample.world Sample.my_bot Sample.one) = Ok r ->
                generic_failure r).
Proof.
  repeat split; try reflexivity.
  - vm_compute in H. now injection H as <-.
  - vm_compute in H. injection H as <-. now eexists.
Qed.

(** C6 (amended): when the insertion of the record is rejected because
    the app name is already stored (unique index on the name), the
    operation answers with the generic failure, 500 "Deployment failed",
    whose details are the text of the driver's duplicate-key error, and
    the collection stays as it was; any other exception of the insertion
    gets the same answer with its own message.  The first snapshot
    answers a rejected insertion in the same way, after its three
    requests. *)
Theorem C6_duplicate_name (E : env) (b : deploy_body) (st stq st1 : state)
        (name owner : string) :
  username b = JStr owner -> owner <> "" -> truthy (session_id b) = true ->
  checkLimit E V2.proUrl (username b) st = (Ok None, stq) ->
  generatedAppName E (appname b) (bot_type b) stq = (Ok name, st1) ->
  let token := uuidv4 E (uuids st1) in
  let answer e :=
    (Ok (json 500 (FailureBody "Deployment failed" (JStr (error_message e)))),
     logging [("Deployment error:", LogExn e)] (after_uuid st1)) in
  (db_fault E InsertOne = None ->
   indexes st = V2.created_indexes ->
   existsb (fun d => d_token d =? token) (store st) = false ->
   existsb (fun d => d_name d =? name) (store st) = true ->
   V2.deploy E b st = answer (MongoError 11000 (dup_key_message E "name_1" name))
   /\ generic_failure (json 500 (FailureBody "Deployment failed"
                                   (JStr (dup_key_message E "name_1" name))))
   /\ store (snd (V2.deploy E b st)) = store st)
  /\ (forall e, db_fault E InsertOne = Some e ->
                V2.deploy E b st = answer e
                /\ store (snd (V2.deploy E b st)) = store st)
  /\ (forall stq' st1' name' vars source k,
         checkLimit E V1.proUrl (username b) st = (Ok None, stq') ->
         generatedAppName E (appname b) (bot_type b) stq' = (Ok name', st1') ->
         axios E (V1.createApp E name') = None ->
         V1.configVars (config b) = Ok vars ->
         axios E (V1.setConfigVars E name' vars) = None ->
         repository (bot_type b) = Ok source ->
         axios E (V1.triggerBuild E name' source) = None ->
         db_fault E InsertOne = None ->
         let d := mkDeployment (ids st1') (toLowerCase owner) name' (bson (bot_type b))
                               (uuidv4 E (uuids st1')) (now E) None None in
         violated (indexes st1') d (store st1') = Some k ->
         fst (V1.deploy E b st)
         = Ok (json 500 (FailureBody "Deployment failed"
                           (JStr (dup_key_message E (index_name k) (key_of k d)))))
         /\ store (snd (V1.deploy E b st)) = store st).
Proof.
  intros Hb Ho Hs Hc Hg. cbv zeta.
  pose proof (truthy_JStr owner Ho) as Ht.
  assert (Hu : truthy (username b) = true) by now rewrite Hb.
  rewrite (V2_deploy_persist E b st stq st1 name Hu Hs Hc Hg).
  destruct (before_provision E _ b st stq st1 _ _ Hc Hg) as [Hst Hi].
  unfold V2.persist, try_catch, bind, next_uuid, lift, insertOne, faulty, ret,
    console_error.
  rewrite Hb. simpl. split; [|split].
  - intros Hdb Hix Htok Hname. rewrite Hdb, Hi, Hix, Hst. simpl.
    rewrite Htok, Hname. simpl. repeat split; [now eexists | exact Hst].
  - intros e Hdb. rewrite Hdb. simpl. now split.
  - intros stq' st1' name' vars source k Hc' Hg' H1 Hcfg H2 Hr H3 Hdb Hv.
    rewrite <- Hb in Hc'.
    rewrite (V1_deploy_provision E b st stq' st1' name' Hu Hs Hc' Hg').
    destruct (before_provision E _ b st stq' st1' _ _ Hc' Hg') as [Hst' Hi'].
    unfold V1.provision, try_catch, bind, request, lift, console_error, ret,
      V1.failure, next_uuid, insertOne, faulty.
    rewrite H1, Hcfg, H2, Hr, H3, Hb. simpl. rewrite Hdb. unfold serialize.
    simpl in *. rewrite Hv. simpl.
    now split.
Qed.

Lemma C6_duplicate_name_witness :
  V2.deploy Sample.world Sample.my_bot Sample.one
  = (Ok (json 500 (FailureBody "Deployment failed"
                     (JStr "E11000 duplicate key error index: name_1 dup key: my-bot-"))),
     logging [("Deployment error:",
               LogExn (MongoError 11000
                         "E11000 duplicate key error index: name_1 dup key: my-bot-"))]
             (after_uuid
                (snd (checkLimit Sample.world V2.proUrl (JStr "Alice") Sample.one)))).
Proof.
  destruct (C6_duplicate_name Sample.world Sample.my_bot Sample.one
              (snd (checkLimit Sample.world V2.proUrl (JStr "Alice") Sample.one))
              (snd (checkLimit Sample.world V2.proUrl (JStr "Alice") Sample.one))
              "my-bot-" "Alice") as [H _].
  - reflexivity.
  - discriminate.
  - reflexivity.
  - reflexivity.
  - reflexivity.
  - destruct H as [H _].
    + reflexivity.
    + reflexivity.
    + reflexivity.
    + reflexivity.
    + exact H.
Defined.

(** ** Listing and deletion *)

Lemma find_absent (t : string) (l : list deployment) :
  (forall d, In d l -> d_token d <> t) -> find (fun d => d_token d =? t) l = None.
Proof.
  induction l as [|a r IH]; intros H; [reflexivity|]. simpl.
  destruct (d_token a =? t) eqn:Ha.
  - apply String.eqb_eq in Ha. exfalso. apply (H a); [now left | exact Ha].
  - apply IH. intros d Hd. apply H. now right.
Qed.

Lemma findOne_string (E : env) (t : string) (st : state) :
  db_fault E FindOne = None ->
  findOne E (JStr t) st = (Ok (find (fun d => d_token d =? t) (store st)), st).
Proof. intros H. unfold findOne, faulty. now rewrite H. Qed.

(** A token that is not a string is matched as the database reads it. *)
Lemma findOne_other (E : env) (token : jsval) (st : state) :
  (forall s, token <> JStr s) ->
  db_fault E FindOne = None -> bad_query E token = None ->
  findOne E token st
  = (Ok (find (fun d => matches_query E token (d_token d)) (store st)), st).
Proof.
  intros Hn Hdb Hq. unfold findOne, faulty. rewrite Hdb.
  destruct token; try (exfalso; eapply Hn; reflexivity); simpl in *; now rewrite Hq.
Qed.

Lemma remove_first_distinct (n : string) (l : list deployment) (x : deployment) :
  distinct (map d_name l) = true ->
  (In x (remove_first (fun d => d_name d =? n) l) <-> In x l /\ d_name x <> n).
Proof.
  induction l as [|a r IH]; simpl; [tauto|].
  intros Hd. apply andb_prop in Hd. destruct Hd as [Ha Hr].
  destruct (d_name a =? n) eqn:Hn.
  - apply String.eqb_eq in Hn. subst n.
    assert (Hfresh : forall y, In y r -> d_name y <> d_name a).
    { intros y Hy Heq. apply Bool.negb_true_iff in Ha.
      apply Bool.not_true_iff_false in Ha. apply Ha.
      apply existsb_exists. exists (d_name y). split.
      - now apply in_map.
      - apply String.eqb_eq. now symmetry. }
    split.
    + intros Hx. split; [now right | now apply Hfresh].
    + intros [[<- | Hx] Hne]; [congruence | exact Hx].
  - apply String.eqb_neq in Hn. simpl. rewrite (IH Hr). split.
    + intros [<- | [Hx Hne]]; [split; [now left | exact Hn] | split; [now right | exact Hne]].
    + intros [[<- | Hx] Hne]; [now left | right; now split].
Qed.

Lemma remove_first_length (p : deployment -> bool) (l : list deployment) :
  existsb p l = true -> S (length (remove_first p l)) = length l.
Proof.
  induction l as [|a r IH]; simpl; [discriminate|].
  destruct (p a); simpl; [reflexivity|]. intros H. now rewrite IH.
Qed.

Lemma named_exists (n : string) (l : list deployment) (d : deployment) :
  In d l -> d_name d = n -> existsb (fun x => d_name x =? n) l = true.
Proof.
  intros Hin Hn. apply existsb_exists. exists d. split; [exact Hin|].
  now apply String.eqb_eq.
Qed.

(** C7 does not hold of the code: the handlers hand [req.query.token] to
    [findOne] without checking that it is a string.  A token that is not
    a string (the query string token[$ne]=x makes it the operator
    document [{ $ne: 'x' }]) is the token of no stored deployment, and
    yet, when the database selects a deployment for it and that
    deployment has the requested name, the deletion is carried out: the
    second snapshot answers 200 and removes a record, the first one
    sends the DELETE to Heroku as well. *)
Theorem C7_unowned_token_deletes (E : env) (appName : string) (token : jsval)
        (d : deployment) (st : state) :
  (forall s, token <> JStr s) -> truthy token = true ->
  db_fault E FindOne = None -> bad_query E token = None ->
  find (fun d => matches_query E token (d_token d)) (store st) = Some d ->
  d_name d = appName ->
  db_fault E DeleteOne = None ->
  let call := mkCall "DELETE" ("https://api.heroku.com/apps/" ++ appName) JUndefined
                     [("Authorization", "Bearer " ++ getRandomHerokuKey E);
                      ("Accept", "application/vnd.heroku+json; version=3")] in
  let removed := set_store (remove_first (fun x => d_name x =? appName)) in
  (forall x, In x (store st) -> JStr (d_token x) <> token)
  /\ V2.deleteBot E appName token st
     = (Ok (json 200 (MessageBody "App deleted successfully")), removed st)
  /\ (axios E call = None ->
      V1.deleteBot E appName token st
      = (Ok (json 200 (MessageBody "App deleted successfully")),
         removed (sending [call] st)))
  /\ sent (snd (V1.deleteBot E appName token st)) = (sent st ++ [call])%list
  /\ S (length (store (removed st))) = length (store st).
Proof.
  intros Hn Ht Hdb Hq Hf Hd Hdel. cbv zeta.
  split; [intros x _ Hx; exact (Hn _ (eq_sym Hx))|].
  unfold V1.deleteBot, V2.deleteBot, try_catch, bind. rewrite Ht. cbn [negb].
  rewrite (findOne_other E token st Hn Hdb Hq), Hf, Hd, String.eqb_refl. cbn [negb].
  unfold deleteOne, request, faulty, ret, console_error. rewrite Hdel.
  split; [reflexivity|]. split; [|split].
  - intros Ha.
    change (V1.deleteApp E appName)
      with (mkCall "DELETE" ("https://api.heroku.com/apps/" ++ appName) JUndefined
                   [("Authorization", "Bearer " ++ getRandomHerokuKey E);
                    ("Accept", "application/vnd.heroku+json; version=3")]).
    now rewrite Ha.
  - change (V1.deleteApp E appName)
      with (mkCall "DELETE" ("https://api.heroku.com/apps/" ++ appName) JUndefined
                   [("Authorization", "Bearer " ++ getRandomHerokuKey E);
                    ("Accept", "application/vnd.heroku+json; version=3")]).
    destruct (axios E _); reflexivity.
  - simpl. apply remove_first_length.
    apply (named_exists appName _ d); [|exact Hd]. now apply find_some in Hf.
Qed.

Lemma C7_unowned_token_deletes_witness :
  Sample.operators (JObj [("$ne", JStr "x")]) Sample.uuid_a = true
  /\ V2.deleteBot Sample.world "my-bot-" (JObj [("$ne", JStr "x")]) Sample.three
     = (Ok (json 200 (MessageBody "App deleted successfully")),
        mkState [Sample.bob1; Sample.alice2] V2.created_indexes [] [] 0 3)
  /\ V1.deleteBot Sample.world "my-bot-" (JObj [("$ne", JStr "x")]) Sample.three
     = (Ok (json 200 (MessageBody "App deleted successfully")),
        mkState [Sample.bob1; Sample.alice2] V2.created_indexes
                [mkCall "DELETE" "https://api.heroku.com/apps/my-bot-" JUndefined
                        [("Authorization", "Bearer HRKU-KEY");
                         ("Accept", "application/vnd.heroku+json; version=3")]]
                [] 0 3).
Proof.
  destruct (C7_unowned_token_deletes Sample.world "my-bot-" (JObj [("$ne", JStr "x")])
              Sample.alice1 Sample.three) as (_ & H2 & H1 & _).
  - intros s. discriminate.
  - reflexivity.
  - reflexivity.
  - reflexivity.
  - reflexivity.
  - reflexivity.
  - reflexivity.
  - split; [reflexivity|]. split; [exact H2|]. apply H1. reflexivity.
Defined.

(** C8, as stated, fails.  In the first snapshot an authorized deletion
    whose Heroku call is rejected (here with the 404 of an app that is
    already gone) is answered 500 and the record stays; in the second
    snapshot no request is sent to Heroku at all. *)
Lemma C8_remote_failure_counterexample :
  find (fun d => d_token d =? Sample.uuid_a) (store Sample.three) = Some Sample.alice1
  /\ d_name Sample.alice1 = "my-bot-"
  /\ fst (V1.deleteBot Sample.world_gone "my-bot-" (JStr Sample.uuid_a) Sample.three)
     = Ok (json 500 (ErrorBody "Internal server error"))
  /\ store (snd (V1.deleteBot Sample.world_gone "my-bot-" (JStr Sample.uuid_a)
                              Sample.three))
     = store Sample.three
  /\ sent (snd (V2.deleteBot Sample.world "my-bot-" (JStr Sample.uuid_a) Sample.three))
     = [].
Proof. repeat split. Qed.

(** C8 (amended): for an authorized deletion (the token is the token of
    a stored deployment that has the requested name), the first snapshot
    always sends DELETE https://api.heroku.com/apps/<appName> to Heroku;
    when that request resolves and [deleteOne] does not throw it removes
    the record and answers 200; when the request is rejected, an app
    already gone included, or [deleteOne] throws, it answers 500 and
    keeps the record.  The second snapshot sends nothing; it removes the
    record and answers 200 when [deleteOne] does not throw, and answers
    500 and keeps the record when it does.  With distinct names in the
    collection the record removed is the one with the requested name and
    the others stay. *)
Theorem C8_authorized_deletion (E : env) (appName t : string) (d : deployment)
        (st : state) :
  t <> "" -> db_fault E FindOne = None ->
  find (fun d => d_token d =? t) (store st) = Some d ->
  d_name d = appName ->
  let call := mkCall "DELETE" ("https://api.heroku.com/apps/" ++ appName) JUndefined
                     [("Authorization", "Bearer " ++ getRandomHerokuKey E);
                      ("Accept", "application/vnd.heroku+json; version=3")] in
  let removed := set_store (remove_first (fun x => d_name x =? appName)) in
  let failed e s :=
    (Ok (json 500 (ErrorBody "Internal server error")),
     logging [("Error deleting bot:", LogExn e)] s) in
  sent (snd (V1.deleteBot E appName (JStr t) st)) = (sent st ++ [call])%list
  /\ (axios E call = None -> db_fault E DeleteOne = None ->
      V1.deleteBot E appName (JStr t) st
      = (Ok (json 200 (MessageBody "App deleted successfully")),
         removed (sending [call] st)))
  /\ (forall e, axios E call = Some e ->
                V1.deleteBot E appName (JStr t) st = failed e (sending [call] st)
                /\ store (snd (V1.deleteBot E appName (JStr t) st)) = store st)
  /\ (forall e, axios E call = None -> db_fault E DeleteOne = Some e ->
                V1.deleteBot E appName (JStr t) st = failed e (sending [call] st)
                /\ store (snd (V1.deleteBot E appName (JStr t) st)) = store st)
  /\ (db_fault E DeleteOne = None ->
      V2.deleteBot E appName (JStr t) st
      = (Ok (json 200 (MessageBody "App deleted successfully")), removed st)
      /\ sent (removed st) = sent st)
  /\ (forall e, db_fault E DeleteOne = Some e ->
                V2.deleteBot E appName (JStr t) st = failed e st)
  /\ (distinct (map d_name (store st)) = true ->
      forall x, In x (store (removed st)) <-> In x (store st) /\ d_name x <> appName).
Proof.
  intros Ht Hdb Hf Hn. cbv zeta.
  unfold V1.deleteBot, V2.deleteBot, try_catch, bind.
  rewrite (truthy_JStr t Ht). cbn [negb].
  rewrite (findOne_string E t st Hdb), Hf, Hn, String.eqb_refl. cbn [negb].
  unfold deleteOne, request, faulty, ret, console_error.
  change (V1.deleteApp E appName)
    with (mkCall "DELETE" ("https://api.heroku.com/apps/" ++ appName) JUndefined
                 [("Authorization", "Bearer " ++ getRandomHerokuKey E);
                  ("Accept", "application/vnd.heroku+json; version=3")]).
  split; [|split; [|split; [|split; [|split; [|split]]]]].
  - destruct (axios E _); simpl; [reflexivity|].
    destruct (db_fault E DeleteOne); reflexivity.
  - intros Ha Hd. now rewrite Ha, Hd.
  - intros e Ha. rewrite Ha. now split.
  - intros e Ha Hd. rewrite Ha, Hd. now split.
  - intros Hd. rewrite Hd. now split.
  - intros e Hd. now rewrite Hd.
  - intros Hd x. now apply remove_first_distinct.
Qed.

Lemma C8_authorized_deletion_witness :
  V1.deleteBot Sample.world "my-bot-" (JStr Sample.uuid_a) Sample.three
  = (Ok (json 200 (MessageBody "App deleted successfully")),
     mkState [Sample.bob1; Sample.alice2] V2.created_indexes
             [mkCall "DELETE" "https://api.heroku.com/apps/my-bot-" JUndefined
                     [("Authorization", "Bearer HRKU-KEY");
                      ("Accept", "application/vnd.heroku+json; version=3")]]
             [] 0 3).
Proof.
  apply (C8_authorized_deletion Sample.world "my-bot-" Sample.uuid_a Sample.alice1
           Sample.three); try reflexivity; discriminate.
Defined.

(** C9 does not hold of the code: the handler hands [req.query.token] to
    [findOne] without checking that it is a string.  A token that is not
    a string (the query string token[$ne]=x makes it the operator
    document [{ $ne: 'x' }]) is the token of no stored deployment, and
    yet, when the database selects a deployment for it, the request is
    answered 200 with all the deployments of that deployment's owner
    instead of 404 "Invalid token". *)
Theorem C9_unowned_token_lists (E : env) (token : jsval) (d : deployment) (st : state) :
  (forall s, token <> JStr s) -> truthy token = true ->
  db_fault E FindOne = None -> bad_query E token = None ->
  db_fault E Find = None ->
  find (fun d => matches_query E token (d_token d)) (store st) = Some d ->
  (forall x, In x (store st) -> JStr (d_token x) <> token)
  /\ getBots E token st
     = (Ok (json 200 (BotsBody
              (map project (filter (fun x => d_username x =? d_username d) (store st))))),
        st)
  /\ In (project d)
        (map project (filter (fun x => d_username x =? d_username d) (store st)))
  /\ getBots E token st <> (Ok (json 404 (ErrorBody "Invalid token")), st).
Proof.
  intros Hn Ht Hdb Hq Hdb' Hf.
  assert (Hg : getBots E token st
               = (Ok (json 200 (BotsBody
                        (map project (filter (fun x => d_username x =? d_username d)
                                             (store st))))), st)).
  { unfold getBots, try_catch, bind. rewrite Ht. cbn [negb].
    rewrite (findOne_other E token st Hn Hdb Hq), Hf.
    unfold find_by_username, faulty, ret. now rewrite Hdb'. }
  split; [intros x _ Hx; exact (Hn _ (eq_sym Hx))|].
  split; [exact Hg|]. split.
  - apply in_map, filter_In. split; [now apply find_some in Hf|].
    apply String.eqb_refl.
  - rewrite Hg. discriminate.
Qed.

Lemma C9_unowned_token_lists_witness :
  getBots Sample.world (JObj [("$ne", JStr "x")]) Sample.three
  = (Ok (json 200 (BotsBody [mkBot "my-bot-" (JStr "khan") 1600000000000%Z;
                             mkBot "second" (JStr "jawad") 1600000000001%Z])),
     Sample.three).
Proof.
  destruct (C9_unowned_token_lists Sample.world (JObj [("$ne", JStr "x")])
              Sample.alice1 Sample.three) as (_ & H & _).
  - intros s. discriminate.
  - reflexivity.
  - reflexivity.
  - reflexivity.
  - reflexivity.
  - reflexivity.
  - exact H.
Defined.

(** ** The invariants of the collection *)

Lemma distinct_snoc (l : list string) (x : string) :
  distinct (l ++ [x]) = distinct l && negb (existsb (fun y => y =? x) l).
Proof.
  induction l as [|a r IH]; [reflexivity|].
  simpl. rewrite IH, existsb_app. simpl. rewrite orb_false_r, negb_orb.
  destruct (existsb (String.eqb a) r), (distinct r), (a =? x),
    (existsb (fun y => y =? x) r); reflexivity.
Qed.

Lemma existsb_keys (k : key) (v : string) (l : list deployment) :
  existsb (fun y => y =? v) (map (key_of k) l)
  = existsb (fun d => key_of k d =? v) l.
Proof. induction l as [|a r IH]; simpl; [reflexivity | now rewrite IH]. Qed.

Lemma distinct_remove (k : key) (p : deployment -> bool) (l : list deployment) :
  distinct (map (key_of k) l) = true ->
  distinct (map (key_of k) (remove_first p l)) = true.
Proof.
  assert (Hsub : forall v l, existsb (String.eqb v) (map (key_of k) (remove_first p l)) = true ->
                             existsb (String.eqb v) (map (key_of k) l) = true).
  { intros v. induction l0 as [|a r IH]; simpl; [tauto|].
    destruct (p a); simpl.
    - intros ->. apply orb_true_r.
    - destruct (v =? key_of k a); simpl; [reflexivity | exact IH]. }
  induction l as [|a r IH]; simpl; [reflexivity|].
  intros H. apply andb_prop in H. destruct H as [Ha Hr].
  destruct (p a); [exact Hr|]. simpl. rewrite (IH Hr), andb_true_r.
  apply Bool.negb_true_iff. apply Bool.negb_true_iff in Ha.
  apply Bool.not_true_iff_false. intros Hx. apply Hsub in Hx. congruence.
Qed.

Lemma lower_cased_remove (p : deployment -> bool) (l : list deployment) :
  lower_cased l -> lower_cased (remove_first p l).
Proof.
  unfold lower_cased. induction 1 as [|a r Ha Hr IH]; simpl; [constructor|].
  destruct (p a); [exact Hr | now constructor].
Qed.

Lemma coherent_inserted (d : deployment) (st st1 : state) :
  coherent st ->
  store st1 = store st -> indexes st1 = indexes st ->
  toLowerCase (d_username d) = d_username d ->
  violated (indexes st1) d (store st1) = None ->
  coherent (inserted d st1).
Proof.
  intros [Hl Hk] Hs Hi Hd Hv. unfold coherent, inserted. simpl.
  rewrite Hs, Hi in *. split.
  - apply Forall_app. split; [exact Hl | now constructor].
  - intros k Hin. rewrite map_app. simpl.
    rewrite distinct_snoc, (Hk k Hin), existsb_keys.
    now rewrite (violated_none _ _ _ k Hv Hin).
Qed.

Lemma coherent_same (st st' : state) :
  coherent st -> store st' = store st -> indexes st' = indexes st -> coherent st'.
Proof. unfold coherent. intros H -> ->. exact H. Qed.

(** What [POST /deploy] does to the collection: nothing, or one document
    more, lower-cased and accepted by the unique indexes. *)
Lemma V2_deploy_effect (E : env) (b : deploy_body) (st st' : state)
      (r : result response) :
  V2.deploy E b st = (r, st') ->
  indexes st' = indexes st
  /\ (store st' = store st
      \/ exists d, store st' = (store st ++ [d])%list
                   /\ toLowerCase (d_username d) = d_username d
                   /\ violated (indexes st) d (store st) = None).
Proof.
  unfold V2.deploy.
  destruct (truthy (username b)); simpl.
  2:{ intros H. injection H as _ <-. now split; [|left]. }
  destruct (truthy (session_id b)); simpl.
  2:{ intros H. injection H as _ <-. now split; [|left]. }
  unfold bind at 1.
  destruct (checkLimit E V2.proUrl (username b) st) as [[[rej|]|e] stq] eqn:Hc;
    pose proof (checkLimit_same_data _ _ _ _ _ _ Hc) as (Hs & Hi & _).
  - intros H. injection H as _ <-. now split; [|left].
  - unfold bind.
    destruct (generatedAppName E (appname b) (bot_type b) stq) as [[n|e] st1] eqn:Hg;
      pose proof (generatedAppName_store _ _ _ _ _ _ Hg) as (Hs1 & Hi1 & _).
    + unfold V2.persist, try_catch, bind, next_uuid, lift, insertOne, faulty, ret,
        console_error.
      destruct (call_toLowerCase (username b)) as [u|e] eqn:Hu; simpl.
      2:{ intros H. injection H as _ <-. simpl. split; [congruence | left; congruence]. }
      destruct (db_fault E InsertOne); simpl.
      { intros H. injection H as _ <-. simpl. split; [congruence | left; congruence]. }
      destruct (violated _ _ _) eqn:Hv; simpl.
      { intros H. injection H as _ <-. simpl. split; [congruence | left; congruence]. }
      intros H. injection H as _ <-. simpl. split; [congruence|]. right.
      eexists. split; [rewrite Hs1, Hs; reflexivity|]. simpl. split.
      * apply call_toLowerCase_ok in Hu. destruct Hu as (s & _ & ->).
        apply toLowerCase_idem.
      * rewrite <- Hi, <- Hi1, <- Hs, <- Hs1. exact Hv.
    + intros H. injection H as _ <-. split; [congruence | left; congruence].
  - intros H. injection H as _ <-. now split; [|left].
Qed.

Lemma V1_deploy_effect (E : env) (b : deploy_body) (st st' : state)
      (r : result response) :
  V1.deploy E b st = (r, st') ->
  indexes st' = indexes st
  /\ (store st' = store st
      \/ exists d, store st' = (store st ++ [d])%list
                   /\ toLowerCase (d_username d) = d_username d
                   /\ violated (indexes st) d (store st) = None).
Proof.
  unfold V1.deploy.
  destruct (truthy (username b)); simpl.
  2:{ intros H. injection H as _ <-. now split; [|left]. }
  destruct (truthy (session_id b)); simpl.
  2:{ intros H. injection H as _ <-. now split; [|left]. }
  unfold bind at 1.
  destruct (checkLimit E V1.proUrl (username b) st) as [[[rej|]|e] stq] eqn:Hc;
    pose proof (checkLimit_same_data _ _ _ _ _ _ Hc) as (Hs & Hi & _).
  - intros H. injection H as _ <-. now split; [|left].
  - unfold bind.
    destruct (generatedAppName E (appname b) (bot_type b) stq) as [[n|e] st1] eqn:Hg;
      pose proof (generatedAppName_store _ _ _ _ _ _ Hg) as (Hs1 & Hi1 & _).
    + unfold V1.provision, try_catch, bind, request, next_uuid, lift, insertOne,
        faulty, ret, console_error.
      destruct (axios E (V1.createApp E n)); simpl.
      { intros H. injection H as _ <-. simpl. split; [congruence | left; congruence]. }
      destruct (V1.configVars (config b)) as [vars|e]; simpl.
      2:{ intros H. injection H as _ <-. simpl. split; [congruence | left; congruence]. }
      destruct (axios E (V1.setConfigVars E n vars)); simpl.
      { intros H. injection H as _ <-. simpl. split; [congruence | left; congruence]. }
      destruct (repository (bot_type b)) as [source|e]; simpl.
      2:{ intros H. injection H as _ <-. simpl. split; [congruence | left; congruence]. }
      destruct (axios E (V1.triggerBuild E n source)); simpl.
      { intros H. injection H as _ <-. simpl. split; [congruence | left; congruence]. }
      destruct (call_toLowerCase (username b)) as [u|e] eqn:Hu; simpl.
      2:{ intros H. injection H as _ <-. simpl. split; [congruence | left; congruence]. }
      destruct (db_fault E InsertOne); simpl.
      { intros H. injection H as _ <-. simpl. split; [congruence | left; congruence]. }
      destruct (violated _ _ _) eqn:Hv; simpl.
      { intros H. injection H as _ <-. simpl. split; [congruence | left; congruence]. }
      intros H. injection H as _ <-. simpl. split; [congruence|]. right.
      eexists. split; [rewrite Hs1, Hs; reflexivity|]. simpl. split.
      * apply call_toLowerCase_ok in Hu. destruct Hu as (s & _ & ->).
        apply toLowerCase_idem.
      * rewrite <- Hi, <- Hi1, <- Hs, <- Hs1. exact Hv.
    + intros H. injection H as _ <-. split; [congruence | left; congruence].
  - intros H. injection H as _ <-. now split; [|left].
Qed.

Lemma coherent_append (d : deployment) (st st' : state) :
  coherent st ->
  indexes st' = indexes st -> store st' = (store st ++ [d])%list ->
  toLowerCase (d_username d) = d_username d ->
  violated (indexes st) d (store st) = None ->
  coherent st'.
Proof.
  intros Hc Hi Hs Hd Hv.
  pose proof (coherent_inserted d st st Hc eq_refl eq_refl Hd Hv) as [Hl Hk].
  unfold coherent. rewrite Hi, Hs. split; [exact Hl | exact Hk].
Qed.

(** Every deployment request leaves the collection coherent, in both
    snapshots. *)
Theorem deploy_coherent (E : env) (b : deploy_body) (st : state) :
  coherent st ->
  coherent (snd (V1.deploy E b st)) /\ coherent (snd (V2.deploy E b st)).
Proof.
  intros Hc. split.
  - destruct (V1.deploy E b st) as [r st'] eqn:H.
    apply V1_deploy_effect in H. destruct H as [Hi [Hs | (d & Hs & Hd & Hv)]].
    + now apply (coherent_same st).
    + now apply (coherent_append d st).
  - destruct (V2.deploy E b st) as [r st'] eqn:H.
    apply V2_deploy_effect in H. destruct H as [Hi [Hs | (d & Hs & Hd & Hv)]].
    + now apply (coherent_same st).
    + now apply (coherent_append d st).
Qed.

Lemma coherent_removed (p : deployment -> bool) (st st' : state) :
  coherent st ->
  indexes st' = indexes st -> store st' = remove_first p (store st) ->
  coherent st'.
Proof.
  intros [Hl Hk] Hi Hs. unfold coherent. rewrite Hi, Hs. split.
  - now apply lower_cased_remove.
  - intros k Hin. apply distinct_remove. now apply Hk.
Qed.

(** Every deletion request leaves the collection coherent, in both
    snapshots. *)
Theorem deleteBot_coherent (E : env) (appName : string) (token : jsval)
        (st : state) :
  coherent st ->
  coherent (snd (V1.deleteBot E appName token st))
  /\ coherent (snd (V2.deleteBot E appName token st)).
Proof.
  intros Hc.
  unfold V1.deleteBot, V2.deleteBot, try_catch, bind, findOne, deleteOne, request,
    faulty, ret, console_error.
  destruct (truthy token); simpl; [|now split].
  destruct (db_fault E FindOne); simpl; [now split|].
  destruct (refused E token); simpl; [now split|].
  destruct (find _ (store st)) as [d|]; simpl; [|now split].
  destruct (d_name d =? appName); simpl; [|now split].
  split.
  - destruct (axios E (V1.deleteApp E appName)); simpl; [exact Hc|].
    destruct (db_fault E DeleteOne); simpl; [exact Hc|].
    now apply (coherent_removed (fun d0 => d_name d0 =? appName) st).
  - destruct (db_fault E DeleteOne); simpl; [exact Hc|].
    now apply (coherent_removed (fun d0 => d_name d0 =? appName) st).
Qed.

Lemma createIndex_coherent (E : env) (k : key) (unique : bool) (st st' : state)
      (r : result unit) :
  createIndex E k unique st = (r, st') -> coherent st -> coherent st'.
Proof.
  unfold createIndex, faulty.
  destruct (db_fault E CreateIndex); [intros H; now injection H as _ <-|].
  destruct unique; simpl.
  - destruct (distinct (map (key_of k) (store st))) eqn:Hd; simpl;
      intros H; injection H as _ <-; [|tauto].
    intros [Hl Hk]. split; [exact Hl|]. simpl. intros k' Hin.
    apply in_app_or in Hin. destruct Hin as [Hin | [Heq | []]]; [now apply Hk|].
    injection Heq as <-. exact Hd.
  - intros H; injection H as _ <-. intros [Hl Hk]. split; [exact Hl|]. simpl.
    intros k' Hin. apply in_app_or in Hin.
    destruct Hin as [Hin | [Heq | []]]; [now apply Hk | discriminate].
Qed.

(** [connectToMongo] keeps the collection coherent; when it returns
    [true] the unique indexes on the token and on the name are in place,
    so tokens and names are distinct from then on. *)
Theorem connectToMongo_coherent (E : env) (st : state) :
  coherent st ->
  coherent (snd (V2.connectToMongo E st))
  /\ (fst (V2.connectToMongo E st) = Ok true ->
      In (mkIndex KToken true) (indexes (snd (V2.connectToMongo E st)))
      /\ In (mkIndex KName true) (indexes (snd (V2.connectToMongo E st)))).
Proof.
  intros Hc. split.
  - unfold V2.connectToMongo, try_catch, bind, ret, console_error.
    unfold faulty at 1. destruct (db_fault E Connect); simpl; [exact Hc|].
    destruct (createIndex E KUsername false st) as [[[]|e] s1] eqn:H1;
      apply createIndex_coherent in H1; try exact Hc; simpl; [|exact H1].
    destruct (createIndex E KToken true s1) as [[[]|e] s2] eqn:H2;
      apply createIndex_coherent in H2; try exact H1; simpl; [|exact H2].
    destruct (createIndex E KName true s2) as [[[]|e] s3] eqn:H3;
      apply createIndex_coherent in H3; try exact H2; simpl; exact H3.
  - destruct (V2.connectToMongo E st) as [r st'] eqn:H. simpl. intros ->.
    apply connectToMongo_indexes in H. destruct H as [_ ->].
    split; apply in_or_app; right; simpl; tauto.
Qed.

(** The counting route answers with the number of stored deployments
    of the owner, compared case-insensitively. *)
Theorem getDeployments_count (E : env) (owner : string) (st : state) :
  db_fault E CountDocuments = None -> lower_cased (store st) ->
  getDeployments E owner st = (Ok (json 200 (CountBody (Spec.prior owner (store st)))), st).
Proof.
  intros Hdb Hl. unfold getDeployments, try_catch, bind, countDocuments, faulty, ret.
  now rewrite Hdb, (count_prior owner _ Hl).
Qed.

(** * Further properties of the handlers *)

(** ** The generated name, again *)

Lemma lower_char_space (c : ascii) : is_space (lower_char c) = is_space c.
Proof. destruct c as [[] [] [] [] [] [] [] []]; reflexivity. Qed.

Lemma trimStart_lower (s : string) :
  trimStart (toLowerCase s) = toLowerCase (trimStart s).
Proof.
  unfold toLowerCase. induction s as [|c r IH]; simpl; [reflexivity|].
  rewrite lower_char_space. destruct (is_space c); [exact IH | reflexivity].
Qed.

Lemma rev_append_map (f : ascii -> ascii) (s acc : string) :
  rev_append (map_chars f s) (map_chars f acc) = map_chars f (rev_append s acc).
Proof.
  revert acc. induction s as [|c r IH]; intros acc; simpl; [reflexivity|].
  now rewrite <- IH.
Qed.

Lemma reverse_lower (s : string) : reverse (toLowerCase s) = toLowerCase (reverse s).
Proof. unfold reverse, toLowerCase. apply (rev_append_map lower_char s EmptyString). Qed.

Lemma trim_lower (s : string) : trim (toLowerCase s) = toLowerCase (trim s).
Proof.
  unfold trim, trimEnd.
  now rewrite trimStart_lower, reverse_lower, trimStart_lower, reverse_lower.
Qed.

Lemma toLowerCase_empty (s : string) : toLowerCase s = "" <-> s = "".
Proof. destruct s; simpl; split; intros H; try reflexivity; discriminate. Qed.

Lemma rev_append_rev (s acc : string) :
  rev_append (rev_append s acc) EmptyString = rev_append acc s.
Proof.
  revert acc. induction s as [|c r IH]; intros acc; simpl; [reflexivity|].
  now rewrite IH.
Qed.

Lemma reverse_reverse (s : string) : reverse (reverse s) = s.
Proof. unfold reverse. now rewrite rev_append_rev. Qed.

Lemma all_chars_rev_append (p : ascii -> bool) (s acc : string) :
  all_chars p (rev_append s acc) = all_chars p s && all_chars p acc.
Proof.
  revert acc. induction s as [|c r IH]; intros acc; simpl; [reflexivity|].
  rewrite IH. simpl. destruct (p c), (all_chars p r); reflexivity.
Qed.

Lemma class_not_space (c : ascii) : in_name_class c = true -> is_space c = false.
Proof.
  destruct c as [[] [] [] [] [] [] [] []]; vm_compute; intros H;
    first [reflexivity | discriminate H].
Qed.

Lemma class_lower (c : ascii) : in_name_class c = true -> lower_char c = c.
Proof.
  destruct c as [[] [] [] [] [] [] [] []]; vm_compute; intros H;
    first [reflexivity | discriminate H].
Qed.

Lemma trimStart_class (s : string) :
  all_chars in_name_class s = true -> trimStart s = s.
Proof.
  destruct s as [|c r]; simpl; [reflexivity|]. intros H.
  apply andb_prop in H. destruct H as [H _]. now rewrite (class_not_space c H).
Qed.

Lemma trim_class (s : string) : all_chars in_name_class s = true -> trim s = s.
Proof.
  intros H. unfold trim, trimEnd. rewrite (trimStart_class s H).
  rewrite trimStart_class; [apply reverse_reverse|].
  unfold reverse. now rewrite all_chars_rev_append, H.
Qed.

Lemma map_chars_fixed (f : ascii -> ascii) (p : ascii -> bool) (s : string) :
  (forall c, p c = true -> f c = c) -> all_chars p s = true -> map_chars f s = s.
Proof.
  intros Hf. induction s as [|c r IH]; simpl; [reflexivity|].
  intros H. apply andb_prop in H. destruct H as [Hc Hr]. now rewrite (Hf c Hc), IH.
Qed.

Lemma replace_class (s : string) :
  all_chars in_name_class (replace_outside_class s) = true.
Proof.
  unfold replace_outside_class. induction s as [|c r IH]; simpl; [reflexivity|].
  rewrite IH, andb_true_r. destruct (in_name_class c) eqn:Hc; [exact Hc | reflexivity].
Qed.

Lemma all_chars_In (p : ascii -> bool) (s : string) :
  all_chars p s = true <-> forall c, In c (list_ascii_of_string s) -> p c = true.
Proof.
  induction s as [|a r IH]; simpl.
  - split; [intros _ c [] | reflexivity].
  - rewrite andb_true_iff, IH. split.
    + intros [Ha Hr] c [<- | Hc]; [exact Ha | now apply Hr].
    + intros H. split; [apply H; now left | intros c Hc; apply H; now right].
Qed.

Lemma collapse_class (p : ascii -> bool) (s : string) :
  all_chars p s = true -> all_chars p (collapse_dashes s) = true.
Proof.
  rewrite !all_chars_In. intros H c Hc. apply H.
  rewrite collapse_dashes_spec in Hc. now apply collapse_in.
Qed.

Lemma collapse_fixed (l : list ascii) :
  Spec.no_double_dash l = true -> Spec.collapse l = l.
Proof.
  induction l as [|c r IH]; [reflexivity|].
  intros H. cbn [Spec.collapse fold_right].
  change (fold_right _ [] r) with (Spec.collapse r).
  destruct r as [|d t]; [reflexivity|].
  change (Spec.no_double_dash (c :: d :: t))
    with (negb (Spec.is_dash c && Spec.is_dash d) && Spec.no_double_dash (d :: t)) in H.
  apply andb_prop in H. destruct H as [Hcd Ht]. rewrite (IH Ht).
  apply Bool.negb_true_iff in Hcd. now rewrite Hcd.
Qed.

Lemma collapse_dashes_idem (s : string) :
  collapse_dashes (collapse_dashes s) = collapse_dashes s.
Proof.
  rewrite <- (string_of_list_ascii_of_string (collapse_dashes (collapse_dashes s))).
  rewrite <- (string_of_list_ascii_of_string (collapse_dashes s)) at 2.
  f_equal. rewrite !collapse_dashes_spec. apply collapse_fixed, collapse_no_double.
Qed.

Lemma collapse_nonempty (s : string) : s <> "" -> collapse_dashes s <> "".
Proof.
  destruct s as [|c r]; [tauto|]. intros _.
  pose proof (collapse_head (String c r)) as Hh. cbv beta iota in Hh.
  destruct (collapse_dashes (String c r)); [contradiction | discriminate].
Qed.

Lemma map_chars_nonempty (f : ascii -> ascii) (s : string) :
  s <> "" -> map_chars f s <> "".
Proof. destruct s; simpl; [tauto | discriminate]. Qed.

(** The name made from a requested name is a fixed point of the rule:
    asking for the name that was generated gives that name again; and it
    is never empty. *)
Theorem generated_name_stable (E : env) (s : string) (bot_type : jsval) (st : state) :
  trim s <> "" ->
  exists n,
    generatedAppName E (JStr s) bot_type st = (Ok n, st)
    /\ n <> ""
    /\ trim n = n
    /\ generatedAppName E (JStr n) bot_type st = (Ok n, st).
Proof.
  intros Hs.
  set (n := collapse_dashes (replace_outside_class (toLowerCase (trim s)))).
  assert (Hn : n <> "").
  { apply collapse_nonempty, map_chars_nonempty, map_chars_nonempty, Hs. }
  assert (Hc : all_chars in_name_class n = true)
    by apply collapse_class, replace_class.
  assert (Ht : trim n = n) by now apply trim_class.
  exists n. split; [|split; [exact Hn | split; [exact Ht|]]].
  - rewrite generatedAppName_named by exact Hs. now rewrite <- sanitize_spec.
  - rewrite generatedAppName_named by now rewrite Ht.
    rewrite <- sanitize_spec, Ht. f_equal. f_equal.
    unfold toLowerCase. rewrite (map_chars_fixed lower_char in_name_class n class_lower Hc).
    unfold replace_outside_class.
    rewrite (map_chars_fixed _ in_name_class n); [|intros c ->; reflexivity | exact Hc].
    apply collapse_dashes_idem.
Qed.

Lemma generated_name_stable_witness :
  exists n,
    generatedAppName Sample.world (JStr "  MY bot ") (JStr "khan") Sample.empty
    = (Ok n, Sample.empty)
    /\ n <> "" /\ trim n = n
    /\ generatedAppName Sample.world (JStr n) (JStr "khan") Sample.empty
       = (Ok n, Sample.empty).
Proof.
  apply (generated_name_stable Sample.world "  MY bot " (JStr "khan") Sample.empty).
  vm_compute. discriminate.
Defined.

(** The name does not depend on the case of the requested name: a
    request and its lower-cased form get the same name, drawn or made. *)
Theorem generated_name_ignores_case (E : env) (a : string) (bot_type : jsval)
        (st : state) :
  generatedAppName E (JStr (toLowerCase a)) bot_type st
  = generatedAppName E (JStr a) bot_type st.
Proof.
  unfold generatedAppName, bind, lift, ret, next_uuid. simpl.
  rewrite trim_lower.
  destruct (trim a =? "") eqn:Ht.
  - apply String.eqb_eq in Ht. rewrite Ht. reflexivity.
  - destruct (toLowerCase (trim a) =? "") eqn:Hl.
    + apply String.eqb_eq in Hl. apply (proj1 (toLowerCase_empty (trim a))) in Hl.
      apply String.eqb_neq in Ht. contradiction.
    + simpl. now rewrite toLowerCase_idem.
Qed.

Lemma drawn_name_nonempty (t u : string) : t ++ "md-" ++ u <> "".
Proof. destruct t; simpl; discriminate. Qed.

(** Whatever is asked for, a name that is generated is not empty. *)
Theorem generated_name_not_empty (E : env) (appname bot_type : jsval)
        (st st' : state) (n : string) :
  generatedAppName E appname bot_type st = (Ok n, st') -> n <> "".
Proof.
  unfold generatedAppName, bind, lift, ret, next_uuid.
  destruct appname; simpl; try discriminate.
  1,2: destruct (toString bot_type); simpl; [|discriminate];
       intros H; injection H as <- _; apply drawn_name_nonempty.
  destruct (trim s =? "") eqn:Ht; simpl.
  - destruct (toString bot_type); simpl; [|discriminate].
    intros H; injection H as <- _; apply drawn_name_nonempty.
  - intros H. injection H as <- _. apply String.eqb_neq in Ht.
    now apply collapse_nonempty, map_chars_nonempty, map_chars_nonempty.
Qed.

Lemma generated_name_not_empty_witness :
  generatedAppName Sample.world (JStr "!!!") JUndefined Sample.empty
  = (Ok "-", Sample.empty)
  /\ "-" <> "".
Proof.
  split; [reflexivity|].
  apply (generated_name_not_empty Sample.world (JStr "!!!") JUndefined
           Sample.empty Sample.empty "-").
  reflexivity.
Defined.

(** ** What a deployment does to the collection *)

(** The document a deployment of the second snapshot stores. *)
Lemma V2_deploy_outcome (E : env) (b : deploy_body) (st st' : state)
      (r : result response) :
  V2.deploy E b st = (r, st') ->
  indexes st' = indexes st
  /\ ((store st' = store st /\ forall resp, r = Ok resp -> status resp <> 200%Z)
      \/ exists d owner,
           r = Ok (json 200 (StartedNamedBody started (d_token d) (d_name d)))
           /\ store st' = (store st ++ [d])%list
           /\ violated (indexes st) d (store st) = None
           /\ username b = JStr owner
           /\ d_username d = toLowerCase owner
           /\ d_type d = bson (bot_type b) /\ d_createdAt d = now E
           /\ d_session_id d = Some (bson (session_id b))
           /\ d_config d = Some (bson (config b))).
Proof.
  unfold V2.deploy.
  destruct (truthy (username b)); simpl.
  2:{ intros H. injection H as <- <-. split; [reflexivity|]. left.
      split; [reflexivity|]. intros resp Hr. injection Hr as <-. discriminate. }
  destruct (truthy (session_id b)); simpl.
  2:{ intros H. injection H as <- <-. split; [reflexivity|]. left.
      split; [reflexivity|]. intros resp Hr. injection Hr as <-. discriminate. }
  unfold bind at 1.
  destruct (checkLimit E V2.proUrl (username b) st) as [[[rej|]|e] stq] eqn:Hc;
    pose proof (checkLimit_same_data _ _ _ _ _ _ Hc) as (Hs & Hi & _).
  - intros H. injection H as <- <-. split; [exact Hi|]. left. split; [exact Hs|].
    intros resp Hr. injection Hr as <-. apply checkLimit_rejection in Hc.
    destruct Hc as (n & l & ->). discriminate.
  - unfold bind.
    destruct (generatedAppName E (appname b) (bot_type b) stq) as [[n|e] st1] eqn:Hg;
      pose proof (generatedAppName_store _ _ _ _ _ _ Hg) as (Hs1 & Hi1 & _).
    2:{ intros H. injection H as <- <-. split; [congruence|]. left.
        split; [congruence | discriminate]. }
    unfold V2.persist, try_catch, bind, next_uuid, lift, insertOne, faulty, ret,
      console_error.
    destruct (call_toLowerCase (username b)) as [u|e] eqn:Hu; simpl.
    2:{ intros H. injection H as <- <-. simpl. split; [congruence|]. left.
        split; [congruence|]. intros resp Hr. injection Hr as <-. discriminate. }
    destruct (db_fault E InsertOne); simpl.
    { intros H. injection H as <- <-. simpl. split; [congruence|]. left.
      split; [congruence|]. intros resp Hr. injection Hr as <-. discriminate. }
    destruct (violated _ _ _) eqn:Hv; simpl.
    { intros H. injection H as <- <-. simpl. split; [congruence|]. left.
      split; [congruence|]. intros resp Hr. injection Hr as <-. discriminate. }
    intros H. injection H as <- <-. simpl. split; [congruence|]. right.
    apply call_toLowerCase_ok in Hu. destruct Hu as (owner & Hb & ->).
    exists (mkDeployment (ids st1) (toLowerCase owner) n (bson (bot_type b))
                         (uuidv4 E (uuids st1)) (now E) (Some (bson (session_id b)))
                         (Some (bson (config b)))).
    exists owner. split; [reflexivity|]. simpl.
    split; [now rewrite Hs1, Hs|]. split; [|now repeat split].
    rewrite <- Hi, <- Hi1, <- Hs, <- Hs1. exact Hv.
  - intros H. injection H as <- <-. split; [exact Hi|]. left. split; [exact Hs|].
    discriminate.
Qed.

Lemma V1_deploy_outcome (E : env) (b : deploy_body) (st st' : state)
      (r : result response) :
  V1.deploy E b st = (r, st') ->
  indexes st' = indexes st
  /\ ((store st' = store st /\ forall resp, r = Ok resp -> status resp <> 200%Z)
      \/ exists d owner,
           r = Ok (json 200 (StartedBody started (d_token d)))
           /\ store st' = (store st ++ [d])%list
           /\ violated (indexes st) d (store st) = None
           /\ username b = JStr owner
           /\ d_username d = toLowerCase owner
           /\ d_type d = bson (bot_type b) /\ d_createdAt d = now E).
Proof.
  unfold V1.deploy.
  destruct (truthy (username b)); simpl.
  2:{ intros H. injection H as <- <-. split; [reflexivity|]. left.
      split; [reflexivity|]. intros resp Hr. injection Hr as <-. discriminate. }
  destruct (truthy (session_id b)); simpl.
  2:{ intros H. injection H as <- <-. split; [reflexivity|]. left.
      split; [reflexivity|]. intros resp Hr. injection Hr as <-. discriminate. }
  unfold bind at 1.
  destruct (checkLimit E V1.proUrl (username b) st) as [[[rej|]|e] stq] eqn:Hc;
    pose proof (checkLimit_same_data _ _ _ _ _ _ Hc) as (Hs & Hi & _).
  - intros H. injection H as <- <-. split; [exact Hi|]. left. split; [exact Hs|].
    intros resp Hr. injection Hr as <-. apply checkLimit_rejection in Hc.
    destruct Hc as (n & l & ->). discriminate.
  - unfold bind.
    destruct (generatedAppName E (appname b) (bot_type b) stq) as [[n|e] st1] eqn:Hg;
      pose proof (generatedAppName_store _ _ _ _ _ _ Hg) as (Hs1 & Hi1 & _).
    2:{ intros H. injection H as <- <-. split; [congruence|]. left.
        split; [congruence | discriminate]. }
    unfold V1.provision, try_catch, bind, request, next_uuid, lift, insertOne,
      faulty, ret, console_error, V1.failure.
    destruct (axios E (V1.createApp E n)); simpl.
    { intros H. injection H as <- <-. simpl. split; [congruence|]. left.
      split; [congruence|]. intros resp Hr. injection Hr as <-. discriminate. }
    destruct (V1.configVars (config b)) as [vars|e]; simpl.
    2:{ intros H. injection H as <- <-. simpl. split; [congruence|]. left.
        split; [congruence|]. intros resp Hr. injection Hr as <-. discriminate. }
    destruct (axios E (V1.setConfigVars E n vars)); simpl.
    { intros H. injection H as <- <-. simpl. split; [congruence|]. left.
      split; [congruence|]. intros resp Hr. injection Hr as <-. discriminate. }
    destruct (repository (bot_type b)) as [source|e]; simpl.
    2:{ intros H. injection H as <- <-. simpl. split; [congruence|]. left.
        split; [congruence|]. intros resp Hr. injection Hr as <-. discriminate. }
    destruct (axios E (V1.triggerBuild E n source)); simpl.
    { intros H. injection H as <- <-. simpl. split; [congruence|]. left.
      split; [congruence|]. intros resp Hr. injection Hr as <-. discriminate. }
    destruct (call_toLowerCase (username b)) as [u|e] eqn:Hu; simpl.
    2:{ intros H. injection H as <- <-. simpl. split; [congruence|]. left.
        split; [congruence|]. intros resp Hr. injection Hr as <-. discriminate. }
    destruct (db_fault E InsertOne); simpl.
    { intros H. injection H as <- <-. simpl. split; [congruence|]. left.
      split; [congruence|]. intros resp Hr. injection Hr as <-. discriminate. }
    destruct (violated _ _ _) eqn:Hv; simpl.
    { intros H. injection H as <- <-. simpl. split; [congruence|]. left.
      split; [congruence|]. intros resp Hr. injection Hr as <-. discriminate. }
    intros H. injection H as <- <-. simpl. split; [congruence|]. right.
    apply call_toLowerCase_ok in Hu. destruct Hu as (owner & Hb & ->).
    exists (mkDeployment (ids st1) (toLowerCase owner) n (bson (bot_type b))
                         (uuidv4 E (uuids st1)) (now E) None None).
    exists owner. split; [reflexivity|]. simpl.
    split; [now rewrite Hs1, Hs|]. split; [|now repeat split].
    rewrite <- Hi, <- Hi1, <- Hs, <- Hs1. exact Hv.
  - intros H. injection H as <- <-. split; [exact Hi|]. left. split; [exact Hs|].
    discriminate.
Qed.

(** In both snapshots a deployment request changes the collection only
    when it is answered 200, and then by appending one document: every
    other outcome, an exception no [try] encloses included, leaves the
    stored deployments exactly as they were; the indexes never change. *)
Theorem deploy_writes_on_success_only (E : env) (b : deploy_body) (st st' : state)
        (r : result response) :
  V1.deploy E b st = (r, st') \/ V2.deploy E b st = (r, st') ->
  indexes st' = indexes st
  /\ ((store st' = store st /\ forall resp, r = Ok resp -> status resp <> 200%Z)
      \/ (exists resp d, r = Ok resp /\ status resp = 200%Z
                         /\ token_of (body resp) = Some (d_token d)
                         /\ store st' = (store st ++ [d])%list)).
Proof.
  intros [H | H].
  - apply V1_deploy_outcome in H. destruct H as [Hi [Hs | (d & o & -> & Hs & _)]].
    + split; [exact Hi | now left].
    + split; [exact Hi|]. right. eexists. exists d. now repeat split.
  - apply V2_deploy_outcome in H. destruct H as [Hi [Hs | (d & o & -> & Hs & _)]].
    + split; [exact Hi | now left].
    + split; [exact Hi|]. right. eexists. exists d. now repeat split.
Qed.

Lemma deploy_writes_on_success_only_witness :
  store (snd (V2.deploy Sample.world Sample.my_bot Sample.one)) = store Sample.one
  /\ forall resp, fst (V2.deploy Sample.world Sample.my_bot Sample.one) = Ok resp ->
                  status resp <> 200%Z.
Proof.
  destruct (deploy_writes_on_success_only Sample.world Sample.my_bot Sample.one
              (snd (V2.deploy Sample.world Sample.my_bot Sample.one))
              (fst (V2.deploy Sample.world Sample.my_bot Sample.one)))
    as [_ [H | (resp & d & Hr & Hst & _)]].
  - right. reflexivity.
  - exact H.
  - vm_compute in Hr. injection Hr as <-. discriminate Hst.
Defined.

(** ** Deploy, then list, count and delete *)

Lemma find_snoc_absent (t : string) (l : list deployment) (d : deployment) :
  existsb (fun x => d_token x =? t) l = false ->
  find (fun x => d_token x =? t) (l ++ [d])
  = if d_token d =? t then Some d else None.
Proof.
  induction l as [|a r IH]; simpl; [reflexivity|].
  destruct (d_token a =? t); simpl; [discriminate | exact IH].
Qed.

Lemma remove_first_snoc_absent (n : string) (l : list deployment) (d : deployment) :
  existsb (fun x => d_name x =? n) l = false -> d_name d = n ->
  remove_first (fun x => d_name x =? n) (l ++ [d]) = l.
Proof.
  intros Hx Hd. induction l as [|a r IH]; simpl in *.
  - now rewrite Hd, String.eqb_refl.
  - destruct (d_name a =? n); simpl in *; [discriminate|]. now rewrite IH.
Qed.

(** Second snapshot, unique token index in place: the token a deployment
    is answered with lists, right away, the bot just deployed, under the
    generated name, with the type as the driver stored it (the requested
    bot type, [null] when the request has none) and the time of the
    request. *)
Theorem deploy_then_list (E : env) (b : deploy_body) (st st' : state) (r : response) :
  V2.deploy E b st = (Ok r, st') -> status r = 200%Z ->
  In (mkIndex KToken true) (indexes st) ->
  db_fault E FindOne = None -> db_fault E Find = None ->
  exists t n,
    body r = StartedNamedBody started t n
    /\ (t <> "" ->
        exists bots,
          getBots E (JStr t) st' = (Ok (json 200 (BotsBody bots)), st')
          /\ In (mkBot n (bson (bot_type b)) (now E)) bots).
Proof.
  intros H H200 Hix Hf1 Hf2.
  apply V2_deploy_outcome in H.
  destruct H as [_ [[_ H] | (d & owner & Hr & Hs & Hv & _ & _ & Hty & Hat & _)]].
  { exfalso. now apply (H r). }
  injection Hr as ->. exists (d_token d), (d_name d). split; [reflexivity|].
  intros Ht. pose proof (violated_none _ _ _ KToken Hv Hix) as Hx. simpl in Hx.
  unfold getBots, try_catch, bind.
  rewrite (truthy_JStr _ Ht). cbn [negb]. rewrite (findOne_string E _ _ Hf1).
  unfold find_by_username, faulty, ret.
  rewrite Hs, (find_snoc_absent _ _ _ Hx), String.eqb_refl, Hf2.
  eexists. split; [reflexivity|].
  apply in_map_iff. exists d. split.
  - unfold project. now rewrite Hty, Hat.
  - apply filter_In. split; [|apply String.eqb_refl].
    cbv beta. rewrite ?Hs. apply in_or_app. right. now left.
Qed.

Lemma deploy_then_list_witness :
  exists bots,
    getBots Sample.world (JStr Sample.uuid_d)
            (snd (V2.deploy Sample.world Sample.unnamed Sample.one))
    = (Ok (json 200 (BotsBody bots)),
       snd (V2.deploy Sample.world Sample.unnamed Sample.one))
    /\ In (mkBot "khanmd-f47ac1" (JStr "khan") 1700000000000%Z) bots.
Proof.
  destruct (deploy_then_list Sample.world Sample.unnamed Sample.one
              (snd (V2.deploy Sample.world Sample.unnamed Sample.one))
              (json 200 (StartedNamedBody started Sample.uuid_d "khanmd-f47ac1")))
    as (t & n & Hb & H).
  - reflexivity.
  - reflexivity.
  - simpl. right. left. reflexivity.
  - reflexivity.
  - reflexivity.
  - simpl in Hb. injection Hb as <- <-. apply H. discriminate.
Defined.

(** Second snapshot, unique indexes on token and name in place: deleting
    the app just deployed, with the token and the name of the answer,
    succeeds and gives back the collection as it was before the
    deployment. *)
Theorem deploy_then_delete (E : env) (b : deploy_body) (st st' : state) (r : response) :
  V2.deploy E b st = (Ok r, st') -> status r = 200%Z ->
  In (mkIndex KToken true) (indexes st) ->
  In (mkIndex KName true) (indexes st) ->
  db_fault E FindOne = None -> db_fault E DeleteOne = None ->
  exists t n,
    body r = StartedNamedBody started t n
    /\ (t <> "" ->
        fst (V2.deleteBot E n (JStr t) st')
        = Ok (json 200 (MessageBody "App deleted successfully"))
        /\ store (snd (V2.deleteBot E n (JStr t) st')) = store st).
Proof.
  intros H H200 Hit Hin Hf1 Hf2.
  apply V2_deploy_outcome in H.
  destruct H as [_ [[_ H] | (d & owner & Hr & Hs & Hv & _)]].
  { exfalso. now apply (H r). }
  injection Hr as ->. exists (d_token d), (d_name d). split; [reflexivity|].
  intros Ht.
  pose proof (violated_none _ _ _ KToken Hv Hit) as Hxt.
  pose proof (violated_none _ _ _ KName Hv Hin) as Hxn. simpl in Hxt, Hxn.
  unfold V2.deleteBot, try_catch, bind.
  rewrite (truthy_JStr _ Ht). cbn [negb]. rewrite (findOne_string E _ _ Hf1).
  unfold deleteOne, faulty, ret.
  rewrite Hs, (find_snoc_absent _ _ _ Hxt), !String.eqb_refl. simpl.
  rewrite Hf2. simpl. split; [reflexivity|].
  rewrite Hs. now apply remove_first_snoc_absent.
Qed.

Lemma deploy_then_delete_witness :
  fst (V2.deleteBot Sample.world "khanmd-f47ac1" (JStr Sample.uuid_d)
                    (snd (V2.deploy Sample.world Sample.unnamed Sample.one)))
  = Ok (json 200 (MessageBody "App deleted successfully"))
  /\ store (snd (V2.deleteBot Sample.world "khanmd-f47ac1" (JStr Sample.uuid_d)
                              (snd (V2.deploy Sample.world Sample.unnamed Sample.one))))
     = store Sample.one.
Proof.
  destruct (deploy_then_delete Sample.world Sample.unnamed Sample.one
              (snd (V2.deploy Sample.world Sample.unnamed Sample.one))
              (json 200 (StartedNamedBody started Sample.uuid_d "khanmd-f47ac1")))
    as (t & n & Hb & H).
  - reflexivity.
  - reflexivity.
  - simpl. right. left. reflexivity.
  - simpl. right. right. left. reflexivity.
  - reflexivity.
  - reflexivity.
  - simpl in Hb. injection Hb as <- <-. apply H. discriminate.
Defined.

Lemma prior_snoc (o : string) (l : list deployment) (d : deployment) :
  Spec.prior o (l ++ [d])
  = Spec.prior o l + (if toLowerCase (d_username d) =? toLowerCase o then 1 else 0).
Proof.
  unfold Spec.prior. rewrite filter_app, length_app. simpl.
  destruct (toLowerCase (d_username d) =? toLowerCase o); reflexivity.
Qed.

(** In both snapshots, after a deployment answered 200 the counting
    route reports one more deployment for the owner, however the owner's
    name is cased in either request, and the same number as before for
    everybody else. *)
Theorem deploy_then_count (E : env) (b : deploy_body) (st st' : state) (r : response)
        (owner : string) :
  V1.deploy E b st = (Ok r, st') \/ V2.deploy E b st = (Ok r, st') ->
  status r = 200%Z ->
  username b = JStr owner ->
  lower_cased (store st) ->
  db_fault E CountDocuments = None ->
  forall who,
    getDeployments E who st'
    = (Ok (json 200 (CountBody
            (Spec.prior who (store st)
             + (if toLowerCase who =? toLowerCase owner then 1 else 0)))), st').
Proof.
  intros H H200 Hb Hl Hdb who.
  assert (Hd : exists d, store st' = (store st ++ [d])%list
                         /\ d_username d = toLowerCase owner).
  { destruct H as [H | H].
    - apply V1_deploy_outcome in H.
      destruct H as [_ [[_ H] | (d & o & _ & Hs & _ & Ho & Hu & _)]].
      + exfalso. now apply (H r).
      + exists d. split; [exact Hs|]. rewrite Hb in Ho. now injection Ho as ->.
    - apply V2_deploy_outcome in H.
      destruct H as [_ [[_ H] | (d & o & _ & Hs & _ & Ho & Hu & _)]].
      + exfalso. now apply (H r).
      + exists d. split; [exact Hs|]. rewrite Hb in Ho. now injection Ho as ->. }
  destruct Hd as (d & Hs & Hu).
  assert (Hl' : lower_cased (store st')).
  { rewrite Hs. apply Forall_app. split; [exact Hl|]. constructor; [|constructor].
    rewrite Hu. apply toLowerCase_idem. }
  rewrite (getDeployments_count E who st' Hdb Hl'). rewrite Hs, prior_snoc, Hu.
  rewrite toLowerCase_idem, String.eqb_sym. reflexivity.
Qed.

Lemma deploy_then_count_witness :
  getDeployments Sample.world "ALICE"
                 (snd (V2.deploy Sample.world Sample.unnamed Sample.one))
  = (Ok (json 200 (CountBody 2)),
     snd (V2.deploy Sample.world Sample.unnamed Sample.one)).
Proof.
  apply (deploy_then_count Sample.world Sample.unnamed Sample.one
           (snd (V2.deploy Sample.world Sample.unnamed Sample.one))
           (json 200 (StartedNamedBody started Sample.uuid_d "khanmd-f47ac1"))
           "Alice").
  - right. reflexivity.
  - reflexivity.
  - reflexivity.
  - repeat constructor.
  - reflexivity.
Defined.

(** In both snapshots, when the count query answers and the pro-users
    document is well formed, a deployment is answered 200 only if the
    count of the owner's deployments that the handler read was below the
    limit. *)
Theorem deploy_within_limit (E : env) (b : deploy_body) (st st' : state) (r : response)
        (owner : string) :
  username b = JStr owner ->
  db_fault E CountDocuments = None ->
  lower_cased (store st) ->
  (forall proUrl doc, fetched E proUrl = Some doc -> Spec.well_formed doc) ->
  status r = 200%Z ->
  (V1.deploy E b st = (Ok r, st') ->
   (Z.of_nat (Spec.prior owner (store st)) < Spec.limit (fetched E V1.proUrl) owner)%Z)
  /\ (V2.deploy E b st = (Ok r, st') ->
      (Z.of_nat (Spec.prior owner (store st)) < Spec.limit (fetched E V2.proUrl) owner)%Z).
Proof.
  intros Hb Hdb Hl Hwf H200.
  assert (Hstep : forall proUrl stq,
             checkLimit E proUrl (username b) st = (Ok None, stq) ->
             (Z.of_nat (Spec.prior owner (store st))
              < Spec.limit (fetched E proUrl) owner)%Z).
  { intros proUrl stq Hc. rewrite Hb in Hc.
    rewrite (checkLimit_counted E proUrl owner st Hdb Hl (Hwf proUrl)) in Hc.
    destruct (_ <? _)%Z eqn:Hlt; [|discriminate].
    now apply Z.ltb_lt in Hlt. }
  split; intros H.
  - destruct (V1_deploy_200 E b st st' r H H200) as (stq & st1 & n & Hc & _ & _).
    now apply (Hstep _ stq).
  - destruct (V2_deploy_200 E b st st' r H H200) as (stq & st1 & n & Hc & _ & _).
    now apply (Hstep _ stq).
Qed.

Lemma deploy_within_limit_witness :
  (Z.of_nat (Spec.prior "Alice" (store Sample.one)) < 2)%Z.
Proof.
  destruct (deploy_within_limit Sample.world Sample.unnamed Sample.one
              (snd (V2.deploy Sample.world Sample.unnamed Sample.one))
              (json 200 (StartedNamedBody started Sample.uuid_d "khanmd-f47ac1"))
              "Alice") as [_ H].
  - reflexivity.
  - reflexivity.
  - repeat constructor.
  - intros proUrl doc Hf. vm_compute in Hf. injection Hf as <-.
    repeat constructor; discriminate.
  - reflexivity.
  - apply H. reflexivity.
Defined.

(** ** What a deletion does to the collection *)

Lemma remove_first_keeps (p : deployment -> bool) (l : list deployment) (x : deployment) :
  In x l -> p x = false -> In x (remove_first p l).
Proof.
  induction l as [|a r IH]; simpl; [tauto|].
  intros [<- | Hx] Hp.
  - rewrite Hp. now left.
  - destruct (p a); [exact Hx | right; now apply IH].
Qed.

(** In both snapshots a deletion request changes the collection only
    when it is answered 200, and then exactly one document is gone, one
    whose name is the requested name, while every document with another
    name stays; any other outcome leaves the collection as it was.  The
    indexes never change. *)
Theorem deleteBot_removes_one (E : env) (appName : string) (token : jsval)
        (st st' : state) (r : result response) :
  V1.deleteBot E appName token st = (r, st')
  \/ V2.deleteBot E appName token st = (r, st') ->
  indexes st' = indexes st
  /\ ((store st' = store st
       /\ r <> Ok (json 200 (MessageBody "App deleted successfully")))
      \/ (r = Ok (json 200 (MessageBody "App deleted successfully"))
          /\ S (length (store st')) = length (store st)
          /\ (forall x, In x (store st) -> d_name x <> appName -> In x (store st'))
          /\ (forall x, In x (store st') -> In x (store st)))).
Proof.
  assert (Hin : forall l x, In x (remove_first (fun d => d_name d =? appName) l) -> In x l).
  { induction l as [|a t IH]; simpl; [tauto|].
    intros x. destruct (d_name a =? appName); [now right|].
    intros [<- | Hx]; [now left | right; now apply IH]. }
  unfold V1.deleteBot, V2.deleteBot, try_catch, bind, findOne, deleteOne, request,
    faulty, ret, console_error.
  destruct (truthy token); simpl.
  2:{ intros [H | H]; injection H as <- <-; (split; [reflexivity|]); left;
      (split; [reflexivity | discriminate]). }
  destruct (db_fault E FindOne); simpl.
  { intros [H | H]; injection H as <- <-; (split; [reflexivity|]); left;
      (split; [reflexivity | discriminate]). }
  destruct (refused E token); simpl.
  { intros [H | H]; injection H as <- <-; (split; [reflexivity|]); left;
      (split; [reflexivity | discriminate]). }
  destruct (find _ (store st)) as [d|] eqn:Hf; simpl.
  2:{ intros [H | H]; injection H as <- <-; (split; [reflexivity|]); left;
      (split; [reflexivity | discriminate]). }
  destruct (d_name d =? appName) eqn:Hn; simpl.
  2:{ intros [H | H]; injection H as <- <-; (split; [reflexivity|]); left;
      (split; [reflexivity | discriminate]). }
  assert (Hex : existsb (fun x => d_name x =? appName) (store st) = true).
  { apply existsb_exists. exists d. split; [|exact Hn]. now apply find_some in Hf. }
  assert (Hgone : forall s,
             store s = remove_first (fun x => d_name x =? appName) (store st) ->
             S (length (store s)) = length (store st)
             /\ (forall x, In x (store st) -> d_name x <> appName -> In x (store s))
             /\ (forall x, In x (store s) -> In x (store st))).
  { intros s ->. split; [now apply remove_first_length|]. split.
    - intros x Hx Hne. apply remove_first_keeps; [exact Hx|]. now apply String.eqb_neq.
    - intros x. apply Hin. }
  intros [H | H].
  - destruct (axios E (V1.deleteApp E appName)); simpl in H.
    { injection H as <- <-. split; [reflexivity|]. left. split; [reflexivity | discriminate]. }
    destruct (db_fault E DeleteOne); simpl in H.
    { injection H as <- <-. split; [reflexivity|]. left. split; [reflexivity | discriminate]. }
    injection H as <- <-. split; [reflexivity|]. right. split; [reflexivity|].
    now apply Hgone.
  - destruct (db_fault E DeleteOne); simpl in H.
    { injection H as <- <-. split; [reflexivity|]. left. split; [reflexivity | discriminate]. }
    injection H as <- <-. split; [reflexivity|]. right. split; [reflexivity|].
    now apply Hgone.
Qed.

Lemma deleteBot_removes_one_witness :
  length (store (snd (V1.deleteBot Sample.world "my-bot-" (JStr Sample.uuid_a)
                                   Sample.three))) = 2
  /\ store (snd (V1.deleteBot Sample.world_gone "my-bot-" (JStr Sample.uuid_a)
                              Sample.three)) = store Sample.three.
Proof.
  split.
  - destruct (deleteBot_removes_one Sample.world "my-bot-" (JStr Sample.uuid_a)
                Sample.three
                (snd (V1.deleteBot Sample.world "my-bot-" (JStr Sample.uuid_a) Sample.three))
                (fst (V1.deleteBot Sample.world "my-bot-" (JStr Sample.uuid_a) Sample.three)))
      as [_ [[_ H] | (_ & H & _)]].
    + left. reflexivity.
    + exfalso. apply H. reflexivity.
    + apply eq_add_S. exact H.
  - destruct (deleteBot_removes_one Sample.world_gone "my-bot-" (JStr Sample.uuid_a)
                Sample.three
                (snd (V1.deleteBot Sample.world_gone "my-bot-" (JStr Sample.uuid_a)
                                   Sample.three))
                (fst (V1.deleteBot Sample.world_gone "my-bot-" (JStr Sample.uuid_a)
                                   Sample.three)))
      as [_ [[H _] | (H & _)]].
    + left. reflexivity.
    + exact H.
    + vm_compute in H. discriminate H.
Defined.

Lemma token_gone (t n : string) (l : list deployment) (d : deployment) :
  distinct (map d_token l) = true -> distinct (map d_name l) = true ->
  find (fun x => d_token x =? t) l = Some d -> d_name d = n ->
  forall x, In x (remove_first (fun y => d_name y =? n) l) -> d_token x <> t.
Proof.
  induction l as [|a r IH]; simpl; [discriminate|].
  intros Ht Hn Hf Hd. apply andb_prop in Ht, Hn.
  destruct Ht as [Hta Htr]. destruct Hn as [Hna Hnr].
  apply Bool.negb_true_iff in Hta, Hna.
  destruct (d_name a =? n) eqn:Han.
  - apply String.eqb_eq in Han. intros x Hx Hxt.
    destruct (d_token a =? t) eqn:Hat.
    + apply String.eqb_eq in Hat. apply Bool.not_true_iff_false in Hta. apply Hta.
      apply existsb_exists. exists (d_token x). split; [now apply in_map|].
      apply String.eqb_eq. congruence.
    + apply find_some in Hf. destruct Hf as [Hdr _].
      apply Bool.not_true_iff_false in Hna. apply Hna.
      apply existsb_exists. exists (d_name d). split; [now apply in_map|].
      apply String.eqb_eq. congruence.
  - destruct (d_token a =? t) eqn:Hat.
    + injection Hf as <-. apply String.eqb_neq in Han. contradiction.
    + intros x [<- | Hx]; [now apply String.eqb_neq|]. now apply (IH Htr Hnr Hf Hd).
Qed.

(** Second snapshot, collection coherent under the unique indexes on
    token and name, the token of the request a string: once a deletion
    has been answered 200, the token it was made with is dead: listing
    with it and deleting with it again are both answered 404 "Invalid
    token". *)
Theorem delete_then_token_dead (E : env) (appName t : string) (st st' : state) :
  coherent st ->
  In (mkIndex KToken true) (indexes st) -> In (mkIndex KName true) (indexes st) ->
  V2.deleteBot E appName (JStr t) st
  = (Ok (json 200 (MessageBody "App deleted successfully")), st') ->
  getBots E (JStr t) st' = (Ok (json 404 (ErrorBody "Invalid token")), st')
  /\ V2.deleteBot E appName (JStr t) st'
     = (Ok (json 404 (ErrorBody "Invalid token")), st').
Proof.
  intros [_ Hk] Hit Hin.
  pose proof (Hk KToken Hit) as Hdt. pose proof (Hk KName Hin) as Hdn. simpl in Hdt, Hdn.
  unfold V2.deleteBot, getBots, try_catch, bind, findOne, deleteOne, faulty, ret,
    console_error.
  destruct (truthy (JStr t)) eqn:Ht; simpl; [|discriminate].
  destruct (db_fault E FindOne); simpl; [discriminate|].
  destruct (find _ (store st)) as [d|] eqn:Hf; simpl; [|discriminate].
  destruct (d_name d =? appName) eqn:Hn; simpl; [|discriminate].
  destruct (db_fault E DeleteOne); simpl; [discriminate|].
  intros H. injection H as <-. simpl.
  apply String.eqb_eq in Hn.
  rewrite (find_absent t _ (token_gone t appName _ d Hdt Hdn Hf Hn)).
  now split.
Qed.

Lemma delete_then_token_dead_witness :
  getBots Sample.world (JStr Sample.uuid_a)
          (snd (V2.deleteBot Sample.world "my-bot-" (JStr Sample.uuid_a) Sample.three))
  = (Ok (json 404 (ErrorBody "Invalid token")),
     snd (V2.deleteBot Sample.world "my-bot-" (JStr Sample.uuid_a) Sample.three)).
Proof.
  apply (delete_then_token_dead Sample.world "my-bot-" Sample.uuid_a Sample.three).
  - split; [repeat constructor|]. intros k [Hk | [Hk | [Hk | []]]];
      try discriminate Hk; injection Hk as <-; reflexivity.
  - simpl. right. left. reflexivity.
  - simpl. right. right. left. reflexivity.
  - reflexivity.
Defined.

(** The listing depends on the owner only: the tokens of two deployments
    of one owner get the same answer, though each of them deletes its own
    app only. *)
Theorem listing_same_for_owner (E : env) (t1 t2 : string) (d1 d2 : deployment)
        (st : state) :
  t1 <> "" -> t2 <> "" ->
  db_fault E FindOne = None ->
  find (fun d => d_token d =? t1) (store st) = Some d1 ->
  find (fun d => d_token d =? t2) (store st) = Some d2 ->
  d_username d1 = d_username d2 ->
  getBots E (JStr t1) st = getBots E (JStr t2) st
  /\ (d_name d1 <> d_name d2 ->
      V2.deleteBot E (d_name d1) (JStr t2) st
      = (Ok (json 403 (ErrorBody "Not authorized to delete this app")), st)).
Proof.
  intros H1 H2 Hdb Hf1 Hf2 Hu.
  unfold getBots, V2.deleteBot, try_catch, bind, findOne, find_by_username, faulty, ret.
  rewrite (truthy_JStr t1 H1), (truthy_JStr t2 H2), Hdb. simpl. rewrite Hf1, Hf2, Hu.
  split; [reflexivity|]. intros Hn.
  destruct (d_name d2 =? d_name d1) eqn:He; [|reflexivity].
  apply String.eqb_eq in He. congruence.
Qed.

Lemma listing_same_for_owner_witness :
  getBots Sample.world (JStr Sample.uuid_a) Sample.three
  = getBots Sample.world (JStr Sample.uuid_b) Sample.three
  /\ V2.deleteBot Sample.world "my-bot-" (JStr Sample.uuid_b) Sample.three
     = (Ok (json 403 (ErrorBody "Not authorized to delete this app")), Sample.three).
Proof.
  destruct (listing_same_for_owner Sample.world Sample.uuid_a Sample.uuid_b
              Sample.alice1 Sample.alice2 Sample.three) as [H1 H2].
  - discriminate.
  - discriminate.
  - reflexivity.
  - reflexivity.
  - reflexivity.
  - reflexivity.
  - split; [exact H1|]. apply H2. discriminate.
Defined.

(** ** Bodies that are not what the handler expects *)

Lemma checkLimit_answers (E : env) (proUrl : string) (u : jsval) (st st1 : state)
      (r : result (option response)) :
  checkLimit E proUrl u st = (r, st1) ->
  (exists o, r = Ok o)
  /\ (sent st1 = sent st
      \/ sent st1 = (sent st ++ [mkCall "GET" proUrl JUndefined []])%list).
Proof.
  unfold checkLimit, try_catch, bind, lift, countDocuments, faulty, ret, console_error.
  destruct (call_toLowerCase u) as [l|e]; simpl.
  2:{ intros H. injection H as <- <-. split; [now eexists | now left]. }
  destruct (db_fault E CountDocuments); simpl.
  { intros H. injection H as <- <-. split; [now eexists | now left]. }
  pose proof (userLimit_state E proUrl l st) as Hs. cbv zeta in Hs.
  destruct Hs as (_ & _ & _ & _ & Hs).
  destruct (userLimit E proUrl l st) as [[lim|e] s1]; simpl in *.
  - destruct (_ >=? _)%Z; intros H; injection H as <- <-;
      (split; [now eexists | now right]).
  - intros H. injection H as <- <-. split; [now eexists | now right].
Qed.

(** A requested name that is neither absent nor a string (a number, a
    boolean, an array, an object) makes [appname?.trim()] throw outside
    every [try]: unless the limit check has already answered 400, the
    request gets no response at all; nothing is stored and nothing is
    sent to Heroku.  In both snapshots. *)
Theorem appname_not_a_string (E : env) (b : deploy_body) (st st' : state)
        (r : result response) :
  truthy (username b) = true -> truthy (session_id b) = true ->
  appname b <> JUndefined -> appname b <> JNull ->
  (forall s, appname b <> JStr s) ->
  V1.deploy E b st = (r, st') \/ V2.deploy E b st = (r, st') ->
  store st' = store st
  /\ (forall c, In c (sent st') -> In c (sent st) \/ method c = "GET")
  /\ ((exists e, r = Throw e)
      \/ (exists n l, r = Ok (json 400 (ErrorBody (limit_message n l))))).
Proof.
  intros Hu Hs Ha1 Ha2 Ha3 H.
  assert (Hg : forall s, exists e,
               generatedAppName E (appname b) (bot_type b) s = (Throw e, s)).
  { intros s. unfold generatedAppName, bind, lift.
    destruct (appname b) eqn:Ha; simpl;
      first [congruence | exfalso; eapply Ha3; reflexivity | now eexists]. }
  assert (Hmain : forall proUrl (k : string -> M response),
             after_check (checkLimit E proUrl (username b) st)
               (name <- generatedAppName E (appname b) (bot_type b) ;; k name)
             = (r, st') ->
             store st' = store st
             /\ (forall c, In c (sent st') -> In c (sent st) \/ method c = "GET")
             /\ ((exists e, r = Throw e)
                 \/ (exists n l, r = Ok (json 400 (ErrorBody (limit_message n l)))))).
  { intros proUrl k. unfold after_check.
    destruct (checkLimit E proUrl (username b) st) as [ro stq] eqn:Hc.
    destruct (checkLimit_same_data _ _ _ _ _ _ Hc) as (Hst & _).
    destruct (checkLimit_answers _ _ _ _ _ _ Hc) as [[o ->] Hsent].
    assert (Hq : forall c, In c (sent stq) -> In c (sent st) \/ method c = "GET").
    { intros c Hin. destruct Hsent as [Hq | Hq]; rewrite Hq in Hin; [now left|].
      apply in_app_or in Hin. destruct Hin as [Hin | [<- | []]]; [now left | now right]. }
    destruct o as [rej|].
    - intros Hr. injection Hr as <- <-. split; [exact Hst|]. split; [exact Hq|].
      right. apply checkLimit_rejection in Hc. destruct Hc as (n & l & ->).
      now exists n, l.
    - unfold bind. destruct (Hg stq) as [e He]. rewrite He.
      intros Hr. injection Hr as <- <-. split; [exact Hst|]. split; [exact Hq|].
      left. now exists e. }
  destruct H as [H | H].
  - rewrite V1_deploy_checked in H by assumption.
    exact (Hmain V1.proUrl (V1.provision E b) H).
  - rewrite V2_deploy_checked in H by assumption.
    exact (Hmain V2.proUrl (V2.persist E b) H).
Qed.

Lemma appname_not_a_string_witness :
  exists e, fst (V1.deploy Sample.world Scenario.numeric_name Sample.one) = Throw e.
Proof.
  destruct (appname_not_a_string Sample.world Scenario.numeric_name Sample.one
              (snd (V1.deploy Sample.world Scenario.numeric_name Sample.one))
              (fst (V1.deploy Sample.world Scenario.numeric_name Sample.one)))
    as (_ & _ & [H | (n & l & H)]).
  - reflexivity.
  - reflexivity.
  - discriminate.
  - discriminate.
  - discriminate.
  - left. reflexivity.
  - exact H.
  - vm_compute in H. discriminate H.
Defined.

(** An owner that is truthy but not a string (a number, [true], an
    array, an object) makes [username.toLowerCase()] throw inside the
    first [try]: the limit check is skipped without counting or fetching
    anything.  The request is then never answered 200 and stores
    nothing; but the first snapshot, when Heroku and the configuration
    are fine, has sent its three requests before the insertion throws in
    turn. *)
Theorem username_not_a_string (E : env) (b : deploy_body) (st : state) :
  truthy (username b) = true -> truthy (session_id b) = true ->
  (forall s, username b <> JStr s) ->
  exists e,
    (forall proUrl,
        checkLimit E proUrl (username b) st
        = (Ok None, logging [("Error checking deployment limit:", LogExn e)] st))
    /\ (forall r st',
           V1.deploy E b st = (r, st') \/ V2.deploy E b st = (r, st') ->
           store st' = store st
           /\ forall resp, r = Ok resp -> status resp = 500%Z)
    /\ (forall name st1 vars source,
           generatedAppName E (appname b) (bot_type b)
             (logging [("Error checking deployment limit:", LogExn e)] st)
           = (Ok name, st1) ->
           V1.configVars (config b) = Ok vars ->
           repository (bot_type b) = Ok source ->
           axios E (V1.createApp E name) = None ->
           axios E (V1.setConfigVars E name vars) = None ->
           axios E (V1.triggerBuild E name source) = None ->
           fst (V1.deploy E b st) = Ok (V1.failure e)
           /\ sent (snd (V1.deploy E b st))
              = (sent st ++ [V1.createApp E name; V1.setConfigVars E name vars;
                             V1.triggerBuild E name source])%list).
Proof.
  intros Hu Hs Hn.
  assert (He : exists e, call_toLowerCase (username b) = Throw e).
  { destruct (username b) eqn:Hb; simpl;
      first [now eexists | exfalso; eapply Hn; reflexivity]. }
  destruct He as [e He]. exists e.
  assert (Hc : forall proUrl,
             checkLimit E proUrl (username b) st
             = (Ok None, logging [("Error checking deployment limit:", LogExn e)] st)).
  { intros proUrl. unfold checkLimit, try_catch, bind, lift. now rewrite He. }
  split; [exact Hc|]. split.
  - intros r st' H. split.
    + destruct H as [H | H].
      * apply V1_deploy_outcome in H.
        destruct H as [_ [[H _] | (d & o & _ & _ & _ & Ho & _)]]; [exact H|].
        exfalso. now apply (Hn o).
      * apply V2_deploy_outcome in H.
        destruct H as [_ [[H _] | (d & o & _ & _ & _ & Ho & _)]]; [exact H|].
        exfalso. now apply (Hn o).
    + intros resp ->. destruct H as [H | H].
      * rewrite V1_deploy_checked, Hc in H by assumption. unfold after_check in H.
        apply bind_ok_inv in H. destruct H as (n & s & _ & H).
        pose proof H as H'. apply V1_provision_status in H'.
        destruct H' as (r' & Hr & [H2 | H5]); injection Hr as <-; [|exact H5].
        apply V1_provision_200 in H; [|exact H2].
        destruct H as (o & _ & Ho & _). exfalso. now apply (Hn o).
      * rewrite V2_deploy_checked, Hc in H by assumption. unfold after_check in H.
        apply bind_ok_inv in H. destruct H as (n & s & _ & H).
        pose proof H as H'. apply V2_persist_status in H'.
        destruct H' as (r' & Hr & [H2 | H5]); injection Hr as <-; [|exact H5].
        apply V2_persist_200 in H; [|exact H2].
        destruct H as (o & Ho & _). exfalso. now apply (Hn o).
  - intros name st1 vars source Hg Hcfg Hr H1 H2 H3.
    rewrite V1_deploy_checked, Hc by assumption. unfold after_check, bind.
    rewrite Hg.
    destruct (generatedAppName_store _ _ _ _ _ _ Hg) as (_ & _ & _ & Hsent & _).
    unfold V1.provision, try_catch, bind, request, lift, console_error, ret,
      next_uuid.
    rewrite H1, Hcfg, H2, Hr, H3, He. simpl. split; [reflexivity|].
    rewrite Hsent. simpl. now rewrite <- !app_assoc.
Qed.

Lemma username_not_a_string_witness :
  map method (sent (snd (V1.deploy Sample.world Scenario.numeric_owner Sample.one)))
  = ["POST"; "PATCH"; "POST"]
  /\ store (snd (V1.deploy Sample.world Scenario.numeric_owner Sample.one))
     = store Sample.one.
Proof.
  destruct (username_not_a_string Sample.world Scenario.numeric_owner Sample.one)
    as (e & Hc & Hst & Hsent).
  - reflexivity.
  - reflexivity.
  - discriminate.
  - split.
    + assert (He : e = TypeError "username.toLowerCase is not a function").
      { specialize (Hc V1.proUrl). vm_compute in Hc. now injection Hc. }
      subst e.
      destruct (Hsent "five"
                  (logging [("Error checking deployment limit:",
                             LogExn (TypeError "username.toLowerCase is not a function"))]
                           Sample.one)
                  [("SESSION_ID", JStr "abc"); ("PREFIX", JStr ".")]
                  (Own "https://github.com/JawadTechXD/KHAN-MD/tarball/main"))
        as [_ H].
      * reflexivity.
      * reflexivity.
      * reflexivity.
      * reflexivity.
      * reflexivity.
      * reflexivity.
      * rewrite H. reflexivity.
    + apply (Hst (fst (V1.deploy Sample.world Scenario.numeric_owner Sample.one))).
      left. reflexivity.
Defined.

(** First snapshot, store out of reach (every query throws, as when [db]
    is still undefined): the limit check is skipped, the app is created,
    configured and built on Heroku all the same, and only then is the
    request answered 500; nothing is stored, and the pro-users document
    is not even fetched. *)
Theorem V1_store_down_orphan (E : env) (b : deploy_body) (st st1 : state)
        (owner name : string) (e1 e2 : exn) (vars : list (string * jsval))
        (source : property) :
  username b = JStr owner -> owner <> "" -> truthy (session_id b) = true ->
  db_fault E CountDocuments = Some e1 -> db_fault E InsertOne = Some e2 ->
  generatedAppName E (appname b) (bot_type b)
    (logging [("Error checking deployment limit:", LogExn e1)] st) = (Ok name, st1) ->
  V1.configVars (config b) = Ok vars ->
  repository (bot_type b) = Ok source ->
  axios E (V1.createApp E name) = None ->
  axios E (V1.setConfigVars E name vars) = None ->
  axios E (V1.triggerBuild E name source) = None ->
  fst (V1.deploy E b st) = Ok (V1.failure e2)
  /\ sent (snd (V1.deploy E b st))
     = (sent st ++ [V1.createApp E name; V1.setConfigVars E name vars;
                    V1.triggerBuild E name source])%list
  /\ store (snd (V1.deploy E b st)) = store st.
Proof.
  intros Hb Ho Hs Hc Hi Hg Hcfg Hr H1 H2 H3.
  pose proof (truthy_JStr owner Ho) as Ht.
  destruct (generatedAppName_store _ _ _ _ _ _ Hg) as (Hst & _ & _ & Hsent & _).
  assert (Hd : V1.deploy E b st
               = (Ok (V1.failure e2),
                  logging [("Deployment error:", LogVal (V1.details e2))]
                    (after_uuid
                       (sending [V1.triggerBuild E name source]
                          (sending [V1.setConfigVars E name vars]
                             (sending [V1.createApp E name] st1)))))).
  { rewrite V1_deploy_checked by (rewrite ?Hb; assumption).
    assert (Hk : checkLimit E V1.proUrl (username b) st
                 = (Ok None, logging [("Error checking deployment limit:", LogExn e1)] st)).
    { unfold checkLimit, try_catch, bind, lift, countDocuments, faulty.
      rewrite Hb. simpl. now rewrite Hc. }
    rewrite Hk. unfold after_check, bind at 1. rewrite Hg.
    unfold V1.provision, try_catch, bind, request, lift, console_error, ret,
      next_uuid, insertOne, faulty.
    rewrite H1, Hcfg, H2, Hr, H3, Hb. simpl. now rewrite Hi. }
  rewrite Hd. simpl. split; [reflexivity|]. split.
  - rewrite Hsent. simpl. now rewrite <- !app_assoc.
  - exact Hst.
Qed.

Lemma V1_store_down_orphan_witness :
  fst (V1.deploy Scenario.store_down Sample.my_bot Scenario.blank)
  = Ok (json 500 (FailureBody "Deployment failed"
          (JStr "Cannot read properties of undefined (reading 'collection')")))
  /\ map method (sent (snd (V1.deploy Scenario.store_down Sample.my_bot Scenario.blank)))
     = ["POST"; "PATCH"; "POST"].
Proof.
  destruct (V1_store_down_orphan Scenario.store_down Sample.my_bot Scenario.blank
              (logging [("Error checking deployment limit:",
                         LogExn (TypeError
                           "Cannot read properties of undefined (reading 'collection')"))]
                       Scenario.blank)
              "Alice" "my-bot-"
              (TypeError "Cannot read properties of undefined (reading 'collection')")
              (TypeError "Cannot read properties of undefined (reading 'collection')")
              [("SESSION_ID", JStr "abc"); ("PREFIX", JStr ".")]
              (Own "https://github.com/JawadTechXD/KHAN-MD/tarball/main"))
    as (Hr & Hsent & _).
  - reflexivity.
  - discriminate.
  - reflexivity.
  - reflexivity.
  - reflexivity.
  - reflexivity.
  - reflexivity.
  - reflexivity.
  - reflexivity.
  - reflexivity.
  - reflexivity.
  - rewrite Hr, Hsent. split; reflexivity.
Defined.

(** ** The loop over the configuration *)

Lemma assign_keys (obj : list (string * jsval)) (key : string) (v : jsval) :
  map fst (assign obj key v)
  = if existsb (String.eqb key) (map fst obj) then map fst obj
    else (map fst obj ++ [key])%list.
Proof.
  induction obj as [|[k x] r IH]; simpl; [reflexivity|].
  rewrite (String.eqb_sym key k).
  destruct (k =? key) eqn:Hk; simpl; [reflexivity|].
  rewrite IH. destruct (existsb (String.eqb key) (map fst r)); reflexivity.
Qed.

Lemma assign_in (obj : list (string * jsval)) (key : string) (v : jsval)
      (k : string) (x : jsval) :
  In (k, x) (assign obj key v) -> (k = key /\ x = v) \/ In (k, x) obj.
Proof.
  induction obj as [|[k' x'] r IH]; simpl.
  - intros [H | []]. injection H as <- <-. now left.
  - destruct (k' =? key) eqn:Hk; simpl.
    + apply String.eqb_eq in Hk. subst k'.
      intros [H | H]; [injection H as <- <-; now left | right; now right].
    + intros [H | H]; [right; now left|].
      destruct (IH H) as [Hl | Hr]; [now left | right; now right].
Qed.

Lemma set_prop_keys (obj : list (string * jsval)) (key : string) (v : jsval) :
  NoDup (map fst obj) -> ~ In "__proto__" (map fst obj) ->
  NoDup (map fst (set_prop obj key v))
  /\ ~ In "__proto__" (map fst (set_prop obj key v))
  /\ (forall k, In k (map fst obj) -> In k (map fst (set_prop obj key v)))
  /\ (key <> "__proto__" -> In key (map fst (set_prop obj key v))).
Proof.
  intros Hnd Hp. unfold set_prop.
  destruct (key =? "__proto__") eqn:Hk.
  - apply String.eqb_eq in Hk. repeat split; try assumption; tauto.
  - apply String.eqb_neq in Hk. rewrite assign_keys.
    destruct (existsb (String.eqb key) (map fst obj)) eqn:Hx.
    + repeat split; try assumption; try tauto. intros _.
      apply existsb_exists in Hx. destruct Hx as (y & Hy & He).
      apply String.eqb_eq in He. now subst y.
    + assert (Hfresh : ~ In key (map fst obj)).
      { intros Hin. apply Bool.not_true_iff_false in Hx. apply Hx.
        apply existsb_exists. exists key. split; [exact Hin | apply String.eqb_refl]. }
      repeat split.
      * apply NoDup_app; [exact Hnd | repeat constructor; tauto |].
        intros a Ha [<- | []]. contradiction.
      * intros Hin. apply in_app_or in Hin. destruct Hin as [Hin | [He | []]];
          [contradiction | congruence].
      * intros k Hin. apply in_or_app. now left.
      * intros _. apply in_or_app. right. now left.
Qed.

Lemma collect_shape (entries acc vars : list (string * jsval)) :
  collect entries acc = Ok vars ->
  NoDup (map fst acc) -> ~ In "__proto__" (map fst acc) ->
  NoDup (map fst vars)
  /\ ~ In "__proto__" (map fst vars)
  /\ (forall k v, In (k, v) vars ->
                  In (k, v) acc
                  \/ exists value, In (k, value) entries /\ v = value_of value)
  /\ (forall k, In k (map fst acc) -> In k (map fst vars))
  /\ (forall k value, In (k, value) entries -> k <> "__proto__" ->
                      In k (map fst vars)).
Proof.
  revert acc. induction entries as [|[key value] rest IH]; intros acc; simpl.
  - intros H Hnd Hp. injection H as <-. repeat split; try assumption.
    + intros k v Hin. now left.
    + tauto.
    + intros k value [].
  - destruct (get_prop value "value") as [v|e] eqn:Hg; [|discriminate].
    intros H Hnd Hp.
    destruct (set_prop_keys acc key v Hnd Hp) as (Hnd' & Hp' & Hk' & Hkey).
    destruct (IH _ H Hnd' Hp') as (R1 & R2 & R3 & R4 & R5).
    assert (Hv : v = value_of value).
    { destruct value; simpl in Hg; try discriminate; now injection Hg as <-. }
    repeat split; try assumption.
    + intros k x Hin. destruct (R3 k x Hin) as [Ha | (w & Hw & ->)].
      * unfold set_prop in Ha. destruct (key =? "__proto__"); [now left|].
        apply assign_in in Ha. destruct Ha as [[-> ->] | Ha]; [|now left].
        right. exists value. split; [now left | exact Hv].
      * right. exists w. split; [now right | reflexivity].
    + intros k Hin. apply R4. now apply Hk'.
    + intros k w [Heq | Hin] Hne.
      * injection Heq as <- <-. apply R4. now apply Hkey.
      * now apply (R5 k w).
Qed.

Lemma collect_defined (entries acc : list (string * jsval)) :
  (exists vars, collect entries acc = Ok vars)
  <-> Forall (fun kv => snd kv <> JUndefined /\ snd kv <> JNull) entries.
Proof.
  revert acc. induction entries as [|[key value] rest IH]; intros acc; simpl.
  - split; [constructor | now eexists].
  - destruct value; simpl;
      try (rewrite IH; split;
           [intros H; constructor; [split; discriminate | exact H]
           | intros H; now inversion H]).
    + split; [intros [vars H]; discriminate | intros H; inversion H; simpl in *; tauto].
    + split; [intros [vars H]; discriminate | intros H; inversion H; simpl in *; tauto].
Qed.

(** The configuration variables sent to Heroku.  The loop succeeds
    exactly when the configuration can be enumerated (it is not [null] or
    absent) and none of its entries is [null] or absent; then every key
    of the configuration except [__proto__] is among the variables, once,
    [__proto__] is not, and each variable holds the [.value] of an entry
    with its key. *)
Theorem configVars_loop (config : jsval) :
  ((exists vars, V1.configVars config = Ok vars)
   <-> exists entries,
         object_entries config = Ok entries
         /\ Forall (fun kv => snd kv <> JUndefined /\ snd kv <> JNull) entries)
  /\ (forall vars entries,
         V1.configVars config = Ok vars -> object_entries config = Ok entries ->
         NoDup (map fst vars)
         /\ ~ In "__proto__" (map fst vars)
         /\ (forall k value, In (k, value) entries -> k <> "__proto__" ->
                             In k (map fst vars))
         /\ (forall k v, In (k, v) vars ->
                         exists value, In (k, value) entries /\ v = value_of value)).
Proof.
  unfold V1.configVars. split.
  - destruct (object_entries config) as [entries|e].
    + rewrite collect_defined. split.
      * intros H. now exists entries.
      * intros (en & Hen & H). now injection Hen as ->.
    + split; [intros [vars H]; discriminate | intros (en & Hen & _); discriminate].
  - intros vars entries H He. rewrite He in H.
    destruct (collect_shape entries [] vars H) as (R1 & R2 & R3 & _ & R5).
    + constructor.
    + simpl. tauto.
    + repeat split; try assumption.
      intros k v Hin. destruct (R3 k v Hin) as [[] | Hr]. exact Hr.
Qed.

Lemma configVars_loop_witness :
  V1.configVars (JObj [("A", JObj [("value", JStr "1")]);
                       ("__proto__", JObj [("value", JStr "2")]);
                       ("B", JStr "text")])
  = Ok [("A", JStr "1"); ("B", JUndefined)]
  /\ ~ (exists vars, V1.configVars (JObj [("A", JNull)]) = Ok vars).
Proof.
  split; [reflexivity|].
  intros H. apply (configVars_loop (JObj [("A", JNull)])) in H.
  destruct H as (entries & He & Hf). injection He as <-.
  inversion Hf as [|x l [_ Hn] _]. now apply Hn.
Defined.

(** ** Connecting, the middleware and the health route *)

(** [connectToMongo] never throws and never touches the collection or
    sends anything.  It returns [true] exactly when the connection and
    the index creation go through, which needs the stored tokens and the
    stored names to be distinct; when it returns [false] it has written
    one line, the error, on the console. *)
Theorem connectToMongo_answer (E : env) (st : state) :
  exists ok,
    fst (V2.connectToMongo E st) = Ok ok
    /\ store (snd (V2.connectToMongo E st)) = store st
    /\ sent (snd (V2.connectToMongo E st)) = sent st
    /\ (ok = true <->
        db_fault E Connect = None /\ db_fault E CreateIndex = None
        /\ distinct (map d_token (store st)) = true
        /\ distinct (map d_name (store st)) = true)
    /\ (ok = true -> console (snd (V2.connectToMongo E st)) = console st)
    /\ (ok = false ->
        exists e, console (snd (V2.connectToMongo E st))
                  = (console st ++ [("MongoDB connection error:", LogExn e)])%list).
Proof.
  change (map d_token (store st)) with (map (key_of KToken) (store st)).
  change (map d_name (store st)) with (map (key_of KName) (store st)).
  unfold V2.connectToMongo, try_catch, bind, createIndex, faulty, ret, console_error.
  destruct (db_fault E Connect) as [e|]; simpl.
  { exists false. repeat split; try discriminate; try (now eexists).
    intros (H & _). discriminate. }
  destruct (db_fault E CreateIndex) as [e|]; simpl.
  { exists false. repeat split; try discriminate; try (now eexists).
    intros (_ & H & _). discriminate. }
  destruct (distinct (map (key_of KToken) (store st))); simpl.
  2:{ exists false. repeat split; try discriminate; try (now eexists).
      intros (_ & _ & H & _). discriminate. }
  destruct (distinct (map (key_of KName) (store st))); simpl.
  2:{ exists false. repeat split; try discriminate; try (now eexists).
      intros (_ & _ & _ & H). discriminate. }
  exists true. repeat split; discriminate.
Qed.

(** The middleware lets a request through only with [db] set, and the
    handler then runs on the collection as it was.  When [db] is set
    already it does not connect again.  When it answers 500 itself,
    [connectToMongo] has just returned [false], nothing was stored or
    sent and the handler did not run; it never throws. *)
Theorem middleware_gate {A} (E : env) (next : bool -> M A) (p p' : Process.process)
        (r : Process.served A) :
  Process.middleware E next p = (r, p') ->
  (Process.db p = true ->
   r = Process.Next (fst (next true (Process.world p)))
   /\ p' = Process.mkProcess true (snd (next true (Process.world p))))
  /\ match r with
     | Process.Next res =>
         Process.db p' = true
         /\ exists st0, next true st0 = (res, Process.world p')
                        /\ store st0 = store (Process.world p)
                        /\ sent st0 = sent (Process.world p)
     | Process.DatabaseFailed =>
         Process.db p = false
         /\ V2.connectToMongo E (Process.world p) = (Ok false, Process.world p')
         /\ store (Process.world p') = store (Process.world p)
         /\ sent (Process.world p') = sent (Process.world p)
     | Process.Unhandled _ => False
     end.
Proof.
  unfold Process.middleware, Process.connectToMongo.
  destruct p as [d w]. simpl.
  destruct d; simpl.
  - destruct (next true w) as [res w'] eqn:Hn. intros H. injection H as <- <-.
    split; [now split|]. simpl. split; [reflexivity|]. now exists w.
  - destruct (V2.connectToMongo E w) as [c w1] eqn:Hc.
    assert (Hw : store w1 = store w /\ sent w1 = sent w
                 /\ (c = Ok true -> db_fault E Connect = None)
                 /\ (c = Ok true \/ c = Ok false)).
    { revert Hc.
      unfold V2.connectToMongo, try_catch, bind, createIndex, faulty, ret,
        console_error.
      destruct (db_fault E Connect); simpl.
      { intros H. injection H as <- <-. repeat split; try discriminate. now right. }
      destruct (db_fault E CreateIndex); simpl.
      { intros H. injection H as <- <-. repeat split; try discriminate. now right. }
      destruct (distinct (map (key_of KToken) (store w))); simpl.
      2:{ intros H. injection H as <- <-. repeat split; try discriminate. now right. }
      destruct (distinct (map (key_of KName) (store w))); simpl.
      2:{ intros H. injection H as <- <-. repeat split; try discriminate. now right. }
      intros H. injection H as <- <-. repeat split. now left. }
    destruct Hw as (Hst & Hse & Hco & [-> | ->]).
    + rewrite (Hco eq_refl). simpl.
      destruct (next true w1) as [res w'] eqn:Hn. intros H. injection H as <- <-.
      split; [discriminate|]. simpl. split; [reflexivity|]. now exists w1.
    + intros H. injection H as <- <-. split; [discriminate|]. simpl.
      now repeat split.
Qed.

Lemma middleware_gate_witness :
  fst (Process.post_deploy Scenario.unreachable Sample.my_bot Scenario.fresh)
  = Process.DatabaseFailed
  /\ store (Process.world
             (snd (Process.post_deploy Scenario.unreachable Sample.my_bot Scenario.fresh)))
     = [].
Proof.
  pose proof (middleware_gate Scenario.unreachable
                (fun _ => V2.deploy Scenario.unreachable Sample.my_bot)
                Scenario.fresh
                (snd (Process.post_deploy Scenario.unreachable Sample.my_bot Scenario.fresh))
                Process.DatabaseFailed eq_refl) as (_ & _ & _ & Hs & _).
  split; [reflexivity | exact Hs].
Defined.

(** [GET /health] never reports "Disconnected": behind the middleware it
    either is not reached (500 "Database connection failed") or answers
    [{ status: "OK", database: "Connected" }]; and it leaves the
    collection alone. *)
Theorem health_never_disconnected (E : env) (p : Process.process) :
  (fst (Process.get_health E p) = Process.DatabaseFailed
   \/ fst (Process.get_health E p) = Process.Next (Ok (Process.mkHealth "OK" "Connected")))
  /\ store (Process.world (snd (Process.get_health E p))) = store (Process.world p).
Proof.
  unfold Process.get_health, Process.middleware, Process.connectToMongo,
    Process.health, ret.
  destruct p as [d w]. destruct d; simpl; [split; [now right | reflexivity]|].
  unfold V2.connectToMongo, try_catch, bind, createIndex, faulty, ret, console_error.
  destruct (db_fault E Connect); simpl; [split; [now left | reflexivity]|].
  destruct (db_fault E CreateIndex); simpl; [split; [now left | reflexivity]|].
  destruct (distinct (map (key_of KToken) (store w))); simpl;
    [|split; [now left | reflexivity]].
  destruct (distinct (map (key_of KName) (store w))); simpl;
    [|split; [now left | reflexivity]].
  split; [now right | reflexivity].
Qed.

(** When the connection is made but [connectToMongo] returns [false]
    (the indexes could not be created), the request at hand is answered
    500, yet [db] is set by then: every later request goes straight to
    its handler and nothing creates the indexes again, so a unique index
    on the name that was missing stays missing. *)
Theorem failed_indexes_not_retried (E E' : env) (b b' : deploy_body)
        (p : Process.process) :
  Process.db p = false ->
  db_fault E Connect = None ->
  fst (V2.connectToMongo E (Process.world p)) = Ok false ->
  ~ In (mkIndex KName true) (indexes (Process.world p)) ->
  let p1 := snd (Process.post_deploy E b p) in
  fst (Process.post_deploy E b p) = Process.DatabaseFailed
  /\ Process.db p1 = true
  /\ Process.post_deploy E' b' p1
     = (Process.Next (fst (V2.deploy E' b' (Process.world p1))),
        Process.mkProcess true (snd (V2.deploy E' b' (Process.world p1))))
  /\ ~ In (mkIndex KName true)
          (indexes (Process.world (snd (Process.post_deploy E' b' p1)))).
Proof.
  destruct p as [d w]. simpl. intros -> Hco Hf Hno.
  assert (Hw : ~ In (mkIndex KName true) (indexes (snd (V2.connectToMongo E w)))).
  { revert Hf.
    unfold V2.connectToMongo, try_catch, bind, createIndex, faulty, ret, console_error.
    rewrite Hco. simpl.
    destruct (db_fault E CreateIndex); simpl; [intros _; exact Hno|].
    destruct (distinct (map (key_of KToken) (store w))); simpl.
    2:{ intros _ Hin. apply in_app_or in Hin.
        destruct Hin as [Hin | [Hin | []]]; [contradiction | discriminate]. }
    destruct (distinct (map (key_of KName) (store w))); simpl; [discriminate|].
    intros _ Hin. apply in_app_or in Hin. destruct Hin as [Hin | [Hin | []]];
      [|discriminate].
    apply in_app_or in Hin. destruct Hin as [Hin | [Hin | []]];
      [contradiction | discriminate]. }
  unfold Process.post_deploy, Process.middleware, Process.connectToMongo. simpl.
  destruct (V2.connectToMongo E w) as [c w1]. simpl in *. subst c. rewrite Hco. simpl.
  split; [reflexivity|]. split; [reflexivity|].
  destruct (V2.deploy E' b' w1) as [r w2] eqn:Hd. simpl.
  split; [reflexivity|].
  apply V2_deploy_outcome in Hd. destruct Hd as [Hi _]. now rewrite Hi.
Qed.

Lemma failed_indexes_not_retried_witness :
  fst (Process.post_deploy Scenario.no_indexes Sample.my_bot Scenario.fresh)
  = Process.DatabaseFailed
  /\ fst (Process.post_deploy Sample.world Sample.my_bot
            (snd (Process.post_deploy Scenario.no_indexes Sample.my_bot Scenario.fresh)))
     = Process.Next (Ok (json 200 (StartedNamedBody started Sample.uuid_c "my-bot-")))
  /\ indexes (Process.world
                (snd (Process.post_deploy Sample.world Sample.my_bot
                        (snd (Process.post_deploy Scenario.no_indexes Sample.my_bot
                                                  Scenario.fresh)))))
     = [].
Proof.
  destruct (failed_indexes_not_retried Scenario.no_indexes Sample.world
              Sample.my_bot Sample.my_bot Scenario.fresh) as (H1 & _ & H3 & _).
  - reflexivity.
  - reflexivity.
  - reflexivity.
  - simpl. tauto.
  - split; [exact H1|]. rewrite H3. split; reflexivity.
Defined.

(** The counting route answers with the number of stored deployments
    whose owner is the given name in lower case, so 0 for an owner nobody
    has stored, never an error for an unknown name, and the same count
    however the name is cased; when the query throws it answers 500 and
    writes the error on the console.  It leaves the collection alone. *)
Theorem counting_route (E : env) (who : string) (st : state) :
  (db_fault E CountDocuments = None ->
   exists n,
     getDeployments E who st = (Ok (json 200 (CountBody n)), st)
     /\ n = length (filter (fun d => d_username d =? toLowerCase who) (store st))
     /\ getDeployments E (toLowerCase who) st = getDeployments E who st
     /\ ((forall d, In d (store st) -> d_username d <> toLowerCase who) -> n = 0)
     /\ (lower_cased (store st) -> n = Spec.prior who (store st)))
  /\ (forall e, db_fault E CountDocuments = Some e ->
                getDeployments E who st
                = (Ok (json 500 (ErrorBody "Internal server error")),
                   logging [("Error getting deployments:", LogExn e)] st)).
Proof.
  unfold getDeployments, try_catch, bind, countDocuments, faulty, ret, console_error,
    count_occ_key.
  split.
  - intros ->. simpl. eexists. split; [reflexivity|]. split; [reflexivity|].
    split; [now rewrite toLowerCase_idem|]. split.
    + intros Hn. induction (store st) as [|a r IH]; [reflexivity|]. simpl.
      destruct (d_username a =? toLowerCase who) eqn:Ha.
      * apply String.eqb_eq in Ha. exfalso. apply (Hn a); [now left | exact Ha].
      * apply IH. intros d Hd. apply Hn. now right.
    + intros Hl. apply (count_prior who _ Hl).
  - intros e ->. reflexivity.
Qed.

Lemma counting_route_witness :
  getDeployments Sample.world "AlIcE" Sample.three
  = (Ok (json 200 (CountBody 2)), Sample.three)
  /\ getDeployments Sample.world "nobody" Sample.three
     = (Ok (json 200 (CountBody 0)), Sample.three).
Proof.
  split.
  - destruct (counting_route Sample.world "AlIcE" Sample.three) as [H _].
    destruct (H eq_refl) as (n & Hg & Hn & _). rewrite Hg, Hn. reflexivity.
  - destruct (counting_route Sample.world "nobody" Sample.three) as [H _].
    destruct (H eq_refl) as (n & Hg & _ & _ & H0 & _). rewrite Hg, H0; [reflexivity|].
    intros d [<- | [<- | [<- | []]]]; discriminate.
Defined.

Lemma coherent_three : coherent Sample.three.
Proof.
  split; [repeat constructor|].
  intros k [Hk | [Hk | [Hk | []]]]; try discriminate Hk; injection Hk as <-; reflexivity.
Qed.

Lemma deploy_coherent_witness :
  coherent (snd (V1.deploy Sample.world Sample.my_bot Sample.three))
  /\ coherent (snd (V2.deploy Sample.world Sample.my_bot Sample.three)).
Proof. exact (deploy_coherent Sample.world Sample.my_bot Sample.three coherent_three). Defined.

Lemma deleteBot_coherent_witness :
  coherent (snd (V1.deleteBot Sample.world "my-bot-" (JStr Sample.uuid_a) Sample.three))
  /\ coherent (snd (V2.deleteBot Sample.world "my-bot-" (JStr Sample.uuid_a) Sample.three)).
Proof.
  exact (deleteBot_coherent Sample.world "my-bot-" (JStr Sample.uuid_a) Sample.three
           coherent_three).
Defined.

Lemma connectToMongo_coherent_witness :
  coherent (snd (V2.connectToMongo Sample.world
                   (mkState [Sample.alice1; Sample.bob1] [] [] [] 0 3)))
  /\ In (mkIndex KName true)
        (indexes (snd (V2.connectToMongo Sample.world
                         (mkState [Sample.alice1; Sample.bob1] [] [] [] 0 3)))).
Proof.
  destruct (connectToMongo_coherent Sample.world
              (mkState [Sample.alice1; Sample.bob1] [] [] [] 0 3)) as [Hc Hi].
  - split; [repeat constructor | intros k []].
  - split; [exact Hc|]. now apply Hi.
Defined.

Lemma connectToMongo_answer_witness :
  fst (V2.connectToMongo Sample.world
         (mkState [Sample.alice1; Sample.alice1] [] [] [] 0 2)) = Ok false
  /\ fst (V2.connectToMongo Sample.world Scenario.blank) = Ok true.
Proof.
  split.
  - destruct (connectToMongo_answer Sample.world
                (mkState [Sample.alice1; Sample.alice1] [] [] [] 0 2))
      as (ok & Hok & _ & _ & Hiff & _).
    rewrite Hok. destruct ok; [|reflexivity].
    destruct (proj1 Hiff eq_refl) as (_ & _ & Hd & _). discriminate Hd.
  - destruct (connectToMongo_answer Sample.world Scenario.blank)
      as (ok & Hok & _ & _ & Hiff & _).
    rewrite Hok. f_equal. apply Hiff. repeat split.
Defined.

(** First snapshot: when Heroku has deleted the app but the removal of
    the record throws, the request is answered 500 and the record stays,
    so the token still lists an app that no longer exists. *)
Theorem V1_delete_stale_record (E : env) (appName t : string) (d : deployment)
        (st : state) (e : exn) :
  t <> "" -> db_fault E FindOne = None -> db_fault E Find = None ->
  find (fun x => d_token x =? t) (store st) = Some d ->
  d_name d = appName ->
  axios E (V1.deleteApp E appName) = None ->
  db_fault E DeleteOne = Some e ->
  let st' := logging [("Error deleting bot:", LogExn e)]
                     (sending [V1.deleteApp E appName] st) in
  V1.deleteBot E appName (JStr t) st
  = (Ok (json 500 (ErrorBody "Internal server error")), st')
  /\ store st' = store st
  /\ exists bots,
       getBots E (JStr t) st' = (Ok (json 200 (BotsBody bots)), st')
       /\ In (project d) bots.
Proof.
  intros Ht Hf1 Hf2 Hf Hn Ha Hd. cbv zeta.
  unfold V1.deleteBot, getBots, try_catch, bind, findOne, find_by_username,
    deleteOne, request, faulty, ret, console_error.
  rewrite (truthy_JStr t Ht), Hf1, Hf2. simpl.
  rewrite Hf, Hn, String.eqb_refl, Ha. simpl. rewrite Hd. simpl.
  split; [reflexivity|]. split; [reflexivity|].
  eexists. split; [reflexivity|]. apply in_map. apply filter_In.
  split; [now apply find_some in Hf | apply String.eqb_refl].
Qed.

Lemma V1_delete_stale_record_witness :
  fst (V1.deleteBot (mkEnv (fun op => match op with
                                      | DeleteOne => Some (MongoError 89 "timed out")
                                      | _ => None
                                      end)
                           (fun _ => None) None "HRKU-KEY" Sample.uuid_supply 0%Z
                           Sample.dup_text Sample.operators (fun _ => None))
                    "bobs" (JStr (d_token Sample.bob1)) Sample.three)
  = Ok (json 500 (ErrorBody "Internal server error")).
Proof.
  destruct (V1_delete_stale_record
              (mkEnv (fun op => match op with
                                | DeleteOne => Some (MongoError 89 "timed out")
                                | _ => None
                                end)
                     (fun _ => None) None "HRKU-KEY" Sample.uuid_supply 0%Z
                     Sample.dup_text Sample.operators (fun _ => None))
              "bobs" (d_token Sample.bob1) Sample.bob1 Sample.three
              (MongoError 89 "timed out")) as [H _].
  - discriminate.
  - reflexivity.
  - reflexivity.
  - reflexivity.
  - reflexivity.
  - reflexivity.
  - reflexivity.
  - rewrite H. reflexivity.
Defined.

(** ** Tokens that are strings *)

(** In both snapshots a deletion request without a token, or with an
    empty one, is answered 400 "Token is required"; with a string token
    that no stored deployment has, 404 "Invalid token"; with the string
    token of a deployment whose name is not the requested one, 403 "Not
    authorized to delete this app".  In the three cases nothing is sent
    and the collection, like the rest of the state, is left as it was. *)
Theorem delete_refusals (E : env) (appName : string) (token : jsval) (st : state) :
  (truthy token = false ->
   V1.deleteBot E appName token st
   = (Ok (json 400 (ErrorBody "Token is required")), st)
   /\ V2.deleteBot E appName token st
      = (Ok (json 400 (ErrorBody "Token is required")), st))
  /\ (forall t,
         token = JStr t -> t <> "" -> db_fault E FindOne = None ->
         (forall d, In d (store st) -> d_token d <> t) ->
         V1.deleteBot E appName token st
         = (Ok (json 404 (ErrorBody "Invalid token")), st)
         /\ V2.deleteBot E appName token st
            = (Ok (json 404 (ErrorBody "Invalid token")), st))
  /\ (forall t d,
         token = JStr t -> t <> "" -> db_fault E FindOne = None ->
         find (fun d => d_token d =? t) (store st) = Some d ->
         d_name d <> appName ->
         V1.deleteBot E appName token st
         = (Ok (json 403 (ErrorBody "Not authorized to delete this app")), st)
         /\ V2.deleteBot E appName token st
            = (Ok (json 403 (ErrorBody "Not authorized to delete this app")), st)).
Proof.
  unfold V1.deleteBot, V2.deleteBot, try_catch, bind.
  split; [|split].
  - intros Ht. rewrite Ht. now split.
  - intros t -> Ht Hdb Habs. rewrite (truthy_JStr t Ht). cbn [negb].
    rewrite (findOne_string E t st Hdb), (find_absent t _ Habs). now split.
  - intros t d -> Ht Hdb Hf Hn. rewrite (truthy_JStr t Ht). cbn [negb].
    rewrite (findOne_string E t st Hdb), Hf.
    apply String.eqb_neq in Hn. rewrite Hn. now split.
Qed.

Lemma delete_refusals_witness :
  V1.deleteBot Sample.world "bobs" (JStr Sample.uuid_a) Sample.three
  = (Ok (json 403 (ErrorBody "Not authorized to delete this app")), Sample.three)
  /\ V2.deleteBot Sample.world "bobs" (JStr Sample.uuid_c) Sample.three
     = (Ok (json 404 (ErrorBody "Invalid token")), Sample.three)
  /\ V2.deleteBot Sample.world "bobs" (JStr "") Sample.three
     = (Ok (json 400 (ErrorBody "Token is required")), Sample.three).
Proof.
  split; [|split].
  - apply (delete_refusals Sample.world "bobs" (JStr Sample.uuid_a) Sample.three)
      with (t := Sample.uuid_a) (d := Sample.alice1);
      try reflexivity; discriminate.
  - apply (delete_refusals Sample.world "bobs" (JStr Sample.uuid_c) Sample.three)
      with (t := Sample.uuid_c); try reflexivity; try discriminate.
    intros d [<- | [<- | [<- | []]]]; discriminate.
  - apply (delete_refusals Sample.world "bobs" (JStr "") Sample.three). reflexivity.
Defined.

(** A listing request with the string token of a stored deployment is
    answered with the stored deployments whose owner is that
    deployment's owner, all of them and no deployment of another owner,
    each reduced to its name, type and creation time; a string token
    that no stored deployment has is answered 404 "Invalid token", and a
    missing or empty token 400 "Token is required".  The state is left
    as it was. *)
Theorem listing_by_token (E : env) (token : jsval) (st : state) :
  (truthy token = false ->
   getBots E token st = (Ok (json 400 (ErrorBody "Token is required")), st))
  /\ (forall t,
         token = JStr t -> t <> "" -> db_fault E FindOne = None ->
         (forall d, In d (store st) -> d_token d <> t) ->
         getBots E token st = (Ok (json 404 (ErrorBody "Invalid token")), st))
  /\ (forall t d,
         token = JStr t -> t <> "" -> db_fault E FindOne = None ->
         db_fault E Find = None ->
         find (fun d => d_token d =? t) (store st) = Some d ->
         exists owned,
           getBots E token st = (Ok (json 200 (BotsBody (map project owned))), st)
           /\ (forall x, In x owned <-> In x (store st) /\ d_username x = d_username d)
           /\ In d owned
           /\ (forall x, name (project x) = d_name x
                         /\ type (project x) = d_type x
                         /\ createdAt (project x) = d_createdAt x)).
Proof.
  unfold getBots, try_catch, bind.
  split; [|split].
  - intros Ht. now rewrite Ht.
  - intros t -> Ht Hdb Habs. rewrite (truthy_JStr t Ht). cbn [negb].
    now rewrite (findOne_string E t st Hdb), (find_absent t _ Habs).
  - intros t d -> Ht Hdb Hdb' Hf. rewrite (truthy_JStr t Ht). cbn [negb].
    rewrite (findOne_string E t st Hdb), Hf.
    unfold find_by_username, faulty, ret. rewrite Hdb'.
    exists (filter (fun x => d_username x =? d_username d) (store st)).
    split; [reflexivity|].
    assert (Hin : forall x, In x (filter (fun x => d_username x =? d_username d)
                                         (store st))
                            <-> In x (store st) /\ d_username x = d_username d).
    { intros x. rewrite filter_In. now rewrite String.eqb_eq. }
    split; [exact Hin|]. split.
    + apply Hin. split; [|reflexivity]. now apply find_some in Hf.
    + intros x. now repeat split.
Qed.

Lemma listing_by_token_witness :
  exists owned,
    getBots Sample.world (JStr Sample.uuid_b) Sample.three
    = (Ok (json 200 (BotsBody (map project owned))), Sample.three)
    /\ In Sample.alice1 owned /\ In Sample.alice2 owned /\ ~ In Sample.bob1 owned.
Proof.
  destruct (listing_by_token Sample.world (JStr Sample.uuid_b) Sample.three)
    as (_ & _ & H).
  destruct (H Sample.uuid_b Sample.alice2) as (owned & Hg & Hin & Hd & _).
  - reflexivity.
  - discriminate.
  - reflexivity.
  - reflexivity.
  - reflexivity.
  - exists owned. split; [exact Hg|]. split; [|split; [exact Hd|]].
    + apply Hin. split; [now left | reflexivity].
    + intros Hb. apply Hin in Hb. destruct Hb as [_ Hb]. discriminate Hb.
Defined.

(** ** A bot type that cannot be converted to a string *)

(** A bot type that is an object with an own [toString] key cannot be
    converted to a string.  With no requested name the template literal
    of the name throws outside every [try]: unless the limit check has
    already answered 400 the request gets no response, nothing is stored
    and nothing is sent to Heroku, in both snapshots.  With a requested
    name the first snapshot creates and configures the app, and the read
    of [REPOSITORIES[bot_type]] then throws: the request is answered 500
    with the message of the [TypeError], no build is asked for and
    nothing is stored. *)
Theorem bot_type_not_convertible (E : env) (b : deploy_body) (st : state)
        (fields : list (string * jsval)) :
  truthy (username b) = true -> truthy (session_id b) = true ->
  bot_type b = JObj fields -> lookup "toString" fields <> None ->
  let e := TypeError "Cannot convert object to primitive value" in
  (appname b = JUndefined \/ appname b = JNull
   \/ (exists s, appname b = JStr s /\ trim s = "") ->
   forall r st',
     V1.deploy E b st = (r, st') \/ V2.deploy E b st = (r, st') ->
     store st' = store st
     /\ (forall c, In c (sent st') -> In c (sent st) \/ method c = "GET")
     /\ (r = Throw e \/ exists n l, r = Ok (json 400 (ErrorBody (limit_message n l)))))
  /\ (forall stq st1 name vars,
         checkLimit E V1.proUrl (username b) st = (Ok None, stq) ->
         generatedAppName E (appname b) (bot_type b) stq = (Ok name, st1) ->
         V1.configVars (config b) = Ok vars ->
         axios E (V1.createApp E name) = None ->
         axios E (V1.setConfigVars E name vars) = None ->
         V1.deploy E b st
         = (Ok (json 500 (FailureBody "Deployment failed"
                            (JStr "Cannot convert object to primitive value"))),
            logging [("Deployment error:",
                      LogVal (JStr "Cannot convert object to primitive value"))]
                    (sending [V1.createApp E name; V1.setConfigVars E name vars] st1))
         /\ store st1 = store st).
Proof.
  intros Hu Hs Hb Hf. cbv zeta.
  assert (Ht : toString (bot_type b)
               = Throw (TypeError "Cannot convert object to primitive value")).
  { rewrite Hb. cbn [toString]. destruct (lookup "toString" fields); [reflexivity|].
    now contradiction Hf. }
  split.
  - intros Ha r st' H.
    assert (Hmain : forall proUrl (k : string -> M response),
               after_check (checkLimit E proUrl (username b) st)
                 (name <- generatedAppName E (appname b) (bot_type b) ;; k name)
               = (r, st') ->
               store st' = store st
               /\ (forall c, In c (sent st') -> In c (sent st) \/ method c = "GET")
               /\ (r = Throw (TypeError "Cannot convert object to primitive value")
                   \/ exists n l, r = Ok (json 400 (ErrorBody (limit_message n l))))).
    { intros proUrl k. unfold after_check.
      destruct (checkLimit E proUrl (username b) st) as [ro stq] eqn:Hc.
      destruct (checkLimit_same_data _ _ _ _ _ _ Hc) as (Hst & _).
      destruct (checkLimit_answers _ _ _ _ _ _ Hc) as [[o ->] Hsent].
      assert (Hq : forall c, In c (sent stq) -> In c (sent st) \/ method c = "GET").
      { intros c Hin. destruct Hsent as [Hq | Hq]; rewrite Hq in Hin; [now left|].
        apply in_app_or in Hin.
        destruct Hin as [Hin | [<- | []]]; [now left | now right]. }
      destruct o as [rej|].
      - intros Hr. injection Hr as <- <-. split; [exact Hst|]. split; [exact Hq|].
        right. apply checkLimit_rejection in Hc. destruct Hc as (n & l & ->).
        now exists n, l.
      - unfold bind. rewrite (generatedAppName_unprintable E _ _ _ stq Ha Ht).
        intros Hr. injection Hr as <- <-. split; [exact Hst|]. split; [exact Hq|].
        now left. }
    destruct H as [H | H].
    + rewrite V1_deploy_checked in H by assumption.
      exact (Hmain V1.proUrl (V1.provision E b) H).
    + rewrite V2_deploy_checked in H by assumption.
      exact (Hmain V2.proUrl (V2.persist E b) H).
  - intros stq st1 name vars Hc Hg Hcfg H1 H2.
    rewrite (V1_deploy_provision E b st stq st1 name Hu Hs Hc Hg).
    destruct (V1_provision_steps E b name st1) as (_ & _ & _ & S4 & _).
    split.
    + rewrite (S4 vars (TypeError "Cannot convert object to primitive value") H1 Hcfg H2).
      * reflexivity.
      * unfold repository. now rewrite Ht.
    + destruct (before_provision E _ b st stq st1 _ _ Hc Hg) as [Hst _]. exact Hst.
Qed.

Lemma bot_type_not_convertible_witness :
  fst (V2.deploy Sample.world
         (mkBody (JStr "Alice") (JStr "sess") JUndefined
                 (JObj [("toString", JNum 1)]) Sample.settings)
         Sample.one)
  = Throw (TypeError "Cannot convert object to primitive value")
  /\ fst (V1.deploy Sample.world
            (mkBody (JStr "Alice") (JStr "sess") (JStr "mine")
                    (JObj [("toString", JNum 1)]) Sample.settings)
            Sample.one)
     = Ok (json 500 (FailureBody "Deployment failed"
                       (JStr "Cannot convert object to primitive value"))).
Proof.
  split.
  - destruct (bot_type_not_convertible Sample.world
                (mkBody (JStr "Alice") (JStr "sess") JUndefined
                        (JObj [("toString", JNum 1)]) Sample.settings)
                Sample.one [("toString", JNum 1)]) as [H _].
    + reflexivity.
    + reflexivity.
    + reflexivity.
    + discriminate.
    + destruct (H (or_introl eq_refl)
                  (fst (V2.deploy Sample.world
                          (mkBody (JStr "Alice") (JStr "sess") JUndefined
                                  (JObj [("toString", JNum 1)]) Sample.settings)
                          Sample.one))
                  (snd (V2.deploy Sample.world
                          (mkBody (JStr "Alice") (JStr "sess") JUndefined
                                  (JObj [("toString", JNum 1)]) Sample.settings)
                          Sample.one)))
        as (_ & _ & [Hr | (n & l & Hr)]).
      * right. reflexivity.
      * exact Hr.
      * vm_compute in Hr. discriminate Hr.
  - destruct (bot_type_not_convertible Sample.world
                (mkBody (JStr "Alice") (JStr "sess") (JStr "mine")
                        (JObj [("toString", JNum 1)]) Sample.settings)
                Sample.one [("toString", JNum 1)]) as [_ H].
    + reflexivity.
    + reflexivity.
    + reflexivity.
    + discriminate.
    + destruct (H (snd (checkLimit Sample.world V1.proUrl (JStr "Alice") Sample.one))
                  (snd (checkLimit Sample.world V1.proUrl (JStr "Alice") Sample.one))
                  "mine" [("SESSION_ID", JStr "abc"); ("PREFIX", JStr ".")])
        as [Hd _].
      * reflexivity.
      * reflexivity.
      * reflexivity.
      * reflexivity.
      * reflexivity.
      * rewrite Hd. reflexivity.
Defined.

(** ** Two requests of one owner *)

(** The count is read and the document inserted at different [await]s
    of the handler.  When two requests of one owner, who is one
    deployment short of the limit, are both checked before either is
    inserted, both pass the check; when both insertions are then
    accepted, the owner ends with one deployment more than the limit. *)
Theorem limit_check_race (E : env) (b1 b2 : deploy_body) (owner n1 n2 : string)
        (st s1 s2 s3 s4 s5 s6 : state) (c1 c2 : result (option response))
        (r1 r2 : response) :
  username b1 = JStr owner -> username b2 = JStr owner ->
  db_fault E CountDocuments = None ->
  lower_cased (store st) ->
  (forall proUrl doc, fetched E proUrl = Some doc -> Spec.well_formed doc) ->
  (Z.of_nat (Spec.prior owner (store st)) + 1
   = Spec.limit (fetched E V2.proUrl) owner)%Z ->
  checkLimit E V2.proUrl (username b1) st = (c1, s1) ->
  checkLimit E V2.proUrl (username b2) s1 = (c2, s2) ->
  generatedAppName E (appname b1) (bot_type b1) s2 = (Ok n1, s3) ->
  V2.persist E b1 n1 s3 = (Ok r1, s4) -> status r1 = 200%Z ->
  generatedAppName E (appname b2) (bot_type b2) s4 = (Ok n2, s5) ->
  V2.persist E b2 n2 s5 = (Ok r2, s6) -> status r2 = 200%Z ->
  c1 = Ok None /\ c2 = Ok None
  /\ (Z.of_nat (Spec.prior owner (store s6))
      = Spec.limit (fetched E V2.proUrl) owner + 1)%Z.
Proof.
  intros Hb1 Hb2 Hdb Hl Hwf Hlim Hc1 Hc2 Hg1 Hp1 H1 Hg2 Hp2 H2.
  assert (Hlt : (Z.of_nat (Spec.prior owner (store st))
                 <? Spec.limit (fetched E V2.proUrl) owner)%Z = true).
  { apply Z.ltb_lt. rewrite <- Hlim. apply Z.lt_succ_diag_r. }
  destruct (checkLimit_same_data _ _ _ _ _ _ Hc1) as (Hs1 & _).
  destruct (checkLimit_same_data _ _ _ _ _ _ Hc2) as (Hs2 & _).
  rewrite Hb1 in Hc1. rewrite Hb2 in Hc2.
  rewrite (checkLimit_counted E V2.proUrl owner st Hdb Hl (Hwf V2.proUrl)), Hlt in Hc1.
  assert (Hl1 : lower_cased (store s1)) by now rewrite Hs1.
  rewrite (checkLimit_counted E V2.proUrl owner s1 Hdb Hl1 (Hwf V2.proUrl)), Hs1, Hlt
    in Hc2.
  injection Hc1 as <- _. injection Hc2 as <- _.
  split; [reflexivity|]. split; [reflexivity|].
  destruct (generatedAppName_store _ _ _ _ _ _ Hg1) as (Hs3 & _).
  destruct (V2_persist_200 E b1 n1 s3 s4 r1 Hp1 H1) as (o1 & Ho1 & _ & _ & Hs4).
  destruct (generatedAppName_store _ _ _ _ _ _ Hg2) as (Hs5 & _).
  destruct (V2_persist_200 E b2 n2 s5 s6 r2 Hp2 H2) as (o2 & Ho2 & _ & _ & Hs6).
  rewrite Hb1 in Ho1. injection Ho1 as <-. rewrite Hb2 in Ho2. injection Ho2 as <-.
  rewrite Hs6. cbn [inserted store after_uuid]. rewrite Hs5, Hs4.
  cbn [inserted store after_uuid]. rewrite Hs3, Hs2, Hs1.
  rewrite !prior_snoc. cbn [d_username].
  rewrite toLowerCase_idem, String.eqb_refl, !Nat2Z.inj_add, <- Hlim.
  rewrite <- !Z.add_assoc. reflexivity.
Qed.

Lemma limit_check_race_witness :
  Spec.limit (fetched Sample.world V2.proUrl) "Alice" = 2%Z
  /\ Spec.prior "Alice"
       (store (snd (V2.persist Sample.world Scenario.no_config "plain"
                      (snd (V2.persist Sample.world Scenario.shouting "my-bot"
                              (snd (checkLimit Sample.world V2.proUrl (JStr "Alice")
                                      (snd (checkLimit Sample.world V2.proUrl
                                              (JStr "Alice") Sample.one)))))))))
     = 3.
Proof.
  split; [reflexivity|].
  apply Nat2Z.inj.
  apply (limit_check_race Sample.world Scenario.shouting Scenario.no_config "Alice"
           "my-bot" "plain" Sample.one
           (snd (checkLimit Sample.world V2.proUrl (JStr "Alice") Sample.one))
           (snd (checkLimit Sample.world V2.proUrl (JStr "Alice")
                   (snd (checkLimit Sample.world V2.proUrl (JStr "Alice") Sample.one))))
           (snd (checkLimit Sample.world V2.proUrl (JStr "Alice")
                   (snd (checkLimit Sample.world V2.proUrl (JStr "Alice") Sample.one))))
           (snd (V2.persist Sample.world Scenario.shouting "my-bot"
                   (snd (checkLimit Sample.world V2.proUrl (JStr "Alice")
                           (snd (checkLimit Sample.world V2.proUrl (JStr "Alice")
                                   Sample.one))))))
           (snd (V2.persist Sample.world Scenario.shouting "my-bot"
                   (snd (checkLimit Sample.world V2.proUrl (JStr "Alice")
                           (snd (checkLimit Sample.world V2.proUrl (JStr "Alice")
                                   Sample.one))))))
           _
           (Ok None) (Ok None)
           (json 200 (StartedNamedBody started Sample.uuid_c "my-bot"))
           (json 200 (StartedNamedBody started Sample.uuid_d "plain")));
    try reflexivity.
  - repeat constructor.
  - intros proUrl doc Hf. vm_compute in Hf. injection Hf as <-.
    repeat constructor; discriminate.
Defined.
